(** * Ed Share tutoring marketplace: booking, pricing and tutor search

    A shallow embedding of the booking routes (create, cancel), the
    pricing stamped on a booking, and the tutor search route, together
    with the properties the design document states about them.

    Conventions of the embedding:
    - a MongoDB collection is a list of documents; [findOne] is [List.find];
    - wall-clock times are the strings the routes receive and store, and
      the store compares them the way MongoDB compares strings, byte by
      byte ([String.compare]);
    - amounts of money are binary64 floats, as JavaScript numbers are;
    - instants are milliseconds since the epoch, in [Z];
    - a handler returns its HTTP reply together with the new collection. *)

From Stdlib Require Import Bool Arith ZArith Lia List String Ascii.
From Stdlib Require Import QArith Qround Floats Reals Lra.
From Stdlib Require Import Sorting.Sorted Sorting.Permutation.
Import ListNotations.

Open Scope bool_scope.
Open Scope string_scope.
Open Scope Z_scope.

(** ** Wall-clock time strings *)

Module TimeOfDay.

(** Character class [[lo-hi]] of a regular expression. *)
Definition inClass (lo hi c : ascii) : bool :=
  Ascii.leb lo c && Ascii.leb c hi.

(** The tail [:[0-5][0-9]$] of the time pattern. *)
Definition matchesMinutes (s : string) : bool :=
  match s with
  | String c (String m1 (String m2 EmptyString)) =>
      Ascii.eqb c ":" && inClass "0" "5" m1 && inClass "0" "9" m2
  | _ => false
  end.

(** [/^([0-1]?[0-9]|2[0-3]):[0-5][0-9]$/], the pattern of the
    [startTime] and [endTime] validators of [POST /api/bookings]. *)
Definition matchesTimeFormat (s : string) : bool :=
  match s with
  | String h1 rest =>
      (* [0-1]?[0-9] with the optional digit absent *)
      (inClass "0" "9" h1 && matchesMinutes rest)
      ||
      match rest with
      | String h2 rest' =>
          (* [0-1][0-9] or 2[0-3] *)
          ((inClass "0" "1" h1 && inClass "0" "9" h2)
           || (Ascii.eqb h1 "2" && inClass "0" "3" h2))
          && matchesMinutes rest'
      | EmptyString => false
      end
  | EmptyString => false
  end.

(** A time string written with a two-digit hour, [HH:MM]. *)
Definition zeroPadded (s : string) : bool :=
  matchesTimeFormat s && (String.length s =? 5)%nat.

Definition digit (c : ascii) : Z := Z.of_N (N_of_ascii c) - 48.

(** Minutes since midnight denoted by a time string: the chronological
    reading of [H:MM] and [HH:MM]. *)
Definition minuteOfDay (s : string) : Z :=
  match s with
  | String h1 (String c (String m1 (String m2 EmptyString))) =>
      digit h1 * 60 + (digit m1 * 10 + digit m2)
  | String h1 (String h2 (String c (String m1 (String m2 EmptyString)))) =>
      (digit h1 * 10 + digit h2) * 60 + (digit m1 * 10 + digit m2)
  | _ => 0
  end.

(** MongoDB's [$lt] and [$lte] on two strings (no collation): binary
    comparison of the bytes. *)
Definition lt (a b : string) : bool := String.ltb a b.
Definition lte (a b : string) : bool := String.leb a b.

End TimeOfDay.

(** ** Documents *)

Definition Id := string.

Inductive Status :=
| scheduled | confirmed | in_progress | completed | cancelled | no_show
| rescheduled.

(** Modelled from the spec: the booking schema, which gives a new
    document its status, is not part of the routes file; the design
    document names [scheduled] as the initial status. *)
Definition initialStatus : Status := scheduled.

(** One entry of a tutor's [subjects] array. *)
Record Subject := mkSubject {
  name : string;
  classes : list string;
  boards : list string;
  pricePerHour : float
}.

Record Pricing := mkPricing {
  baseAmount : float;
  tax : float;
  totalAmount : float
}.

Record Cancellation := mkCancellation {
  reason : string;
  cancelledBy : string;
  cancelledAt : Z;
  refundEligible : bool;
  refundAmount : float
}.

Record Booking := mkBooking {
  booking_id : Id;
  student : Id;
  tutor : Id;
  sessionType : string;
  subject : string;
  class : string;
  board : string;
  scheduledDate : Z;
  startTime : string;
  endTime : string;
  duration : Z;
  mode : string;
  pricing : Pricing;
  status : Status;
  cancellation : option Cancellation
}.

Record Student := mkStudent {
  student_id : Id;
  student_user : Id
}.

(** A tutor profile. [location] is the GeoJSON point of the tutor's user
    document, [(longitude, latitude)] in degrees. *)
Record Tutor := mkTutor {
  tutor_id : Id;
  tutor_user : Id;
  isAvailableForBooking : bool;
  verificationStatus : string;
  bio : string;
  subjects : list Subject;
  teachingModes : list string;
  ratingAverage : Q;
  totalYears : Q;
  location : Q * Q
}.

Record User := mkUser {
  user_id : Id;
  role : string
}.

(** The JSON reply of a handler: HTTP status, [success], [message] and the
    payload when there is one. *)
Record Reply (A : Type) := mkReply {
  code : Z;
  success : bool;
  message : string;
  data : option A
}.
Arguments mkReply {A} _ _ _ _.
Arguments code {A} _.
Arguments success {A} _.
Arguments message {A} _.
Arguments data {A} _.

(** ** String helpers of the routes *)

Definition includes (xs : list string) (x : string) : bool :=
  existsb (String.eqb x) xs.

Definition lowerChar (c : ascii) : ascii :=
  if TimeOfDay.inClass "A" "Z" c
  then ascii_of_N (N_of_ascii c + 32)
  else c.

(** [String.prototype.toLowerCase] on the ASCII range: the letters
    [A-Z] are folded, every other byte is kept. *)
Fixpoint toLowerCase (s : string) : string :=
  match s with
  | EmptyString => EmptyString
  | String c s' => String (lowerChar c) (toLowerCase s')
  end.

Definition isHexDigit (c : ascii) : bool :=
  TimeOfDay.inClass "0" "9" c || TimeOfDay.inClass "a" "f" c
  || TimeOfDay.inClass "A" "F" c.

Fixpoint allChars (p : ascii -> bool) (s : string) : bool :=
  match s with
  | EmptyString => true
  | String c s' => p c && allChars p s'
  end.

(** validator.js [isMongoId] on identifiers written without a radix
    prefix: 24 hexadecimal characters. (The validator also lets through
    a 24-character string that starts with [0x] or [0h], which the
    store cannot cast to an identifier: such a request is refused here
    by the validation and there by the lookup, and stores nothing in
    either.) *)
Definition isMongoId (s : string) : bool :=
  (String.length s =? 24)%nat && allChars isHexDigit s.

(** ** Pricing *)

(** The binary64 number the literal [0.18] denotes. *)
Definition gstRate : float := 0x1.70a3d70a3d70ap-3%float.

(** The pricing block of [POST /api/bookings]:
    [baseAmount = pricePerHour * (duration / 60)],
    [tax = baseAmount * 0.18], [totalAmount = baseAmount + tax]. *)
Definition computePrice (hourlyRate durationMinutes : float) : Pricing :=
  let baseAmount := (hourlyRate * (durationMinutes / 60))%float in
  let tax := (baseAmount * gstRate)%float in
  let totalAmount := (baseAmount + tax)%float in
  mkPricing baseAmount tax totalAmount.

(** ** The bookings routes *)

Module Bookings.

Definition isActive (s : Status) : bool :=
  match s with
  | scheduled | confirmed | in_progress => true
  | _ => false
  end.

(** The filter of the [Booking.findOne] conflict query. *)
Definition conflictQuery (tutorId : Id) (sessionDate : Z)
    (start_ end_ : string) (b : Booking) : bool :=
  String.eqb (tutor b) tutorId
  && (scheduledDate b =? sessionDate)
  && ((TimeOfDay.lte (startTime b) start_ && TimeOfDay.lt start_ (endTime b))
      || (TimeOfDay.lt (startTime b) end_ && TimeOfDay.lte end_ (endTime b))
      || (TimeOfDay.lte start_ (startTime b)
          && TimeOfDay.lte (endTime b) end_))
  && isActive (status b).

(** The body of a create request, as the handler destructures it. *)
Record CreateBody := mkCreateBody {
  b_tutorId : string;
  b_sessionType : string;
  b_subject : string;
  b_class : string;
  b_board : string;
  b_scheduledDate : string;
  b_startTime : string;
  b_endTime : string;
  b_duration : Z;
  b_mode : string
}.

Record Db := mkDb {
  students : list Student;
  tutors : list Tutor;
  bookings : list Booking
}.

Definition withBookings (db : Db) (bs : list Booking) : Db :=
  mkDb (students db) (tutors db) bs.

Definition findById (id : Id) (bs : list Booking) : option Booking :=
  find (fun b => String.eqb (booking_id b) id) bs.

(** [doc.save()]: replace the stored document with the same id, or
    append a new one. *)
Fixpoint save (b : Booking) (bs : list Booking) : list Booking :=
  match bs with
  | [] => [b]
  | x :: rest =>
      if String.eqb (booking_id x) (booking_id b) then b :: rest
      else x :: save b rest
  end.

Section Routes.

(** Collaborators whose code is outside the routes file. *)

(** validator.js [isISO8601]. *)
Variable isISO8601 : string -> bool.
(** [new Date(scheduledDate)], as milliseconds since the epoch. *)
Variable newDate : string -> Z.
(** The tutor model's [isAvailable(date, startTime, endTime)]: the
    declared availability calendar. *)
Variable isAvailable : Tutor -> Z -> string -> string -> bool.

(** The express-validator chain of [POST /api/bookings]. *)
Definition validateCreate (body : CreateBody) : bool :=
  isMongoId (b_tutorId body)
  && includes ["demo"; "regular"; "assessment"; "group"]
              (b_sessionType body)
  && negb (String.eqb (b_subject body) "")
  && includes ["LKG"; "UKG"; "1"; "2"; "3"; "4"; "5"; "6"; "7"; "8"; "9";
               "10"; "11"; "12"] (b_class body)
  && includes ["CBSE"; "ICSE"; "State Board"; "IB"; "IGCSE"; "NIOS"]
              (b_board body)
  && isISO8601 (b_scheduledDate body)
  && TimeOfDay.matchesTimeFormat (b_startTime body)
  && TimeOfDay.matchesTimeFormat (b_endTime body)
  && ((30 <=? b_duration body) && (b_duration body <=? 180))
  && includes ["online"; "offline"] (b_mode body).

Definition teaches (body : CreateBody) (s : Subject) : bool :=
  String.eqb (toLowerCase (name s)) (toLowerCase (b_subject body))
  && includes (classes s) (b_class body)
  && includes (boards s) (b_board body).

(** [POST /api/bookings]. [user] is the authenticated student,
    [newId] the identifier given to the new document. The
    notifications sent after the save do not touch the store and a
    failure there is swallowed, so they are left out. *)
Definition createBooking (db : Db) (user : User) (newId : Id)
    (body : CreateBody) : Reply Booking * Db :=
  if negb (validateCreate body) then
    (mkReply 400 false "Validation failed" None, db)
  else
    match find (fun s => String.eqb (student_user s) (user_id user))
               (students db) with
    | None => (mkReply 404 false "Student profile not found" None, db)
    | Some student_ =>
    match find (fun t => String.eqb (tutor_id t) (b_tutorId body))
               (tutors db) with
    | None => (mkReply 404 false "Tutor not found" None, db)
    | Some tutor_ =>
    if negb (isAvailableForBooking tutor_) then
      (mkReply 400 false "Tutor is not available for booking" None, db)
    else
    match find (teaches body) (subjects tutor_) with
    | None =>
        (mkReply 400 false
           "Tutor does not teach this subject for the specified class and board"
           None, db)
    | Some tutorSubject =>
    let sessionDate := newDate (b_scheduledDate body) in
    if negb (isAvailable tutor_ sessionDate (b_startTime body)
                         (b_endTime body)) then
      (mkReply 400 false "Tutor is not available at the requested time"
               None, db)
    else
    match find (conflictQuery (b_tutorId body) sessionDate
                  (b_startTime body) (b_endTime body)) (bookings db) with
    | Some conflictingBooking =>
        (mkReply 400 false "Time slot is already booked" None, db)
    | None =>
        let booking :=
          mkBooking newId (student_id student_) (b_tutorId body)
            (b_sessionType body) (b_subject body) (b_class body)
            (b_board body) sessionDate (b_startTime body)
            (b_endTime body) (b_duration body) (b_mode body)
            (computePrice (pricePerHour tutorSubject)
                          (PrimFloat.of_uint63
                             (Uint63.of_Z (b_duration body))))
            initialStatus None in
        (mkReply 201 true "Booking created successfully" (Some booking),
         withBookings db (save booking (bookings db)))
    end end end end.

(** Modelled from the spec: the booking model's [canBeCancelled] is
    not part of the routes file. The design document states the gate:
    a booking may be cancelled only if the cancellation time is at
    least 2 hours before [scheduledDate + startTime]. *)
Definition sessionStart (b : Booking) : Z :=
  scheduledDate b + TimeOfDay.minuteOfDay (startTime b) * 60000.

Definition twoHours : Z := 2 * 60 * 60 * 1000.

Definition canBeCancelled (now : Z) (b : Booking) : bool :=
  now + twoHours <=? sessionStart b.

(** Modelled from the spec: the booking model's
    [calculateRefundAmount] is not part of the routes file. The design
    document states a flat policy: the refund is the full total. *)
Definition calculateRefundAmount (b : Booking) : float :=
  totalAmount (pricing b).

(** The user behind a populated [booking.student] / [booking.tutor],
    as [GET /api/bookings/:id] reads it; [None] when the reference does
    not resolve, in which case reading [.user._id] throws. *)
Definition studentUserOf (db : Db) (b : Booking) : option Id :=
  option_map student_user
    (find (fun s => String.eqb (student_id s) (student b)) (students db)).

Definition tutorUserOf (db : Db) (b : Booking) : option Id :=
  option_map tutor_user
    (find (fun t => String.eqb (tutor_id t) (tutor b)) (tutors db)).

(** [booking.student.user._id] and [booking.tutor.user._id] in the
    cancel and status routes. These routes populate ['student.user'] and
    ['tutor.user'] but, unlike [GET /api/bookings/:id], neither
    ['student'] nor ['tutor']: [booking.student] and [booking.tutor] are
    bare identifiers, their [user] is undefined, and reading [_id] of it
    throws, whatever the store holds. *)
Definition userOfUnpopulated (ref : Id) : option Id := None.

(** [canCancel]: the owning student, the owning tutor, or an admin or
    employee. The disjunction short-circuits, so only the branch of
    the caller's own role dereferences the reference. *)
Definition canCancel (user : User) (b : Booking) : option bool :=
  if String.eqb (role user) "student" then
    option_map (fun u => String.eqb u (user_id user))
               (userOfUnpopulated (student b))
  else if String.eqb (role user) "tutor" then
    option_map (fun u => String.eqb u (user_id user))
               (userOfUnpopulated (tutor b))
  else Some (includes ["admin"; "employee"] (role user)).

Definition cancelRule : string :=
  "Booking cannot be cancelled. Must be cancelled at least 2 hours before the session.".

(** [PUT /api/bookings/:id/cancel] at the instant [now]. *)
Definition cancelBooking (db : Db) (now : Z) (user : User) (id : Id)
    (reason_ : string) : Reply (Booking * float) * Db :=
  if String.eqb reason_ "" then
    (mkReply 400 false "Validation failed" None, db)
  else
    match findById id (bookings db) with
    | None => (mkReply 404 false "Booking not found" None, db)
    | Some booking =>
    match canCancel user booking with
    | None => (mkReply 500 false "Failed to cancel booking" None, db)
    | Some false =>
        (mkReply 403 false
           "You do not have permission to cancel this booking" None, db)
    | Some true =>
    if negb (canBeCancelled now booking) then
      (mkReply 400 false cancelRule None, db)
    else
      let cancellation_ :=
        mkCancellation reason_ (role user) now true
                       (calculateRefundAmount booking) in
      let booking' :=
        mkBooking (booking_id booking) (student booking) (tutor booking)
          (sessionType booking) (subject booking) (class booking)
          (board booking) (scheduledDate booking) (startTime booking)
          (endTime booking) (duration booking) (mode booking)
          (pricing booking) cancelled (Some cancellation_) in
      (mkReply 200 true "Booking cancelled successfully"
               (Some (booking', refundAmount cancellation_)),
       withBookings db (save booking' (bookings db)))
    end end.

End Routes.

End Bookings.

(** ** Distances *)

Module Geo.

Open Scope R_scope.

Definition toRadians (degrees : R) : R := degrees * (PI / 180).

(** [Math.atan2(y, x)]. *)
Definition atan2 (y x : R) : R :=
  if Rlt_dec 0 x then atan (y / x)
  else if Rlt_dec x 0 then
    if Rle_dec 0 y then atan (y / x) + PI else atan (y / x) - PI
  else if Rlt_dec 0 y then PI / 2
  else if Rlt_dec y 0 then - (PI / 2)
  else 0.

(** [Math.round]: the nearest integer, halves upwards. *)
Definition round (x : R) : R := IZR (Int_part (x + / 2)).

(** [calculateHaversineDistance] of the location service, in
    kilometres, rounded to two decimals: the formula read over the real
    numbers. The code evaluates it in binary64, where the rounding of
    [a] can leave it an ulp above 1 for points that are nearly
    antipodal; [Math.sqrt(1-a)] and the result are then not a number.
    Only what holds of both readings is stated of it below. *)
Definition calculateHaversineDistance (lat1 lon1 lat2 lon2 : R) : R :=
  let R_ := 6371 in
  let dLat := toRadians (lat2 - lat1) in
  let dLon := toRadians (lon2 - lon1) in
  let a :=
    sin (dLat / 2) * sin (dLat / 2)
    + cos (toRadians lat1) * cos (toRadians lat2)
      * sin (dLon / 2) * sin (dLon / 2) in
  let c := 2 * atan2 (sqrt a) (sqrt (1 - a)) in
  let distance := R_ * c in
  round (distance * 100) / 100.

End Geo.

(** ** [Array.prototype.sort] *)

(** The sort is stable: elements the comparator does not separate keep
    their order. [cmp a b] is the sign of the number the JavaScript
    comparator returns: [Lt] puts [a] first, [Gt] puts [b] first. *)
Module JsSort.
Section Sort.
Context {A : Type}.
Variable cmp : A -> A -> comparison.

Fixpoint insert (x : A) (l : list A) : list A :=
  match l with
  | [] => [x]
  | y :: l' =>
      match cmp x y with
      | Gt => y :: insert x l'
      | _ => x :: y :: l'
      end
  end.

Definition sort (l : list A) : list A := fold_right insert [] l.

End Sort.

(** [Array.prototype.slice(start, end)]. *)
Definition slice {A : Type} (l : list A) (start_ end_ : Z) : list A :=
  let len := Z.of_nat (List.length l) in
  let k := if start_ <? 0 then Z.max (len + start_) 0
           else Z.min start_ len in
  let final := if end_ <? 0 then Z.max (len + end_) 0
               else Z.min end_ len in
  firstn (Z.to_nat (final - k)) (skipn (Z.to_nat k) l).

End JsSort.

(** ** The tutor search route *)

Module TutorSearch.

(** [req.query] of [GET /api/tutors], numbers already parsed. A
    parameter that is absent is [None]. *)
Record Query := mkQuery {
  q_search : option string;
  q_subject : option string;
  q_class : option string;
  q_board : option string;
  q_teachingMode : option string;
  q_minRating : option Q;
  q_maxPrice : option float;
  q_latitude : option Q;
  q_longitude : option Q;
  q_radius : option Q;
  q_page : option Z;
  q_limit : option Z;
  q_sortBy : option string
}.

(** A document of the reply: the tutor and the [distance] field, which
    only an aggregation adds; a document of [Tutor.find] has none. *)
Record Hit := mkHit {
  doc : Tutor;
  distance : option R
}.

Record Pagination := mkPagination {
  currentPage : Z;
  totalPages : Z;
  totalTutors : Z;
  hasNext : bool;
  hasPrev : bool
}.

Record SearchData := mkSearchData {
  found : list Hit;
  pagination : Pagination
}.

Definition optional {A : Type} (p : A -> bool) (o : option A) : bool :=
  match o with
  | Some x => p x
  | None => true
  end.

(** The express-validator chain of the route. *)
Definition validateSearch (q : Query) : bool :=
  optional (includes ["online"; "offline"; "both"]) (q_teachingMode q)
  && optional (fun r => Qle_bool 0 r && Qle_bool r 5) (q_minRating q)
  && optional (fun p => PrimFloat.leb 0 p) (q_maxPrice q)
  && optional (fun r => Qle_bool 1 r && Qle_bool r 50) (q_radius q)
  && optional (fun p => 1 <=? p) (q_page q)
  && optional (fun l => (1 <=? l) && (l <=? 50)) (q_limit q).

(** [if (param)] on a string parameter: present and not empty. *)
Definition given (o : option string) (p : string -> bool) : bool :=
  match o with
  | Some s => if String.eqb s "" then true else p s
  | None => true
  end.

Definition floatSign (x : float) : comparison :=
  if PrimFloat.ltb x 0 then Lt
  else if PrimFloat.ltb 0 x then Gt
  else Eq.

Definition realSign (x : R) : comparison :=
  if Rlt_dec x 0 then Lt
  else if Rlt_dec 0 x then Gt
  else Eq.

(** [Math.min] and [Math.max] of two numbers. *)
Definition mathMin (x y : float) : float :=
  if PrimFloat.is_nan x || PrimFloat.is_nan y then PrimFloat.nan
  else if PrimFloat.ltb x y then x
  else if PrimFloat.ltb y x then y
  else if PrimFloat.get_sign x then x else y.

Definition mathMax (x y : float) : float :=
  if PrimFloat.is_nan x || PrimFloat.is_nan y then PrimFloat.nan
  else if PrimFloat.ltb x y then y
  else if PrimFloat.ltb y x then x
  else if PrimFloat.get_sign x then y else x.

Definition minPrice (t : Tutor) : float :=
  fold_left mathMin (map pricePerHour (subjects t)) PrimFloat.infinity.

Definition maxPrice (t : Tutor) : float :=
  fold_left mathMax (map pricePerHour (subjects t)) PrimFloat.neg_infinity.

Definition distanceOrZero (h : Hit) : R :=
  match distance h with
  | Some d => d
  | None => 0%R
  end.

(** The comparators of the [sortBy] switch. *)
Definition byRating (a b : Hit) : comparison :=
  Qcompare (ratingAverage (doc b)) (ratingAverage (doc a)).

Definition byPriceLow (a b : Hit) : comparison :=
  floatSign (minPrice (doc a) - minPrice (doc b))%float.

Definition byPriceHigh (a b : Hit) : comparison :=
  floatSign (maxPrice (doc b) - maxPrice (doc a))%float.

Definition byDistance (a b : Hit) : comparison :=
  realSign (distanceOrZero a - distanceOrZero b)%R.

Definition byExperience (a b : Hit) : comparison :=
  Qcompare (totalYears (doc b)) (totalYears (doc a)).

Definition withDefault {A : Type} (d : A) (o : option A) : A :=
  match o with
  | Some x => x
  | None => d
  end.

Definition hasCoordinates (q : Query) : bool :=
  match q_latitude q, q_longitude q with
  | Some _, Some _ => true
  | _, _ => false
  end.

Definition sortTutors (q : Query) (tutors : list Hit) : list Hit :=
  let sortBy := withDefault "rating" (q_sortBy q) in
  if String.eqb sortBy "rating" then JsSort.sort byRating tutors
  else if String.eqb sortBy "price_low" then JsSort.sort byPriceLow tutors
  else if String.eqb sortBy "price_high" then JsSort.sort byPriceHigh tutors
  else if String.eqb sortBy "distance" then
    if hasCoordinates q then JsSort.sort byDistance tutors else tutors
  else if String.eqb sortBy "experience" then
    JsSort.sort byExperience tutors
  else JsSort.sort byRating tutors.

Definition paginate (q : Query) (tutors : list Hit) : SearchData :=
  let page := withDefault 1 (q_page q) in
  let limit := withDefault 10 (q_limit q) in
  let startIndex := (page - 1) * limit in
  let endIndex := page * limit in
  let paginatedTutors := JsSort.slice tutors startIndex endIndex in
  let length := Z.of_nat (List.length tutors) in
  mkSearchData paginatedTutors
    (mkPagination page
       (Qceiling (inject_Z length / inject_Z limit))
       length
       (endIndex <? length)
       (0 <? startIndex)).

Section Route.

(** [new RegExp(pattern, 'i').test(text)]. *)
Variable regexTest : string -> string -> bool.

(** Whether [new RegExp(pattern, 'i')] constructs a regular
    expression; it throws a [SyntaxError] when the pattern is not
    one. *)
Variable regExpCompiles : string -> bool.

(** The filter document built from the request, as the store applies it
    to one tutor. A condition on a field of the [subjects] array holds
    when some entry of the array satisfies it. *)
Definition matchesQuery (q : Query) (t : Tutor) : bool :=
  isAvailableForBooking t
  && String.eqb (verificationStatus t) "verified"
  && given (q_search q)
       (fun search =>
          existsb (fun s => regexTest search (name s)) (subjects t)
          || regexTest search (bio t))
  && given (q_subject q)
       (fun subject => existsb (fun s => regexTest subject (name s))
                               (subjects t))
  && given (q_class q)
       (fun className => existsb (fun s => includes (classes s) className)
                                 (subjects t))
  && given (q_board q)
       (fun board => existsb (fun s => includes (boards s) board)
                             (subjects t))
  && given (q_teachingMode q)
       (fun teachingMode => includes (teachingModes t) teachingMode)
  && optional (fun minRating => Qle_bool minRating (ratingAverage t))
              (q_minRating q)
  && optional (fun maxPrice_ =>
                 existsb (fun s => PrimFloat.leb (pricePerHour s) maxPrice_)
                         (subjects t))
              (q_maxPrice q).

(** [Tutor.find(query)]. [tutors] lists the collection in the order
    the store yields documents in; a found document has no
    [distance]. *)
Definition fetch (tutors : list Tutor) (q : Query) : list Hit :=
  map (fun t => mkHit t None) (filter (matchesQuery q) tutors).

(** [Tutor.aggregate] on the pipeline the route builds for a request
    with coordinates: [$lookup] of the user into the array [userInfo],
    [$match] on the filter document extended with a [$near] condition on
    ['userInfo.location'] ([$geometry] the point [(lng, lat)],
    [$maxDistance] in metres), [$addFields] of a [distance]. The store
    does not run it: [$near] is an operator of [find] and is refused
    inside a [$match] stage of an aggregation, so the call throws
    whatever the collection holds. (The [$addFields] stage could not
    compute its distance either: the pipeline has no [$unwind] of
    [userInfo], as that of [GET /api/location/tutors-nearby] has, so
    ['$userInfo.location.coordinates'] is an array of coordinate
    arrays.) *)
Definition aggregate (tutors : list Tutor) (q : Query)
    (lng lat radiusInMeters : Q) : option (list Hit) := None.

(** [GET /api/tutors]. An exception anywhere in the handler is caught
    and answered 500. *)
Definition searchTutors (tutors : list Tutor) (q : Query)
  : Reply SearchData :=
  if negb (validateSearch q) then mkReply 400 false "Validation failed" None
  else if negb (given (q_search q) regExpCompiles
                && given (q_subject q) regExpCompiles) then
    mkReply 500 false "Failed to fetch tutors" None
  else
    let fetched :=
      match q_latitude q, q_longitude q with
      | Some lat, Some lng =>
          aggregate tutors q lng lat (withDefault 5 (q_radius q) * 1000)%Q
      | _, _ => Some (fetch tutors q)
      end in
    match fetched with
    | None => mkReply 500 false "Failed to fetch tutors" None
    | Some tutors_ =>
        mkReply 200 true "" (Some (paginate q (sortTutors q tutors_)))
    end.

End Route.

End TutorSearch.

(** ** What the design document asks of the store *)

Module BookingSpec.
Import Bookings.

(** [[s1,e1)] and [[s2,e2)] overlap iff [s1 < e2] and [s2 < e1], on the
    clock. *)
Definition overlaps (b1 b2 : Booking) : Prop :=
  TimeOfDay.minuteOfDay (startTime b1) < TimeOfDay.minuteOfDay (endTime b2)
  /\ TimeOfDay.minuteOfDay (startTime b2)
     < TimeOfDay.minuteOfDay (endTime b1).

(** No two distinct stored bookings of one tutor on one date, both
    scheduled, confirmed or in progress, overlap. *)
Definition noOverlap (bs : list Booking) : Prop :=
  forall i j b1 b2,
    i <> j -> nth_error bs i = Some b1 -> nth_error bs j = Some b2 ->
    tutor b1 = tutor b2 -> scheduledDate b1 = scheduledDate b2 ->
    isActive (status b1) = true -> isActive (status b2) = true ->
    ~ overlaps b1 b2.

(** The session window [[startTime, startTime + duration)] leaves the
    scheduled day. *)
Definition crossesMidnight (body : CreateBody) : Prop :=
  TimeOfDay.minuteOfDay (b_startTime body) + b_duration body > 1440.

(** Both times of a booking are written with a two-digit hour. *)
Definition paddedTimes (b : Booking) : Prop :=
  TimeOfDay.zeroPadded (startTime b) = true
  /\ TimeOfDay.zeroPadded (endTime b) = true.

End BookingSpec.

Module SearchSpec.

(** The condition the design document puts on a tutor when the request
    has a maximum price: the cheapest of the tutor's entries that the
    subject, class and board filters select costs at most that. *)
Definition offeringMatches (regexTest : string -> string -> bool)
    (q : TutorSearch.Query) (s : Subject) : bool :=
  TutorSearch.given (TutorSearch.q_subject q)
    (fun subject => regexTest subject (name s))
  && TutorSearch.given (TutorSearch.q_class q)
       (fun className => includes (classes s) className)
  && TutorSearch.given (TutorSearch.q_board q)
       (fun board => includes (boards s) board).

Definition cheapestMatching (regexTest : string -> string -> bool)
    (q : TutorSearch.Query) (t : Tutor) : float :=
  fold_left TutorSearch.mathMin
    (map pricePerHour (filter (offeringMatches regexTest q) (subjects t)))
    PrimFloat.infinity.

(** The order the default sort is to establish, and the tutors of one
    rating. *)
Definition rating (h : TutorSearch.Hit) : Q :=
  ratingAverage (TutorSearch.doc h).

Definition ratingDescending (a b : TutorSearch.Hit) : Prop :=
  (rating b <= rating a)%Q.

Definition sameRating (r : Q) (h : TutorSearch.Hit) : bool :=
  Qeq_bool (rating h) r.

End SearchSpec.

(** ** Reading and updating bookings *)

Module BookingViews.
Import Bookings.

(** A booking after the cancel route has written the cancellation record
    [c] and the status on it. *)
Definition markCancelled (b : Booking) (c : Cancellation) : Booking :=
  mkBooking (booking_id b) (student b) (tutor b) (sessionType b) (subject b)
    (class b) (board b) (scheduledDate b) (startTime b) (endTime b)
    (duration b) (mode b) (pricing b) cancelled (Some c).

(** The string a status is stored as. *)
Definition statusName (s : Status) : string :=
  match s with
  | scheduled => "scheduled"
  | confirmed => "confirmed"
  | in_progress => "in_progress"
  | completed => "completed"
  | cancelled => "cancelled"
  | no_show => "no_show"
  | rescheduled => "rescheduled"
  end.

(** [req.query] of [GET /api/bookings]. *)
Record ListQuery := mkListQuery {
  l_status : option string;
  l_page : option Z;
  l_limit : option Z
}.

Record BookingPagination := mkBookingPagination {
  bp_currentPage : Z;
  bp_totalPages : Z;
  bp_totalBookings : Z;
  bp_hasNext : bool;
  bp_hasPrev : bool
}.

Record BookingPage := mkBookingPage {
  page_bookings : list Booking;
  page_pagination : BookingPagination
}.

Definition validateList (q : ListQuery) : bool :=
  TutorSearch.optional
    (includes ["scheduled"; "confirmed"; "in_progress"; "completed";
               "cancelled"; "no_show"; "rescheduled"]) (l_status q)
  && TutorSearch.optional (fun p => 1 <=? p) (l_page q)
  && TutorSearch.optional (fun l => (1 <=? l) && (l <=? 50)) (l_limit q).

(** [.sort({ scheduledDate: -1, startTime: -1 })]: latest date first and,
    within a date, the greater start-time string first. For documents
    the sort keys do not separate the store promises no order; here they
    stay in the order of the collection, and no property below depends
    on it. *)
Definition byDateTimeDesc (a b : Booking) : comparison :=
  match Z.compare (scheduledDate b) (scheduledDate a) with
  | Eq => String.compare (startTime b) (startTime a)
  | c => c
  end.

(** The later scheduled date comes first. *)
Definition latestFirst (a b : Booking) : Prop :=
  scheduledDate b <= scheduledDate a.

(** The filter [query] of the list route once the role of the caller has
    fixed [owner]. *)
Definition listFilter (owner : Booking -> bool) (q : ListQuery)
    (b : Booking) : bool :=
  owner b
  && TutorSearch.given (l_status q)
       (fun s => String.eqb (statusName (status b)) s).

Definition listPage (owner : Booking -> bool) (db : Db) (q : ListQuery)
  : Reply BookingPage :=
  let page := TutorSearch.withDefault 1 (l_page q) in
  let limit := TutorSearch.withDefault 10 (l_limit q) in
  let matching := filter (listFilter owner q) (bookings db) in
  let bookings_ :=
    firstn (Z.to_nat (limit * 1))
      (skipn (Z.to_nat ((page - 1) * limit))
         (JsSort.sort byDateTimeDesc matching)) in
  let total := Z.of_nat (List.length matching) in
  mkReply 200 true ""
    (Some (mkBookingPage bookings_
             (mkBookingPagination page
                (Qceiling (inject_Z total / inject_Z limit))
                total
                (page * limit <? total)
                (1 <? page)))).

(** [GET /api/bookings]: the bookings of the calling student or tutor,
    all bookings for any other role. *)
Definition listBookings (db : Db) (user : User) (q : ListQuery)
  : Reply BookingPage :=
  if negb (validateList q) then mkReply 400 false "Validation failed" None
  else if String.eqb (role user) "student" then
    match find (fun s => String.eqb (student_user s) (user_id user))
               (students db) with
    | None => mkReply 404 false "Student profile not found" None
    | Some student_ =>
        listPage (fun b => String.eqb (student b) (student_id student_)) db q
    end
  else if String.eqb (role user) "tutor" then
    match find (fun t => String.eqb (tutor_user t) (user_id user))
               (tutors db) with
    | None => mkReply 404 false "Tutor profile not found" None
    | Some tutor_ =>
        listPage (fun b => String.eqb (tutor b) (tutor_id tutor_)) db q
    end
  else listPage (fun _ => true) db q.

(** [hasAccess] of [GET /api/bookings/:id]: the expression of
    [canCancel], here on a booking whose [student] and [tutor] the route
    has populated. *)
Definition hasAccess (db : Db) (user : User) (b : Booking) : option bool :=
  if String.eqb (role user) "student" then
    option_map (fun u => String.eqb u (user_id user)) (studentUserOf db b)
  else if String.eqb (role user) "tutor" then
    option_map (fun u => String.eqb u (user_id user)) (tutorUserOf db b)
  else Some (includes ["admin"; "employee"] (role user)).

(** [GET /api/bookings/:id]. *)
Definition getBooking (db : Db) (user : User) (id : Id) : Reply Booking :=
  match findById id (bookings db) with
  | None => mkReply 404 false "Booking not found" None
  | Some booking =>
      match hasAccess db user booking with
      | None => mkReply 500 false "Failed to fetch booking" None
      | Some false => mkReply 403 false "Access denied" None
      | Some true => mkReply 200 true "" (Some booking)
      end
  end.

(** [canUpdate] of [PUT /api/bookings/:id/status]: the tutor of the
    booking, an admin or an employee. The route does not populate
    ['tutor'], so the branch of a tutor reads [booking.tutor.user._id]
    off a bare identifier. *)
Definition canUpdate (user : User) (b : Booking) : option bool :=
  if String.eqb (role user) "tutor" then
    option_map (fun u => String.eqb u (user_id user)
                         || includes ["admin"; "employee"] (role user))
               (userOfUnpopulated (tutor b))
  else Some (includes ["admin"; "employee"] (role user)).

Section StatusRoute.

(** The booking model's [updateStatus(status, reason)], which is not in
    the routes file: the document it leaves and what it does to the
    store. *)
Variable updateStatus : Db -> Booking -> string -> option string
                        -> Booking * Db.

(** [PUT /api/bookings/:id/status]. *)
Definition updateBookingStatus (db : Db) (user : User) (id : Id)
    (status_ : string) (reason_ : option string) : Reply Booking * Db :=
  if negb (includes ["confirmed"; "in_progress"; "completed"; "cancelled";
                     "no_show"] status_) then
    (mkReply 400 false "Validation failed" None, db)
  else
    match findById id (bookings db) with
    | None => (mkReply 404 false "Booking not found" None, db)
    | Some booking =>
        match canUpdate user booking with
        | None =>
            (mkReply 500 false "Failed to update booking status" None, db)
        | Some false =>
            (mkReply 403 false
               "You do not have permission to update this booking" None, db)
        | Some true =>
            let out := updateStatus db booking status_ reason_ in
            (mkReply 200 true "Booking status updated successfully"
                     (Some (fst out)), snd out)
        end
    end.

End StatusRoute.

Section CancelRoute.

(** The booking model's [canBeCancelled()], read at an instant, and its
    [calculateRefundAmount()]; neither is in the routes file. *)
Variable canBeCancelled : Z -> Booking -> bool.
Variable calculateRefundAmount : Booking -> float.

(** [PUT /api/bookings/:id/cancel] at the instant [now], over any
    booking model. *)
Definition cancelRoute (db : Db) (now : Z) (user : User) (id : Id)
    (reason_ : string) : Reply (Booking * float) * Db :=
  if String.eqb reason_ "" then
    (mkReply 400 false "Validation failed" None, db)
  else
    match findById id (bookings db) with
    | None => (mkReply 404 false "Booking not found" None, db)
    | Some booking =>
    match canCancel user booking with
    | None => (mkReply 500 false "Failed to cancel booking" None, db)
    | Some false =>
        (mkReply 403 false
           "You do not have permission to cancel this booking" None, db)
    | Some true =>
    if negb (canBeCancelled now booking) then
      (mkReply 400 false cancelRule None, db)
    else
      let cancellation_ :=
        mkCancellation reason_ (role user) now true
                       (calculateRefundAmount booking) in
      let booking' := markCancelled booking cancellation_ in
      (mkReply 200 true "Booking cancelled successfully"
               (Some (booking', refundAmount cancellation_)),
       withBookings db (save booking' (bookings db)))
    end end.

End CancelRoute.

End BookingViews.

(** ** The payments routes *)

Module Payments.

(** The [payment] sub-document of a booking as the payment routes read
    and write it. *)
Record PaymentInfo := mkPaymentInfo {
  pay_status : string;
  pay_method : string;
  pay_transactionId : string;
  pay_paymentId : string;
  pay_paidAt : option Z;
  pay_refundId : option string;
  pay_refundAmount : option float;
  pay_refundedAt : option Z
}.

(** A booking document together with its payment sub-document. *)
Record PaidBooking := mkPaidBooking {
  paid_booking : Booking;
  paid_payment : PaymentInfo
}.

(** What a gateway answers about a payment and about a refund. *)
Record GatewayPayment := mkGatewayPayment {
  gp_amount : float;
  gp_currency : string;
  gp_status : string
}.

Record GatewayRefund := mkGatewayRefund {
  gr_id : string;
  gr_status : string
}.

Record Verified := mkVerified {
  v_paymentId : string;
  v_orderId : string;
  v_amount : float;
  v_currency : string;
  v_status : string
}.

Record Refunded := mkRefunded {
  r_refundId : string;
  r_refundAmount : float;
  r_status : string
}.

Definition findPaid (id : Id) (bs : list PaidBooking) : option PaidBooking :=
  find (fun b => String.eqb (booking_id (paid_booking b)) id) bs.

(** [booking.save()] on a document read from the collection. *)
Fixpoint savePaid (b : PaidBooking) (bs : list PaidBooking)
  : list PaidBooking :=
  match bs with
  | [] => [b]
  | x :: rest =>
      if String.eqb (booking_id (paid_booking x))
                    (booking_id (paid_booking b))
      then b :: rest
      else x :: savePaid b rest
  end.

Definition withStatus (b : Booking) (s : Status) : Booking :=
  mkBooking (booking_id b) (student b) (tutor b) (sessionType b) (subject b)
    (class b) (board b) (scheduledDate b) (startTime b) (endTime b)
    (duration b) (mode b) (pricing b) s (cancellation b).

(** [if (bookingId)] and [body('bookingId').optional().isMongoId()]. *)
Definition validBookingId (o : option string) : bool :=
  TutorSearch.optional isMongoId o.

Section Gateways.

(** HMAC-SHA256 of a message under a key, as lower-case hexadecimal. *)
Variable hmacSha256Hex : string -> string -> string.
(** [process.env.RAZORPAY_KEY_SECRET]. *)
Variable keySecret : string.
(** [razorpay.payments.fetch(id)]; [None] when the call throws. *)
Variable fetchPayment : string -> option GatewayPayment.
(** [razorpay.payments.refund] and [stripeClient.refunds.create] for a
    transaction, a refund amount in units of the currency (the route
    passes [Math.round(refundAmount * 100)]), a reason and the user who
    processes the refund; [None] when the call throws. *)
Variable razorpayRefund
  : string -> float -> string -> Id -> option GatewayRefund.
Variable stripeRefund
  : string -> float -> string -> Id -> option GatewayRefund.

(** [POST /api/payments/razorpay/verify] at the instant [now]. *)
Definition verifyRazorpay (bs : list PaidBooking) (now : Z)
    (razorpay_order_id razorpay_payment_id razorpay_signature : string)
    (bookingId : option string) : Reply Verified * list PaidBooking :=
  if negb (negb (String.eqb razorpay_order_id "")
           && negb (String.eqb razorpay_payment_id "")
           && negb (String.eqb razorpay_signature "")
           && validBookingId bookingId) then
    (mkReply 400 false "Validation failed" None, bs)
  else
    let body := razorpay_order_id ++ "|" ++ razorpay_payment_id in
    let expectedSignature := hmacSha256Hex keySecret body in
    if negb (String.eqb expectedSignature razorpay_signature) then
      (mkReply 400 false "Invalid payment signature" None, bs)
    else
      match fetchPayment razorpay_payment_id with
      | None => (mkReply 500 false "Payment verification failed" None, bs)
      | Some payment =>
          let bs' :=
            match bookingId with
            | Some id =>
                if String.eqb id "" then bs
                else
                  match findPaid id bs with
                  | Some booking =>
                      savePaid
                        (mkPaidBooking
                           (withStatus (paid_booking booking) confirmed)
                           (mkPaymentInfo "paid" "razorpay"
                              razorpay_payment_id razorpay_order_id
                              (Some now) None None None))
                        bs
                  | None => bs
                  end
            | None => bs
            end in
          (mkReply 200 true "Payment verified successfully"
             (Some (mkVerified razorpay_payment_id razorpay_order_id
                      (gp_amount payment / 100)%float (gp_currency payment)
                      (gp_status payment))),
           bs')
      end.

(** [amount || booking.pricing.totalAmount]: a number that is zero or
    not a number counts as absent. *)
Definition amountOr (amount : option float) (total : float) : float :=
  match amount with
  | Some a =>
      if PrimFloat.is_nan a || PrimFloat.eqb a 0 then total else a
  | None => total
  end.

(** [POST /api/payments/refund] at the instant [now]. *)
Definition refund (bs : list PaidBooking) (now : Z) (user : User)
    (bookingId : string) (amount : option float) (reason_ : string)
  : Reply Refunded * list PaidBooking :=
  if negb (isMongoId bookingId
           && TutorSearch.optional (fun a => PrimFloat.leb 1 a) amount
           && negb (String.eqb reason_ "")) then
    (mkReply 400 false "Validation failed" None, bs)
  else if negb (includes ["admin"; "employee"] (role user)) then
    (mkReply 403 false "Access denied" None, bs)
  else
    match findPaid bookingId bs with
    | None => (mkReply 404 false "Booking not found" None, bs)
    | Some booking =>
        let payment := paid_payment booking in
        let total := totalAmount (pricing (paid_booking booking)) in
        if negb (String.eqb (pay_status payment) "paid") then
          (mkReply 400 false "Booking payment is not in paid status" None, bs)
        else
          let refundAmount := amountOr amount total in
          let refund_ :=
            if String.eqb (pay_method payment) "razorpay" then
              razorpayRefund (pay_transactionId payment) refundAmount reason_
                             (user_id user)
            else if String.eqb (pay_method payment) "stripe" then
              stripeRefund (pay_transactionId payment) refundAmount reason_
                           (user_id user)
            else None in
          match refund_ with
          | None => (mkReply 500 false "Failed to process refund" None, bs)
          | Some r =>
              let payment' :=
                mkPaymentInfo
                  (if PrimFloat.leb total refundAmount then "refunded"
                   else "partial_refund")
                  (pay_method payment) (pay_transactionId payment)
                  (pay_paymentId payment) (pay_paidAt payment)
                  (Some (gr_id r)) (Some refundAmount) (Some now) in
              (mkReply 200 true "Refund processed successfully"
                 (Some (mkRefunded (gr_id r) refundAmount (gr_status r))),
               savePaid (mkPaidBooking (paid_booking booking) payment') bs)
          end
    end.

End Gateways.

End Payments.

(** ** Tutor uploads, identity documents and approval *)

Module TutorAdmin.

Inductive FilterResult :=
| Accept
| Reject (error : string).

(** [String.prototype.startsWith]. *)
Definition startsWith (s searchString : string) : bool :=
  String.prefix searchString s.

(** The [fileFilter] of the tutor upload configuration. *)
Definition fileFilter (fieldname mimetype : string) : FilterResult :=
  if String.eqb fieldname "certificate"
     || String.eqb fieldname "aadhaarDocument"
     || String.eqb fieldname "panDocument" then
    if startsWith mimetype "image/" || String.eqb mimetype "application/pdf"
    then Accept
    else Reject "Only images and PDF files are allowed for documents"
  else if String.eqb fieldname "introVideo" then
    if startsWith mimetype "video/" then Accept
    else Reject "Only video files are allowed for intro video"
  else Reject "Unexpected file field".

Definition isDigit (c : ascii) : bool := TimeOfDay.inClass "0" "9" c.
Definition isUpper (c : ascii) : bool := TimeOfDay.inClass "A" "Z" c.

(** [/^\d{12}$/]. *)
Definition matchesAadhaar (s : string) : bool :=
  (String.length s =? 12)%nat && allChars isDigit s.

(** [/^[A-Z]{5}[0-9]{4}[A-Z]{1}$/]. *)
Definition matchesPan (s : string) : bool :=
  (String.length s =? 10)%nat
  && allChars isUpper (substring 0 5 s)
  && allChars isDigit (substring 5 4 s)
  && allChars isUpper (substring 9 1 s).

(** The lookahead [(?=\d{4})]: the next four characters are digits. *)
Definition fourDigitsAhead (s : string) : bool :=
  match s with
  | String a (String b (String c (String d _))) =>
      isDigit a && isDigit b && isDigit c && isDigit d
  | _ => false
  end.

(** [s.replace(/\d(?=\d{4})/g, '*')]: every digit that has four digits
    right after it becomes a star. *)
Fixpoint maskDigits (s : string) : string :=
  match s with
  | EmptyString => EmptyString
  | String c rest =>
      String (if isDigit c && fourDigitsAhead rest then "*"%char else c)
             (maskDigits rest)
  end.

Definition withVerification (t : Tutor) (v : string) : Tutor :=
  mkTutor (tutor_id t) (tutor_user t) (isAvailableForBooking t) v (bio t)
          (subjects t) (teachingModes t) (ratingAverage t) (totalYears t)
          (location t).

(** [tutor.save()] on a document read from the collection. *)
Fixpoint saveTutor (t : Tutor) (ts : list Tutor) : list Tutor :=
  match ts with
  | [] => [t]
  | x :: rest =>
      if String.eqb (tutor_id x) (tutor_id t) then t :: rest
      else x :: saveTutor t rest
  end.

(** The files of a KYC upload: the path multer stored each one under. *)
Record KycFiles := mkKycFiles {
  aadhaarDocument : option string;
  panDocument : option string
}.

Record KycReply := mkKycReply {
  k_verificationStatus : string;
  k_aadhaarNumber : string;
  k_panNumber : option string
}.

(** [POST /api/tutors/kyc]. Of the [kyc] sub-document the [Tutor] record
    carries the verification status; the numbers and paths stored next
    to it are not part of the record. *)
Definition uploadKyc (tutors : list Tutor) (user : User)
    (aadhaarNumber : string) (panNumber : option string) (files : KycFiles)
  : Reply KycReply * list Tutor :=
  if negb (matchesAadhaar aadhaarNumber
           && TutorSearch.optional matchesPan panNumber) then
    (mkReply 400 false "Validation failed" None, tutors)
  else
    match aadhaarDocument files with
    | None => (mkReply 400 false "Aadhaar document is required" None, tutors)
    | Some path =>
        match find (fun t => String.eqb (tutor_user t) (user_id user))
                   tutors with
        | None => (mkReply 404 false "Tutor profile not found" None, tutors)
        | Some tutor_ =>
            (mkReply 200 true
               "KYC documents uploaded successfully. Verification pending."
               (Some (mkKycReply "pending" (maskDigits aadhaarNumber)
                                 panNumber)),
             saveTutor (withVerification tutor_ "pending") tutors)
        end
    end.

(** A user document, as far as the approval route writes it. *)
Record Account := mkAccount {
  account_id : Id;
  account_status : string
}.

Fixpoint saveAccount (a : Account) (accounts : list Account)
  : list Account :=
  match accounts with
  | [] => [a]
  | x :: rest =>
      if String.eqb (account_id x) (account_id a) then a :: rest
      else x :: saveAccount a rest
  end.

(** [PUT /api/admin/tutors/:id/approve]. The e-mail sent on approval
    does not touch the store and a failure there is swallowed. *)
Definition approveTutor (tutors : list Tutor) (accounts : list Account)
    (id : Id) (action : string)
  : Reply Tutor * (list Tutor * list Account) :=
  if negb (includes ["approve"; "reject"] action) then
    (mkReply 400 false "Validation failed" None, (tutors, accounts))
  else
    match find (fun t => String.eqb (tutor_id t) id) tutors with
    | None => (mkReply 404 false "Tutor not found" None, (tutors, accounts))
    | Some tutor_ =>
        match find (fun a => String.eqb (account_id a) (tutor_user tutor_))
                   accounts with
        | None =>
            (mkReply 500 false "Failed to process tutor approval" None,
             (tutors, accounts))
        | Some user_ =>
            let verdict :=
              if String.eqb action "approve" then ("verified", "active")
              else ("rejected", "rejected") in
            let tutor' := withVerification tutor_ (fst verdict) in
            (mkReply 200 true ("Tutor " ++ action ++ "d successfully")
                     (Some tutor'),
             (saveTutor tutor' tutors,
              saveAccount (mkAccount (account_id user_) (snd verdict))
                          accounts))
        end
    end.

End TutorAdmin.

(** ** Formatting a geocoded address *)

Module Places.

Record AddressComponent := mkAddressComponent {
  long_name : string;
  short_name : string;
  types : list string
}.

(** The body of the [forEach] of [formatLocationForDisplay], on the
    triple [(city, state, country)]. *)
Definition visit (acc : string * string * string) (component : AddressComponent)
  : string * string * string :=
  let '(city, state, country) := acc in
  if includes (types component) "locality" then
    (long_name component, state, country)
  else if includes (types component) "administrative_area_level_1" then
    (city, short_name component, country)
  else if includes (types component) "country" then
    (city, state, short_name component)
  else acc.

Definition render (acc : string * string * string) : string :=
  let '(city, state, country) := acc in
  city ++ (if String.eqb state "" then "" else ", " ++ state)
       ++ (if String.eqb country "" then "" else ", " ++ country).

(** [formatLocationForDisplay] of the location service. *)
Definition formatLocationForDisplay
    (addressComponents : list AddressComponent) : string :=
  render (fold_left visit addressComponents ("", "", "")).

(** What a component is taken for: the first of the three tests that it
    passes. *)
Inductive Kind := Locality | Region | Country.

Definition kindOf (component : AddressComponent) : option Kind :=
  if includes (types component) "locality" then Some Locality
  else if includes (types component) "administrative_area_level_1"
  then Some Region
  else if includes (types component) "country" then Some Country
  else None.

Definition isKind (k : Kind) (component : AddressComponent) : bool :=
  match kindOf component, k with
  | Some Locality, Locality | Some Region, Region
  | Some Country, Country => true
  | _, _ => false
  end.

Definition nameAs (k : Kind) (component : AddressComponent) : string :=
  match k with
  | Locality => long_name component
  | _ => short_name component
  end.

(** The name of the last component of kind [k], empty when there is
    none. *)
Definition lastNamed (k : Kind) (cs : list AddressComponent) : string :=
  match find (isKind k) (rev cs) with
  | Some component => nameAs k component
  | None => ""
  end.

(** The part of the triple a kind is written to. *)
Definition part (k : Kind) (acc : string * string * string) : string :=
  let '(city, state, country) := acc in
  match k with
  | Locality => city
  | Region => state
  | Country => country
  end.

End Places.

(** ** The haversine term *)

Module GeoSpec.

Open Scope R_scope.

(** The quantity [a] of [calculateHaversineDistance]. *)
Definition haversineTerm (lat1 lon1 lat2 lon2 : R) : R :=
  let dLat := Geo.toRadians (lat2 - lat1) in
  let dLon := Geo.toRadians (lon2 - lon1) in
  sin (dLat / 2) * sin (dLat / 2)
  + cos (Geo.toRadians lat1) * cos (Geo.toRadians lat2)
    * sin (dLon / 2) * sin (dLon / 2).

End GeoSpec.

(** ** Requests with fewer filters *)

Module SearchOrder.
Import TutorSearch.

(** A filter of the second request is the filter of the first or is
    absent. *)
Definition dropped {A : Type} (o o' : option A) : Prop := o' = o \/ o' = None.

(** [q'] is [q] with some of its filters left out; sorting and paging
    can be anything on the [q'] side, coordinates and radius are those
    of [q]. *)
Definition relaxes (q q' : Query) : Prop :=
  dropped (q_search q) (q_search q')
  /\ dropped (q_subject q) (q_subject q')
  /\ dropped (q_class q) (q_class q')
  /\ dropped (q_board q) (q_board q')
  /\ dropped (q_teachingMode q) (q_teachingMode q')
  /\ dropped (q_minRating q) (q_minRating q')
  /\ dropped (q_maxPrice q) (q_maxPrice q')
  /\ q_latitude q' = q_latitude q
  /\ q_longitude q' = q_longitude q
  /\ q_radius q' = q_radius q.

End SearchOrder.

(** ** A small marketplace to run the routes on *)

Module Sample.
Import Bookings.

Definition maths : Subject :=
  mkSubject "Math" ["8"; "9"; "10"] ["CBSE"] 600%float.

Definition tutorA : Tutor :=
  mkTutor "64b7f0a1c2d3e4f5a6b7c8d9" "user-tutor-a" true "verified"
          "Maths teacher" [maths] ["online"; "offline"] (9 # 2)%Q 6%Q
          ((77209 # 1000)%Q, (286139 # 10000)%Q).

Definition studentA : Student := mkStudent "student-a" "user-student-a".

Definition userA : User := mkUser "user-student-a" "student".

Definition db0 : Db := mkDb [studentA] [tutorA] [].

(** 15 January 2025, 00:00 UTC. *)
Definition jan15 : Z := 1736899200000.

Definition isISO8601 (s : string) : bool := String.eqb s "2025-01-15".
Definition newDate (s : string) : Z := jan15.
(** A tutor who declared every hour of every day open. *)
Definition alwaysOpen (t : Tutor) (d : Z) (s e : string) : bool := true.

Definition request (start_ end_ : string) (minutes : Z) : CreateBody :=
  mkCreateBody "64b7f0a1c2d3e4f5a6b7c8d9" "regular" "Math" "10" "CBSE"
               "2025-01-15" start_ end_ minutes "online".

Definition create (db : Db) (newId : Id) (body : CreateBody)
  : Reply Booking * Db :=
  createBooking isISO8601 newDate alwaysOpen db userA newId body.

Definition slot (id : Id) (start_ end_ : string) (st : Status) : Booking :=
  mkBooking id "student-a" "64b7f0a1c2d3e4f5a6b7c8d9" "regular" "Math"
            "10" "CBSE" jan15 start_ end_ 60 "online"
            (computePrice 600 60) st None.

(** A regular expression without metacharacters, with flag [i]: the
    text contains the pattern, letter case aside. *)
Definition literalRegex (pattern text : string) : bool :=
  match String.index 0 (toLowerCase pattern) (toLowerCase text) with
  | Some _ => true
  | None => false
  end.

(** A pattern of letters, digits and spaces only is a regular
    expression. *)
Definition plainPattern (pattern : string) : bool :=
  allChars (fun c => TimeOfDay.inClass "a" "z" c
                     || TimeOfDay.inClass "A" "Z" c
                     || TimeOfDay.inClass "0" "9" c
                     || Ascii.eqb c " ") pattern.

Definition search (tutors : list Tutor) (q : TutorSearch.Query)
  : Reply TutorSearch.SearchData :=
  TutorSearch.searchTutors literalRegex plainPattern tutors q.

Definition anyTutor : TutorSearch.Query :=
  TutorSearch.mkQuery None None None None None None None None None None
                      None None None.

(** Two tutors with the same rating. *)
Definition tutorB : Tutor :=
  mkTutor "64b7f0a1c2d3e4f5a6b7c8da" "user-tutor-b" true "verified"
          "Physics teacher"
          [mkSubject "Physics" ["11"; "12"] ["CBSE"] 700%float]
          ["online"] (9 # 2)%Q 3%Q ((77209 # 1000)%Q, (286139 # 10000)%Q).

(** Mathematics for class 10 at 1000 an hour, drawing for class 1 at 200
    an hour. *)
Definition tutorC : Tutor :=
  mkTutor "64b7f0a1c2d3e4f5a6b7c8db" "user-tutor-c" true "verified"
          "Maths and drawing"
          [mkSubject "Math" ["10"] ["CBSE"] 1000%float;
           mkSubject "Drawing" ["1"] ["ICSE"] 200%float]
          ["offline"] 4%Q 10%Q ((77209 # 1000)%Q, (286139 # 10000)%Q).

(** A tutor on the equator, a twentieth of a degree east of the
    meridian. *)
Definition tutorD : Tutor :=
  mkTutor "64b7f0a1c2d3e4f5a6b7c8dc" "user-tutor-d" true "verified"
          "Chemistry teacher"
          [mkSubject "Chemistry" ["12"] ["CBSE"] 500%float]
          ["offline"] 5%Q 2%Q ((1 # 20)%Q, 0%Q).

End Sample.

(** ** More of the small marketplace *)

Module SampleMore.
Import Bookings BookingViews Payments TutorAdmin.

Definition studentB : Student := mkStudent "student-b" "user-student-b".

Definition tutorUser : User := mkUser "user-tutor-a" "tutor".
Definition adminUser : User := mkUser "user-admin" "admin".
Definition otherStudent : User := mkUser "user-student-b" "student".

(** 16 January 2025, 00:00 UTC. *)
Definition jan16 : Z := 1736985600000.

Definition booked (id student_ : Id) (date : Z) (start_ end_ : string)
    (st : Status) : Booking :=
  mkBooking id student_ "64b7f0a1c2d3e4f5a6b7c8d9" "regular" "Math" "10"
            "CBSE" date start_ end_ 60 "online" (computePrice 600 60) st
            None.

Definition first : Booking :=
  booked "64b7f0a1c2d3e4f5a6b7c8e1" "student-a" Sample.jan15 "10:00" "11:00"
         confirmed.
Definition second : Booking :=
  booked "64b7f0a1c2d3e4f5a6b7c8e2" "student-b" jan16 "09:00" "10:00"
         scheduled.
Definition third : Booking :=
  booked "64b7f0a1c2d3e4f5a6b7c8e3" "student-a" jan16 "14:00" "15:00"
         completed.

Definition dbA : Db :=
  mkDb [Sample.studentA; studentB] [Sample.tutorA] [first; second; third].

(** A booking model that lets every booking be cancelled and refunds
    the total. *)
Definition anyTime (now : Z) (b : Booking) : bool := true.
Definition wholeTotal (b : Booking) : float := totalAmount (pricing b).

(** A status method that writes the status and saves. *)
Definition writeStatus (db : Db) (b : Booking) (s : string)
    (why : option string) : Booking * Db :=
  let st := if String.eqb s "confirmed" then confirmed
            else if String.eqb s "in_progress" then in_progress
            else if String.eqb s "completed" then completed
            else if String.eqb s "cancelled" then cancelled
            else no_show in
  let b' := withStatus b st in
  (b', withBookings db (save b' (bookings db))).

(** Stand-ins for the gateways and for the HMAC. *)
Definition mac (key message : string) : string :=
  "mac(" ++ key ++ "," ++ message ++ ")".
Definition secret : string := "key-secret".
Definition captured (id : string) : option GatewayPayment :=
  Some (mkGatewayPayment 70800 "INR" "captured").
Definition refunds (transaction : string) (amount : float) (why : string)
    (processedBy : Id) : option GatewayRefund :=
  Some (mkGatewayRefund ("rfnd_" ++ transaction) "processed").

Definition paidFirst : PaidBooking :=
  mkPaidBooking first
    (mkPaymentInfo "paid" "razorpay" "pay_1" "order_1"
                   (Some Sample.jan15) None None None).
Definition unpaidSecond : PaidBooking :=
  mkPaidBooking second
    (mkPaymentInfo "pending" "" "" "" None None None None).

Definition ledger : list PaidBooking := [paidFirst; unpaidSecond].

Definition accounts : list Account :=
  [mkAccount "user-tutor-b" "active"; mkAccount "user-tutor-c" "active";
   mkAccount "user-tutor-d" "pending"].

Definition tutorsBCD : list Tutor :=
  [Sample.tutorB; Sample.tutorC; Sample.tutorD].

End SampleMore.

(** * Properties *)

(** ** Time strings *)

Section TimeStrings.
Import TimeOfDay.

Lemma inClass_bounds lo hi c :
  inClass lo hi c = true ->
  (N_of_ascii lo <= N_of_ascii c <= N_of_ascii hi)%N.
Proof.
  unfold inClass, Ascii.leb, Ascii.compare. intros H.
  apply andb_true_iff in H. destruct H as [H1 H2].
  split.
  - destruct (N.compare_spec (N_of_ascii lo) (N_of_ascii c));
      try discriminate; lia.
  - destruct (N.compare_spec (N_of_ascii c) (N_of_ascii hi));
      try discriminate; lia.
Qed.

Lemma matchesMinutes_inv s :
  matchesMinutes s = true ->
  exists m1 m2, s = String ":" (String m1 (String m2 EmptyString))
    /\ (48 <= N_of_ascii m1 <= 53)%N /\ (48 <= N_of_ascii m2 <= 57)%N.
Proof.
  destruct s as [|c [|m1 [|m2 [|? ?]]]]; simpl; try discriminate.
  intros H. apply andb_true_iff in H. destruct H as [H H2].
  apply andb_true_iff in H. destruct H as [Hc H1].
  apply Ascii.eqb_eq in Hc. subst c.
  exists m1, m2. split; [reflexivity|].
  split; [exact (inClass_bounds _ _ _ H1) | exact (inClass_bounds _ _ _ H2)].
Qed.

(** The two alternatives of the pattern: [H:MM] and [HH:MM]. *)
Lemma matchesTimeFormat_inv s :
  matchesTimeFormat s = true ->
  (exists h1 m1 m2,
      s = String h1 (String ":" (String m1 (String m2 EmptyString)))
      /\ (48 <= N_of_ascii h1 <= 57)%N
      /\ (48 <= N_of_ascii m1 <= 53)%N /\ (48 <= N_of_ascii m2 <= 57)%N)
  \/
  (exists h1 h2 m1 m2,
      s = String h1 (String h2
            (String ":" (String m1 (String m2 EmptyString))))
      /\ ((48 <= N_of_ascii h1 <= 49)%N /\ (48 <= N_of_ascii h2 <= 57)%N
          \/ (N_of_ascii h1 = 50%N /\ (48 <= N_of_ascii h2 <= 51)%N))
      /\ (48 <= N_of_ascii m1 <= 53)%N /\ (48 <= N_of_ascii m2 <= 57)%N).
Proof.
  destruct s as [|h1 rest]; [discriminate|].
  unfold matchesTimeFormat. intros H.
  apply orb_true_iff in H. destruct H as [H|H].
  - apply andb_true_iff in H. destruct H as [Hh Hm].
    destruct (matchesMinutes_inv _ Hm) as (m1 & m2 & -> & B1 & B2).
    left. exists h1, m1, m2.
    split; [reflexivity|]. split; [exact (inClass_bounds _ _ _ Hh)|].
    split; assumption.
  - destruct rest as [|h2 rest']; [discriminate|].
    apply andb_true_iff in H. destruct H as [Hh Hm].
    destruct (matchesMinutes_inv _ Hm) as (m1 & m2 & -> & B1 & B2).
    right. exists h1, h2, m1, m2.
    split; [reflexivity|]. split; [|split; assumption].
    apply orb_true_iff in Hh. destruct Hh as [Hh|Hh];
      apply andb_true_iff in Hh; destruct Hh as [Ha Hb].
    + left. split; [exact (inClass_bounds _ _ _ Ha)
                   | exact (inClass_bounds _ _ _ Hb)].
    + right. apply Ascii.eqb_eq in Ha. subst h1.
      split; [reflexivity | exact (inClass_bounds _ _ _ Hb)].
Qed.

(** An accepted time string names a minute of one day. *)
Lemma minuteOfDay_range s :
  matchesTimeFormat s = true -> 0 <= minuteOfDay s < 1440.
Proof.
  intros H. destruct (matchesTimeFormat_inv s H)
    as [(h1 & m1 & m2 & -> & B1 & B2 & B3)
       |(h1 & h2 & m1 & m2 & -> & Bh & B2 & B3)];
    unfold minuteOfDay, digit.
  - lia.
  - destruct Bh as [[? ?]|[? ?]]; lia.
Qed.

Lemma zeroPadded_inv s :
  zeroPadded s = true ->
  exists h1 h2 m1 m2,
    s = String h1 (String h2
          (String ":" (String m1 (String m2 EmptyString))))
    /\ (48 <= N_of_ascii h1 <= 50)%N /\ (48 <= N_of_ascii h2 <= 57)%N
    /\ (48 <= N_of_ascii m1 <= 53)%N /\ (48 <= N_of_ascii m2 <= 57)%N.
Proof.
  unfold zeroPadded. intros H. apply andb_true_iff in H.
  destruct H as [Hm Hl].
  destruct (matchesTimeFormat_inv s Hm)
    as [(h1 & m1 & m2 & -> & _)
       |(h1 & h2 & m1 & m2 & -> & Bh & B2 & B3)].
  - discriminate.
  - exists h1, h2, m1, m2. split; [reflexivity|].
    destruct Bh as [[? ?]|[? ?]]; repeat split; try lia; assumption.
Qed.

(** On two-digit-hour strings the byte order is the order of the
    minutes they denote. *)
Lemma zeroPadded_compare a b :
  zeroPadded a = true -> zeroPadded b = true ->
  String.compare a b = Z.compare (minuteOfDay a) (minuteOfDay b).
Proof.
  intros Ha Hb.
  destruct (zeroPadded_inv a Ha)
    as (a1 & a2 & a4 & a5 & -> & A1 & A2 & A4 & A5).
  destruct (zeroPadded_inv b Hb)
    as (b1 & b2 & b4 & b5 & -> & B1 & B2 & B4 & B5).
  unfold minuteOfDay, digit. cbn [String.compare].
  unfold Ascii.compare at 3.
  change (N_of_ascii ":" ?= N_of_ascii ":")%N with Eq. cbv iota.
  unfold Ascii.compare.
  symmetry.
  destruct (N.compare_spec (N_of_ascii a1) (N_of_ascii b1));
    [|apply Z.compare_lt_iff; lia | apply Z.compare_gt_iff; lia].
  destruct (N.compare_spec (N_of_ascii a2) (N_of_ascii b2));
    [|apply Z.compare_lt_iff; lia | apply Z.compare_gt_iff; lia].
  destruct (N.compare_spec (N_of_ascii a4) (N_of_ascii b4));
    [|apply Z.compare_lt_iff; lia | apply Z.compare_gt_iff; lia].
  destruct (N.compare_spec (N_of_ascii a5) (N_of_ascii b5));
    [apply Z.compare_eq_iff; lia
    |apply Z.compare_lt_iff; lia | apply Z.compare_gt_iff; lia].
Qed.

Lemma zeroPadded_lt a b :
  zeroPadded a = true -> zeroPadded b = true ->
  lt a b = (minuteOfDay a <? minuteOfDay b).
Proof.
  intros Ha Hb. unfold lt, String.ltb, Z.ltb.
  rewrite (zeroPadded_compare a b Ha Hb). reflexivity.
Qed.

Lemma zeroPadded_lte a b :
  zeroPadded a = true -> zeroPadded b = true ->
  lte a b = (minuteOfDay a <=? minuteOfDay b).
Proof.
  intros Ha Hb. unfold lte, String.leb, Z.leb.
  rewrite (zeroPadded_compare a b Ha Hb). reflexivity.
Qed.

End TimeStrings.

(** ** The store's string order is a strict total order *)

Section StringOrder.
Import TimeOfDay.

Lemma string_compare_trans a :
  forall b c, String.compare a b = Lt -> String.compare b c = Lt ->
              String.compare a c = Lt.
Proof.
  induction a as [|x a IH]; intros [|y b] [|z c]; simpl;
    try discriminate; try reflexivity.
  unfold Ascii.compare.
  destruct (N.compare_spec (N_of_ascii x) (N_of_ascii y)) as [Exy|Lxy|Gxy];
    try discriminate;
    destruct (N.compare_spec (N_of_ascii y) (N_of_ascii z)) as [Eyz|Lyz|Gyz];
    try discriminate; intros H1 H2.
  - rewrite Exy, Eyz, N.compare_refl. eauto.
  - rewrite Exy. apply N.compare_lt_iff in Lyz. rewrite Lyz. reflexivity.
  - rewrite <- Eyz. apply N.compare_lt_iff in Lxy. rewrite Lxy. reflexivity.
  - assert (L : (N_of_ascii x < N_of_ascii z)%N) by lia.
    apply N.compare_lt_iff in L. rewrite L. reflexivity.
Qed.

Lemma lt_spec a b : lt a b = true <-> String.compare a b = Lt.
Proof.
  unfold lt, String.ltb. destruct (String.compare a b);
    split; intros; try discriminate; reflexivity.
Qed.

Lemma lte_spec a b : lte a b = true <-> String.compare b a <> Lt.
Proof.
  unfold lte, String.leb. rewrite (String.compare_antisym b a).
  destruct (String.compare a b); simpl; split; intros;
    try discriminate; try reflexivity; try congruence.
Qed.

Lemma lt_trans a b c : lt a b = true -> lt b c = true -> lt a c = true.
Proof.
  rewrite !lt_spec. apply string_compare_trans.
Qed.

Lemma lt_lte a b : lt a b = true -> lte a b = true.
Proof.
  rewrite lt_spec, lte_spec, (String.compare_antisym a b).
  destruct (String.compare b a); simpl; congruence.
Qed.

Lemma lte_lt_trans a b c :
  lte a b = true -> lt b c = true -> lt a c = true.
Proof.
  rewrite lte_spec, !lt_spec. intros Hab Hbc.
  destruct (String.compare a b) eqn:E.
  - apply String.compare_eq_iff in E. subst. assumption.
  - eapply string_compare_trans; eassumption.
  - rewrite String.compare_antisym, E in Hab. simpl in Hab. congruence.
Qed.

Lemma lt_lte_trans a b c :
  lt a b = true -> lte b c = true -> lt a c = true.
Proof.
  rewrite lte_spec, !lt_spec. intros Hab Hbc.
  destruct (String.compare b c) eqn:E.
  - apply String.compare_eq_iff in E. subst. assumption.
  - eapply string_compare_trans; eassumption.
  - rewrite String.compare_antisym, E in Hbc. simpl in Hbc. congruence.
Qed.

Lemma lte_or_lt a b : lte a b = true \/ lt b a = true.
Proof.
  destruct (lt b a) eqn:E; [right; reflexivity|left].
  apply lte_spec. intros H. apply lt_spec in H. congruence.
Qed.

(** Overlap always makes one of the three clauses of the query true;
    no assumption on the endpoints. *)
Lemma overlap_clauses S E s e :
  lt S e = true -> lt s E = true ->
  (lte S s && lt s E) || (lt S e && lte e E) || (lte s S && lte E e)
  = true.
Proof.
  intros H1 H2.
  destruct (lte_or_lt S s) as [L|L].
  - rewrite L, H2. reflexivity.
  - destruct (lte_or_lt E e) as [M|M].
    + rewrite (lt_lte _ _ L), M. simpl. apply orb_true_r.
    + rewrite H1, (lt_lte _ _ M). simpl. rewrite orb_true_r. reflexivity.
Qed.

(** For two non-empty intervals the three clauses say no more than
    overlap. *)
Lemma clauses_overlap S E s e :
  lt S E = true -> lt s e = true ->
  (lte S s && lt s E) || (lt S e && lte e E) || (lte s S && lte E e)
  = true ->
  lt S e = true /\ lt s E = true.
Proof.
  intros HSE Hse H.
  apply orb_true_iff in H. destruct H as [H|H];
    [apply orb_true_iff in H; destruct H as [H|H]|];
    apply andb_true_iff in H; destruct H as [A B].
  - split; [eapply lte_lt_trans; eassumption | assumption].
  - split; [assumption | eapply lt_lte_trans; eassumption].
  - split; [eapply lt_lte_trans; eassumption
           | eapply lte_lt_trans; eassumption].
Qed.

End StringOrder.

(** ** The conflict query *)

Section ConflictQuery.
Import TimeOfDay Bookings BookingSpec.

(** The query read off clause by clause. *)
Lemma conflictQuery_true tutorId sessionDate s e b :
  conflictQuery tutorId sessionDate s e b = true <->
  tutor b = tutorId /\ scheduledDate b = sessionDate
  /\ isActive (status b) = true
  /\ (lte (startTime b) s && lt s (endTime b))
     || (lt (startTime b) e && lte e (endTime b))
     || (lte s (startTime b) && lte (endTime b) e) = true.
Proof.
  unfold conflictQuery.
  rewrite !andb_true_iff, String.eqb_eq, Z.eqb_eq. tauto.
Qed.

(** In the order the store compares the time strings in, and for a
    stored interval and a candidate interval that are both non-empty in
    that order, the three clauses of the query amount to [S < e] and
    [s < E]. *)
Lemma conflictQuery_store_order tutorId sessionDate s e b :
  lt (startTime b) (endTime b) = true ->
  lt s e = true ->
  (conflictQuery tutorId sessionDate s e b = true <->
   tutor b = tutorId /\ scheduledDate b = sessionDate
   /\ isActive (status b) = true
   /\ lt (startTime b) e = true /\ lt s (endTime b) = true).
Proof.
  intros HSE Hse. rewrite conflictQuery_true. split.
  - intros (Ht & Hd & Hact & Hcl).
    destruct (clauses_overlap _ _ _ _ HSE Hse Hcl) as [A B].
    repeat split; assumption.
  - intros (Ht & Hd & Hact & A & B).
    repeat split; try assumption.
    exact (overlap_clauses _ _ _ _ A B).
Qed.

(** C2 (as amended). On time strings written with a two-digit hour, and
    for a stored interval and a candidate interval that are both
    non-empty on the clock, the conflict query selects a booking exactly
    when it is of the same tutor, on the same date, scheduled, confirmed
    or in progress, and [S < e] and [s < E] on the clock. *)
Theorem conflictQuery_iff_overlap_on_clock tutorId sessionDate s e b :
  zeroPadded s = true -> zeroPadded e = true ->
  zeroPadded (startTime b) = true -> zeroPadded (endTime b) = true ->
  minuteOfDay (startTime b) < minuteOfDay (endTime b) ->
  minuteOfDay s < minuteOfDay e ->
  (conflictQuery tutorId sessionDate s e b = true <->
   tutor b = tutorId /\ scheduledDate b = sessionDate
   /\ isActive (status b) = true
   /\ minuteOfDay (startTime b) < minuteOfDay e
   /\ minuteOfDay s < minuteOfDay (endTime b)).
Proof.
  intros Ps Pe PS PE HSE Hse.
  rewrite <- Z.ltb_lt, <- zeroPadded_lt in HSE, Hse by assumption.
  rewrite (conflictQuery_store_order _ _ _ _ _ HSE Hse).
  rewrite <- !Z.ltb_lt, <- !zeroPadded_lt by assumption.
  reflexivity.
Qed.

Lemma conflictQuery_iff_overlap_on_clock_witness :
  let b := Sample.slot "b1" "09:00" "10:00" confirmed in
  conflictQuery "64b7f0a1c2d3e4f5a6b7c8d9" Sample.jan15 "09:30" "10:30" b
  = true
  /\ (conflictQuery "64b7f0a1c2d3e4f5a6b7c8d9" Sample.jan15 "09:30" "10:30"
                    b = true
      <-> tutor b = "64b7f0a1c2d3e4f5a6b7c8d9"
          /\ scheduledDate b = Sample.jan15
          /\ isActive (status b) = true
          /\ minuteOfDay (startTime b) < minuteOfDay "10:30"
          /\ minuteOfDay "09:30" < minuteOfDay (endTime b)).
Proof.
  cbv zeta. split; [reflexivity|].
  apply (conflictQuery_iff_overlap_on_clock "64b7f0a1c2d3e4f5a6b7c8d9"
           Sample.jan15 "09:30" "10:30"
           (Sample.slot "b1" "09:00" "10:00" confirmed));
    reflexivity.
Defined.

(** C2 (counterexample). A stored booking and a candidate that both
    start and end at 10:00, written with a two-digit hour: the third
    clause of the query selects the booking, yet [S < e] fails, on the
    clock and in the store's order alike. Likewise a candidate that
    starts and ends at 10:00 against a stored booking from 10:00 to
    11:00: the first clause selects the booking, yet [S < e] fails. *)
Lemma conflictQuery_not_overlap_on_empty_intervals :
  let b := Sample.slot "b1" "10:00" "10:00" scheduled in
  let b' := Sample.slot "b1" "10:00" "11:00" scheduled in
  zeroPadded "10:00" = true /\ zeroPadded "11:00" = true
  /\ conflictQuery "64b7f0a1c2d3e4f5a6b7c8d9" Sample.jan15 "10:00" "10:00" b
     = true
  /\ ~ (minuteOfDay (startTime b) < minuteOfDay "10:00"
        /\ minuteOfDay "10:00" < minuteOfDay (endTime b))
  /\ ~ (lt (startTime b) "10:00" = true /\ lt "10:00" (endTime b) = true)
  /\ conflictQuery "64b7f0a1c2d3e4f5a6b7c8d9" Sample.jan15 "10:00" "10:00"
                   b' = true
  /\ ~ (minuteOfDay (startTime b') < minuteOfDay "10:00"
        /\ minuteOfDay "10:00" < minuteOfDay (endTime b'))
  /\ ~ (lt (startTime b') "10:00" = true /\ lt "10:00" (endTime b') = true).
Proof.
  split; [reflexivity|]. split; [reflexivity|]. split; [reflexivity|].
  split; [|split; [|split; [reflexivity|split]]];
    intros [H _]; vm_compute in H; discriminate.
Qed.

(** C10. The validator accepts both "9:30" and "10:00"; half past nine
    is before ten, but the store's comparison puts "10:00" first. *)
Theorem byte_order_is_not_clock_order :
  matchesTimeFormat "9:30" = true /\ matchesTimeFormat "10:00" = true
  /\ minuteOfDay "9:30" < minuteOfDay "10:00"
  /\ lt "9:30" "10:00" = false /\ lt "10:00" "9:30" = true.
Proof.
  repeat split.
Qed.

End ConflictQuery.

(** ** Creating a booking *)

Section CreateBooking.
Import TimeOfDay Bookings BookingSpec.

Variable isISO8601 : string -> bool.
Variable newDate : string -> Z.
Variable isAvailable : Tutor -> Z -> string -> string -> bool.

Lemma validateCreate_times body :
  validateCreate isISO8601 body = true ->
  matchesTimeFormat (b_startTime body) = true
  /\ matchesTimeFormat (b_endTime body) = true
  /\ 30 <= b_duration body <= 180.
Proof.
  unfold validateCreate. intros H.
  repeat (apply andb_true_iff in H; let H' := fresh "V" in
          destruct H as [H H']).
  apply andb_true_iff in V0. destruct V0 as [L U].
  apply Z.leb_le in L. apply Z.leb_le in U.
  repeat split; assumption.
Qed.

(** What a reply 201 of the create route tells about the request. *)
Lemma createBooking_created db user newId body :
  code (fst (createBooking isISO8601 newDate isAvailable db user newId
                           body)) = 201 ->
  validateCreate isISO8601 body = true
  /\ exists st t s,
      find (fun x => String.eqb (student_user x) (user_id user))
           (students db) = Some st
      /\ find (fun x => String.eqb (tutor_id x) (b_tutorId body))
              (tutors db) = Some t
      /\ find (teaches body) (subjects t) = Some s
      /\ find (conflictQuery (b_tutorId body)
                 (newDate (b_scheduledDate body))
                 (b_startTime body) (b_endTime body)) (bookings db) = None
      /\ createBooking isISO8601 newDate isAvailable db user newId body
         = (let booking :=
              mkBooking newId (student_id st) (b_tutorId body)
                (b_sessionType body) (b_subject body) (b_class body)
                (b_board body) (newDate (b_scheduledDate body))
                (b_startTime body) (b_endTime body) (b_duration body)
                (b_mode body)
                (computePrice (pricePerHour s)
                   (PrimFloat.of_uint63 (Uint63.of_Z (b_duration body))))
                initialStatus None in
            (mkReply 201 true "Booking created successfully" (Some booking),
             withBookings db (save booking (bookings db)))).
Proof.
  unfold createBooking.
  destruct (validateCreate isISO8601 body); simpl; [|discriminate].
  destruct (find _ (students db)) as [st|] eqn:Est; [|discriminate].
  destruct (find _ (tutors db)) as [t|] eqn:Et; [|discriminate].
  destruct (isAvailableForBooking t); simpl; [|discriminate].
  destruct (find (teaches body) (subjects t)) as [s|] eqn:Es;
    [|discriminate].
  destruct (isAvailable t _ _ _); simpl; [|discriminate].
  destruct (find (conflictQuery _ _ _ _) (bookings db)) eqn:Ec;
    [discriminate|].
  intros _. split; [reflexivity|].
  exists st, t, s. repeat split; try assumption; reflexivity.
Qed.

(** C9 (as amended). A create request whose start or end time is not a
    wall-clock time of one day ([H:MM] or [HH:MM], 00:00 to 23:59), or
    whose duration is outside 30..180 minutes, is rejected as a
    validation failure and the store is left as it was. *)
Theorem createBooking_rejects_malformed_window db user newId body :
  matchesTimeFormat (b_startTime body) = false
  \/ matchesTimeFormat (b_endTime body) = false
  \/ b_duration body < 30 \/ 180 < b_duration body ->
  createBooking isISO8601 newDate isAvailable db user newId body
  = (mkReply 400 false "Validation failed" None, db).
Proof.
  intros H. unfold createBooking.
  destruct (validateCreate isISO8601 body) eqn:V; [|reflexivity].
  exfalso. destruct (validateCreate_times body V) as (A & B & C).
  destruct H as [H|[H|[H|H]]]; try congruence; lia.
Qed.

(** C3. The pricing stamped on a created booking is computed from the
    hourly rate of the matched subject entry and the requested
    duration: base = rate * (minutes / 60), tax = base * 0.18,
    total = base + tax; at (800, 60) this is 800, 144, 944 and at
    (500, 30) it is 250, 45, 295. *)
Theorem pricing_snapshot :
  (forall db user newId body b,
      data (fst (createBooking isISO8601 newDate isAvailable db user newId
                               body)) = Some b ->
      exists t s,
        find (fun x => String.eqb (tutor_id x) (b_tutorId body))
             (tutors db) = Some t
        /\ find (teaches body) (subjects t) = Some s
        /\ pricing b
           = computePrice (pricePerHour s)
               (PrimFloat.of_uint63 (Uint63.of_Z (b_duration body))))
  /\ (forall hourlyRate durationMinutes,
        let p := computePrice hourlyRate durationMinutes in
        baseAmount p = (hourlyRate * (durationMinutes / 60))%float
        /\ tax p = (baseAmount p * gstRate)%float
        /\ totalAmount p = (baseAmount p + tax p)%float)
  /\ computePrice 800 60 = mkPricing 800 144 944
  /\ computePrice 500 30 = mkPricing 250 45 295.
Proof.
  split; [|split; [|split]].
  - intros db user newId body b H.
    assert (C : code (fst (createBooking isISO8601 newDate isAvailable db
                             user newId body)) = 201).
    { revert H. unfold createBooking.
      repeat match goal with
             | |- context [if ?c then _ else _] => destruct c
             | |- context [match ?c with Some _ => _ | None => _ end] =>
                 destruct c
             end; simpl; intros; try discriminate; reflexivity. }
    destruct (createBooking_created _ _ _ _ C)
      as (_ & st & t & s & _ & Ht & Hs & _ & E).
    rewrite E in H. simpl in H. injection H as <-.
    exists t, s. repeat split; assumption.
  - intros. repeat split.
  - reflexivity.
  - reflexivity.
Qed.

End CreateBooking.

Lemma pricing_snapshot_witness :
  data (fst (Sample.create Sample.db0 "b1" (Sample.request "10:00" "11:00" 60)))
  = Some (Sample.slot "b1" "10:00" "11:00" scheduled)
  /\ exists t s,
      find (fun x => String.eqb (tutor_id x) "64b7f0a1c2d3e4f5a6b7c8d9")
           [Sample.tutorA] = Some t
      /\ find (Bookings.teaches (Sample.request "10:00" "11:00" 60))
              (subjects t) = Some s
      /\ mkPricing 600 108 708
         = computePrice (pricePerHour s) 60.
Proof.
  split; [reflexivity|].
  exact (proj1 (pricing_snapshot Sample.isISO8601 Sample.newDate
                  Sample.alwaysOpen)
           Sample.db0 Sample.userA "b1" (Sample.request "10:00" "11:00" 60)
           (Sample.slot "b1" "10:00" "11:00" scheduled) eq_refl).
Defined.

Lemma createBooking_rejects_malformed_window_witness :
  (TimeOfDay.matchesTimeFormat "24:00" = false
   \/ TimeOfDay.matchesTimeFormat "25:30" = false
   \/ 90 < 30 \/ 180 < 90)
  /\ Sample.create Sample.db0 "b1" (Sample.request "24:00" "25:30" 90)
     = (mkReply 400 false "Validation failed" None, Sample.db0).
Proof.
  split; [left; reflexivity|].
  apply (createBooking_rejects_malformed_window Sample.isISO8601
           Sample.newDate Sample.alwaysOpen Sample.db0 Sample.userA "b1"
           (Sample.request "24:00" "25:30" 90)).
  left. reflexivity.
Defined.

(** C9 (counterexample). A three-hour session asked for 23:00 runs until
    02:00 of the next day; the request passes validation and the booking
    is stored. *)
Lemma createBooking_accepts_window_past_midnight :
  let body := Sample.request "23:00" "23:59" 180 in
  let r := Sample.create Sample.db0 "b1" body in
  BookingSpec.crossesMidnight body
  /\ code (fst r) = 201
  /\ Bookings.bookings (snd r)
     = [mkBooking "b1" "student-a" "64b7f0a1c2d3e4f5a6b7c8d9" "regular"
          "Math" "10" "CBSE" Sample.jan15 "23:00" "23:59" 180 "online"
          (mkPricing 1800 324 2124) scheduled None].
Proof.
  split; [|split].
  - vm_compute. reflexivity.
  - reflexivity.
  - reflexivity.
Qed.

(** C1. Starting from an empty calendar, a booking 9:00-10:00 is created,
    then a booking 9:30-10:30 of the same tutor on the same date: the
    conflict query, comparing "10:00" with "9:30" as strings, selects
    nothing, the second request is answered 201, and the store holds two
    scheduled bookings that overlap from 9:30 to 10:00. *)
Theorem createBooking_stores_overlapping_bookings :
  let r1 := Sample.create Sample.db0 "b1" (Sample.request "9:00" "10:00" 60) in
  let r2 := Sample.create (snd r1) "b2" (Sample.request "9:30" "10:30" 60) in
  code (fst r1) = 201
  /\ BookingSpec.noOverlap (Bookings.bookings (snd r1))
  /\ code (fst r2) = 201
  /\ Bookings.bookings (snd r2)
     = [Sample.slot "b1" "9:00" "10:00" scheduled;
        Sample.slot "b2" "9:30" "10:30" scheduled]
  /\ ~ BookingSpec.noOverlap (Bookings.bookings (snd r2)).
Proof.
  cbv zeta. split; [reflexivity|]. split; [|split; [reflexivity|split]].
  - intros [|[|i]] [|[|j]] b1 b2 Hij H1 H2; try congruence;
      vm_compute in H1, H2; try discriminate;
      destruct i; discriminate || destruct j; discriminate.
  - reflexivity.
  - intros H.
    apply (H 0%nat 1%nat (Sample.slot "b1" "9:00" "10:00" scheduled)
             (Sample.slot "b2" "9:30" "10:30" scheduled));
      try reflexivity; try discriminate.
    split; vm_compute; reflexivity.
Qed.

(** ** The calendar invariant, for two-digit-hour times *)

Section CalendarInvariant.
Import TimeOfDay Bookings BookingSpec.

Variable isISO8601 : string -> bool.
Variable newDate : string -> Z.
Variable isAvailable : Tutor -> Z -> string -> string -> bool.

Lemma save_fresh b bs :
  (forall x, In x bs -> booking_id x <> booking_id b) ->
  save b bs = (bs ++ [b])%list.
Proof.
  induction bs as [|y bs IH]; intros Hf; [reflexivity|].
  simpl. destruct (String.eqb (booking_id y) (booking_id b)) eqn:E.
  - apply String.eqb_eq in E. exfalso. apply (Hf y); [left; reflexivity|].
    exact E.
  - rewrite IH; [reflexivity|]. intros x Hx. apply Hf. right. exact Hx.
Qed.

Lemma nth_error_snoc {A : Type} (l : list A) x i y :
  nth_error (l ++ [x])%list i = Some y ->
  (nth_error l i = Some y /\ (i < List.length l)%nat)
  \/ (i = List.length l /\ y = x).
Proof.
  intros H. destruct (Nat.lt_ge_cases i (List.length l)) as [L|G].
  - rewrite nth_error_app1 in H by assumption. left. split; assumption.
  - rewrite nth_error_app2 in H by assumption.
    destruct (i - List.length l)%nat as [|k] eqn:E; simpl in H.
    + right. split; [lia | congruence].
    + destruct k; discriminate.
Qed.

(** A candidate that overlaps a stored active booking of the same tutor
    and date, all four times written with two-digit hours, is selected
    by the conflict query. *)
Lemma overlap_selected tutorId sessionDate s e b :
  zeroPadded s = true -> zeroPadded e = true -> paddedTimes b ->
  tutor b = tutorId -> scheduledDate b = sessionDate ->
  isActive (status b) = true ->
  minuteOfDay (startTime b) < minuteOfDay e ->
  minuteOfDay s < minuteOfDay (endTime b) ->
  conflictQuery tutorId sessionDate s e b = true.
Proof.
  intros Ps Pe [PS PE] Ht Hd Ha H1 H2. unfold conflictQuery.
  apply String.eqb_eq in Ht. apply Z.eqb_eq in Hd. rewrite Ht, Hd, Ha.
  rewrite overlap_clauses; [reflexivity| |];
    rewrite zeroPadded_lt by assumption; apply Z.ltb_lt; assumption.
Qed.

(** When every time in the store and in the request is written with a
    two-digit hour, creating a booking keeps the calendar free of
    overlaps. *)
Lemma createBooking_keeps_noOverlap db user newId body :
  (forall b, In b (bookings db) -> paddedTimes b) ->
  zeroPadded (b_startTime body) = true ->
  zeroPadded (b_endTime body) = true ->
  (forall b, In b (bookings db) -> booking_id b <> newId) ->
  noOverlap (bookings db) ->
  noOverlap (bookings (snd (createBooking isISO8601 newDate isAvailable db
                              user newId body))).
Proof.
  intros Hpad Ps Pe Hfresh Hinv.
  destruct (Z.eq_dec
              (code (fst (createBooking isISO8601 newDate isAvailable db
                            user newId body))) 201) as [C|C].
  - destruct (createBooking_created _ _ _ _ _ _ _ C)
      as (_ & st & t & s & _ & _ & _ & Hnone & ->).
    cbv zeta. simpl. rewrite save_fresh by exact Hfresh.
    set (new := mkBooking newId _ _ _ _ _ _ _ _ _ _ _ _ _ _).
    assert (Hfree : forall b, In b (bookings db) ->
                tutor b = tutor new -> scheduledDate b = scheduledDate new ->
                isActive (status b) = true ->
                ~ (minuteOfDay (startTime b) < minuteOfDay (endTime new)
                   /\ minuteOfDay (startTime new) < minuteOfDay (endTime b))).
    { intros b Hb Ht Hd Ha [H1 H2].
      pose proof (find_none _ _ Hnone b Hb) as Hq.
      pose proof (overlap_selected (b_tutorId body)
                    (newDate (b_scheduledDate body)) (b_startTime body)
                    (b_endTime body) b Ps Pe (Hpad b Hb) Ht Hd Ha H1 H2)
        as Hs.
      cbv beta in Hq. congruence. }
    intros i j b1 b2 Hij H1 H2 Ht Hd A1 A2.
    destruct (nth_error_snoc _ _ _ _ H1) as [[O1 _]|[I1 ->]];
      destruct (nth_error_snoc _ _ _ _ H2) as [[O2 _]|[I2 ->]].
    + exact (Hinv i j b1 b2 Hij O1 O2 Ht Hd A1 A2).
    + intros [X Y]. apply (Hfree b1 (nth_error_In _ _ O1) Ht Hd A1).
      split; assumption.
    + intros [X Y].
      apply (Hfree b2 (nth_error_In _ _ O2) (eq_sym Ht) (eq_sym Hd) A2).
      split; assumption.
    + congruence.
  - replace (snd (createBooking isISO8601 newDate isAvailable db user newId
                    body)) with db; [exact Hinv|].
    revert C. unfold createBooking.
    repeat match goal with
           | |- context [if ?c then _ else _] => destruct c
           | |- context [match ?c with Some _ => _ | None => _ end] =>
               destruct c
           end; simpl; intros; try reflexivity; congruence.
Qed.

End CalendarInvariant.

(** ** Cancelling a booking *)

Section CancelBooking.
Import TimeOfDay Bookings.

Lemma findById_id id bs b : findById id bs = Some b -> booking_id b = id.
Proof.
  unfold findById. intros H. apply find_some in H.
  apply String.eqb_eq. exact (proj2 H).
Qed.

(** Saving a document that is already stored replaces it. *)
Lemma findById_save b bs old :
  findById (booking_id b) bs = Some old ->
  findById (booking_id b) (save b bs) = Some b.
Proof.
  unfold findById. induction bs as [|x bs IH]; simpl; [discriminate|].
  destruct (String.eqb (booking_id x) (booking_id b)) eqn:E; simpl.
  - intros _. rewrite String.eqb_refl. reflexivity.
  - rewrite E. exact IH.
Qed.

(** A student or a tutor who asks to cancel a stored booking is
    answered 500, whoever the booking belongs to and whenever the
    session is: the permission check reads the user of a reference the
    route has not populated. Nothing is stored. *)
Lemma cancelBooking_parties_fail db now user id why b :
  role user = "student" \/ role user = "tutor" ->
  why <> "" ->
  findById id (bookings db) = Some b ->
  cancelBooking db now user id why
  = (mkReply 500 false "Failed to cancel booking" None, db).
Proof.
  intros Hr Hw Hb. unfold cancelBooking.
  apply String.eqb_neq in Hw. rewrite Hw, Hb.
  unfold canCancel, userOfUnpopulated.
  destruct Hr as [-> | ->]; reflexivity.
Qed.

(** For an admin or an employee the route applies the policy of the
    design document, with its two-hour gate as the booking's
    [canBeCancelled] and the full total as refund: asked at least two
    hours before the session starts, the cancellation is carried out
    and the stored booking is cancelled, refund-eligible, with the
    total as refund amount; asked later, it is answered 400 with the
    message that states the two-hour rule, and nothing is stored. *)
Lemma cancelBooking_by_staff db now user id why b :
  includes ["admin"; "employee"] (role user) = true ->
  why <> "" ->
  findById id (bookings db) = Some b ->
  (now + twoHours <= sessionStart b ->
   exists b' db',
     cancelBooking db now user id why
     = (mkReply 200 true "Booking cancelled successfully"
          (Some (b', totalAmount (pricing b))), db')
     /\ findById id (bookings db') = Some b'
     /\ status b' = cancelled
     /\ option_map refundEligible (cancellation b') = Some true
     /\ option_map refundAmount (cancellation b')
        = Some (totalAmount (pricing b)))
  /\ (sessionStart b < now + twoHours ->
      cancelBooking db now user id why
      = (mkReply 400 false cancelRule None, db)
      /\ String.index 0 "at least 2 hours before the session" cancelRule
         <> None).
Proof.
  intros Hr Hw Hb.
  assert (Hc : canCancel user b = Some true).
  { unfold canCancel.
    destruct (String.eqb (role user) "student") eqn:Es.
    - apply String.eqb_eq in Es. rewrite Es in Hr. discriminate.
    - destruct (String.eqb (role user) "tutor") eqn:Et.
      + apply String.eqb_eq in Et. rewrite Et in Hr. discriminate.
      + rewrite Hr. reflexivity. }
  apply String.eqb_neq in Hw.
  unfold cancelBooking. rewrite Hw, Hb, Hc. unfold canBeCancelled.
  split; intros Hg.
  - apply Z.leb_le in Hg. rewrite Hg. cbn [negb].
    eexists _, _. split; [reflexivity|].
    split; [|repeat split].
    pose proof (findById_id _ _ _ Hb) as Hid. cbn [bookings withBookings].
    rewrite <- Hid in Hb |- *.
    exact (findById_save
             (mkBooking (booking_id b) _ _ _ _ _ _ _ _ _ _ _ _ _ _)
             _ _ Hb).
  - apply Z.leb_gt in Hg. rewrite Hg. cbn [negb].
    split; [reflexivity | discriminate].
Qed.

End CancelBooking.

(** C5. The student of a booking for 10:00 asks at 07:00, three hours
    before the session, to cancel it. The gate of the design document
    lets the cancellation through, but the route answers 500 "Failed to
    cancel booking" and the booking stays confirmed: the route never
    populates [booking.student], so reading [booking.student.user._id]
    throws. The tutor of the booking fares the same. An admin who sends
    the same request is answered 200. *)
Theorem cancelBooking_fails_for_student_and_tutor :
  let id := "64b7f0a1c2d3e4f5a6b7c8e1" in
  let now := Sample.jan15 + 7 * 3600000 in
  Bookings.findById id (Bookings.bookings SampleMore.dbA)
  = Some SampleMore.first
  /\ Bookings.studentUserOf SampleMore.dbA SampleMore.first
     = Some (user_id Sample.userA)
  /\ Bookings.tutorUserOf SampleMore.dbA SampleMore.first
     = Some (user_id SampleMore.tutorUser)
  /\ scheduledDate SampleMore.first = Sample.jan15
  /\ startTime SampleMore.first = "10:00"
  /\ Bookings.canBeCancelled now SampleMore.first = true
  /\ Bookings.cancelBooking SampleMore.dbA now Sample.userA id "exam moved"
     = (mkReply 500 false "Failed to cancel booking" None, SampleMore.dbA)
  /\ Bookings.cancelBooking SampleMore.dbA now SampleMore.tutorUser id "ill"
     = (mkReply 500 false "Failed to cancel booking" None, SampleMore.dbA)
  /\ code (fst (Bookings.cancelBooking SampleMore.dbA now
                  SampleMore.adminUser id "exam moved")) = 200.
Proof.
  cbv zeta. repeat split.
Qed.

(** ** Sorting and slicing *)

Section SortFacts.
Context {A : Type}.
Variable cmp : A -> A -> comparison.

Lemma insert_perm x l : Permutation (JsSort.insert cmp x l) (x :: l).
Proof.
  induction l as [|y l IH]; simpl; [reflexivity|].
  destruct (cmp x y); try reflexivity.
  rewrite IH. apply perm_swap.
Qed.

Lemma sort_perm l : Permutation (JsSort.sort cmp l) l.
Proof.
  induction l as [|x l IH]; simpl; [reflexivity|].
  rewrite insert_perm. constructor. exact IH.
Qed.

Lemma sort_length l : List.length (JsSort.sort cmp l) = List.length l.
Proof. apply Permutation_length, sort_perm. Qed.

Lemma sort_In x l : In x (JsSort.sort cmp l) <-> In x l.
Proof.
  split; apply Permutation_in; [|symmetry]; apply sort_perm.
Qed.

End SortFacts.

Lemma slice_In {A : Type} (x : A) l i j : In x (JsSort.slice l i j) -> In x l.
Proof.
  unfold JsSort.slice. intros H.
  match type of H with
  | In _ (firstn ?n (skipn ?k _)) =>
      rewrite <- (firstn_skipn k l); apply in_or_app; right;
      rewrite <- (firstn_skipn n (skipn k l)); apply in_or_app; left;
      exact H
  end.
Qed.

(** A slice between two indices within [0, +oo) takes [j - i] elements
    after the first [i]. *)
Lemma slice_window {A : Type} (l : list A) i n :
  0 <= i -> 0 <= n ->
  JsSort.slice l i (i + n) = firstn (Z.to_nat n) (skipn (Z.to_nat i) l).
Proof.
  intros Hi Hn. unfold JsSort.slice.
  destruct (Z.ltb_spec i 0); [lia|].
  destruct (Z.ltb_spec (i + n) 0); [lia|].
  set (len := Z.of_nat (List.length l)).
  destruct (Z.le_gt_cases len i) as [Hout|Hin].
  - rewrite !skipn_all2 by lia. rewrite !firstn_nil. reflexivity.
  - rewrite (Z.min_l i len) by lia.
    destruct (Z.le_gt_cases (i + n) len) as [Hfit|Hcut].
    + rewrite (Z.min_l (i + n) len) by lia.
      f_equal. lia.
    + rewrite (Z.min_r (i + n) len) by lia.
      rewrite !firstn_all2; [reflexivity| |];
        rewrite length_skipn; lia.
Qed.

(** ** The tutor search *)

Section SearchFacts.
Import TutorSearch.

Variable regexTest : string -> string -> bool.
Variable regExpCompiles : string -> bool.

Lemma sortTutors_perm q l : Permutation (sortTutors q l) l.
Proof.
  unfold sortTutors.
  repeat match goal with
         | |- context [if ?c then _ else _] => destruct c
         end; try apply sort_perm; reflexivity.
Qed.

Lemma sortTutors_length q l :
  List.length (sortTutors q l) = List.length l.
Proof. apply Permutation_length, sortTutors_perm. Qed.

Lemma fetch_In tutors q h :
  In h (fetch regexTest tutors q) ->
  In (doc h) tutors
  /\ matchesQuery regexTest q (doc h) = true
  /\ distance h = None.
Proof.
  unfold fetch. intros H.
  apply in_map_iff in H. destruct H as (t & <- & Ht).
  apply filter_In in Ht. destruct Ht as [Hin Hm]. simpl.
  repeat split; assumption.
Qed.

(** A request with both coordinates gets no tutors: the aggregation it
    is answered from is refused by the store, and the handler answers
    500. *)
Lemma searchTutors_coordinates_refused tutors q lat lng :
  q_latitude q = Some lat -> q_longitude q = Some lng ->
  data (searchTutors regexTest regExpCompiles tutors q) = None
  /\ (validateSearch q = true ->
      searchTutors regexTest regExpCompiles tutors q
      = mkReply 500 false "Failed to fetch tutors" None).
Proof.
  intros Hlat Hlng. unfold searchTutors. rewrite Hlat, Hlng.
  unfold aggregate.
  destruct (validateSearch q); cbn [negb];
    [|split; [reflexivity | discriminate]].
  destruct (given (q_search q) regExpCompiles
            && given (q_subject q) regExpCompiles); cbn [negb];
    split; reflexivity.
Qed.

(** What a reply with tutors tells about the request: it passed the
    validators, its patterns are regular expressions and it has no
    coordinates. *)
Lemma searchTutors_answered tutors q d :
  data (searchTutors regexTest regExpCompiles tutors q) = Some d ->
  validateSearch q = true
  /\ given (q_search q) regExpCompiles = true
  /\ given (q_subject q) regExpCompiles = true
  /\ hasCoordinates q = false.
Proof.
  unfold searchTutors, aggregate, hasCoordinates.
  destruct (validateSearch q); cbn [negb]; [|discriminate].
  destruct (given (q_search q) regExpCompiles) eqn:E1; cbn [andb negb];
    [|discriminate].
  destruct (given (q_subject q) regExpCompiles) eqn:E2; cbn [andb negb];
    [|discriminate].
  destruct (q_latitude q); [destruct (q_longitude q)|];
    try discriminate; intros _; repeat split.
Qed.

Lemma searchTutors_data tutors q d :
  data (searchTutors regexTest regExpCompiles tutors q) = Some d ->
  validateSearch q = true
  /\ d = paginate q (sortTutors q (fetch regexTest tutors q)).
Proof.
  unfold searchTutors, aggregate.
  destruct (validateSearch q); cbn [negb]; [|discriminate].
  destruct (given (q_search q) regExpCompiles
            && given (q_subject q) regExpCompiles); cbn [negb];
    [|discriminate].
  destruct (q_latitude q); [destruct (q_longitude q)|];
    try discriminate; intros [= <-]; split; reflexivity.
Qed.

Lemma found_In_fetch tutors q d h :
  data (searchTutors regexTest regExpCompiles tutors q) = Some d ->
  In h (found d) -> In h (fetch regexTest tutors q).
Proof.
  intros Hd Hin. destruct (searchTutors_data _ _ _ Hd) as [_ ->].
  simpl in Hin. apply slice_In in Hin.
  eapply Permutation_in; [apply sortTutors_perm | exact Hin].
Qed.

(** C8 (as amended). With a maximum price in the request, a tutor is in
    the results only if one of the tutor's subject entries, whether or
    not it is an entry the subject, class and board filters select, has
    a price per hour of at most the maximum. *)
Theorem maxPrice_filter_any_offering tutors q d h p :
  data (searchTutors regexTest regExpCompiles tutors q) = Some d ->
  In h (found d) ->
  q_maxPrice q = Some p ->
  exists s, In s (subjects (doc h))
            /\ PrimFloat.leb (pricePerHour s) p = true.
Proof.
  intros Hd Hin Hp.
  destruct (fetch_In _ _ _ (found_In_fetch _ _ _ _ Hd Hin)) as (_ & Hm & _).
  unfold matchesQuery in Hm. apply andb_true_iff in Hm.
  destruct Hm as [_ Hm]. rewrite Hp in Hm. simpl in Hm.
  apply existsb_exists in Hm. exact Hm.
Qed.

End SearchFacts.

Lemma maxPrice_filter_any_offering_witness :
  let q := TutorSearch.mkQuery None None (Some "10") None None None
             (Some 500%float) None None None None None None in
  data (Sample.search [Sample.tutorA; Sample.tutorC] q)
  = Some (TutorSearch.paginate q
            [TutorSearch.mkHit Sample.tutorC None])
  /\ exists s, In s (subjects Sample.tutorC)
               /\ PrimFloat.leb (pricePerHour s) 500 = true.
Proof.
  cbv zeta. split; [reflexivity|].
  apply (maxPrice_filter_any_offering Sample.literalRegex Sample.plainPattern
           [Sample.tutorA; Sample.tutorC]
           (TutorSearch.mkQuery None None (Some "10") None None None
              (Some 500%float) None None None None None None)
           (TutorSearch.paginate
              (TutorSearch.mkQuery None None (Some "10") None None None
                 (Some 500%float) None None None None None None)
              [TutorSearch.mkHit Sample.tutorC None])
           (TutorSearch.mkHit Sample.tutorC None) 500%float).
  - reflexivity.
  - left. reflexivity.
  - reflexivity.
Defined.

(** C8 (counterexample). A search for class 10 at no more than 500 an
    hour returns a tutor whose only class-10 entry costs 1000: the
    200-an-hour drawing lessons for class 1 satisfy the price condition
    and the mathematics entry satisfies the class condition. *)
Lemma maxPrice_filter_ignores_matching :
  let q := TutorSearch.mkQuery None None (Some "10") None None None
             (Some 500%float) None None None None None None in
  (exists d, data (Sample.search [Sample.tutorA; Sample.tutorC] q) = Some d
             /\ map TutorSearch.doc (TutorSearch.found d) = [Sample.tutorC])
  /\ SearchSpec.cheapestMatching Sample.literalRegex q Sample.tutorC = 1000%float
  /\ PrimFloat.leb (SearchSpec.cheapestMatching Sample.literalRegex q Sample.tutorC) 500
     = false.
Proof.
  cbv zeta. split; [|split].
  - eexists. split; reflexivity.
  - reflexivity.
  - reflexivity.
Qed.

(** ** Pagination *)


Section Pagination.
Import TutorSearch.

Variable regexTest : string -> string -> bool.
Variable regExpCompiles : string -> bool.

Lemma validateSearch_page q :
  validateSearch q = true ->
  1 <= withDefault 1 (q_page q) /\ 1 <= withDefault 10 (q_limit q) <= 50.
Proof.
  unfold validateSearch. intros H.
  apply andb_true_iff in H. destruct H as [H Hlimit].
  apply andb_true_iff in H. destruct H as [_ Hpage].
  destruct (q_page q) as [p|]; destruct (q_limit q) as [l|]; simpl in *;
    try (apply andb_true_iff in Hlimit; destruct Hlimit as [L1 L2];
         apply Z.leb_le in L1; apply Z.leb_le in L2);
    try apply Z.leb_le in Hpage; lia.
Qed.


End Pagination.


(** ** The default order of the results *)

Section RatingOrder.
Import TutorSearch SearchSpec.

Lemma byRating_Gt a b : byRating a b = Gt <-> (rating a < rating b)%Q.
Proof.
  unfold byRating, rating. rewrite <- Qgt_alt. reflexivity.
Qed.

Lemma byRating_not_Gt a b : byRating a b <> Gt -> (rating b <= rating a)%Q.
Proof.
  intros H. apply Qnot_lt_le. intros L. apply H, byRating_Gt, L.
Qed.

Lemma insert_ratingDescending x l :
  StronglySorted ratingDescending l ->
  StronglySorted ratingDescending (JsSort.insert byRating x l).
Proof.
  induction 1 as [|y l Hs IH Hy]; simpl.
  - repeat constructor.
  - destruct (byRating x y) eqn:E.
    + assert (Hxy : ratingDescending x y)
        by (apply byRating_not_Gt; congruence).
      constructor; [constructor; assumption|].
      constructor; [assumption|].
      eapply Forall_impl; [|exact Hy].
      intros z Hz. unfold ratingDescending in *.
      eapply Qle_trans; eassumption.
    + assert (Hxy : ratingDescending x y)
        by (apply byRating_not_Gt; congruence).
      constructor; [constructor; assumption|].
      constructor; [assumption|].
      eapply Forall_impl; [|exact Hy].
      intros z Hz. unfold ratingDescending in *.
      eapply Qle_trans; eassumption.
    + constructor; [exact IH|].
      apply byRating_Gt in E.
      eapply Permutation_Forall; [symmetry; apply insert_perm|].
      constructor; [apply Qlt_le_weak; exact E | exact Hy].
Qed.

Lemma sort_ratingDescending l :
  StronglySorted ratingDescending (JsSort.sort byRating l).
Proof.
  induction l as [|x l IH]; simpl; [constructor|].
  apply insert_ratingDescending, IH.
Qed.

(** Inserting moves an element only past elements of a higher rating,
    so the elements of any one rating keep their order. *)
Lemma insert_stable r x l :
  filter (sameRating r) (JsSort.insert byRating x l)
  = filter (sameRating r) (x :: l).
Proof.
  induction l as [|y l IH]; [reflexivity|].
  cbn [JsSort.insert]. destruct (byRating x y) eqn:E; try reflexivity.
  apply byRating_Gt in E.
  cbn [filter] in *. rewrite IH.
  destruct (sameRating r x) eqn:Ex; destruct (sameRating r y) eqn:Ey;
    try reflexivity.
  exfalso. unfold sameRating in Ex, Ey.
  apply Qeq_bool_iff in Ex. apply Qeq_bool_iff in Ey.
  rewrite Ex, Ey in E. exact (Qlt_irrefl _ E).
Qed.

Lemma sort_stable r l :
  filter (sameRating r) (JsSort.sort byRating l) = filter (sameRating r) l.
Proof.
  induction l as [|x l IH]; [reflexivity|].
  cbn [JsSort.sort fold_right]. fold (JsSort.sort byRating l).
  rewrite insert_stable. cbn [filter]. rewrite IH. reflexivity.
Qed.

Variable regexTest : string -> string -> bool.
Variable regExpCompiles : string -> bool.

(** C6 (as amended). Without a sort key in the request, the results are
    a page of the filtered tutors ordered by rating average, highest
    first; tutors of one and the same rating stay in the order the store
    yielded them in. The comparator reads the rating only. *)
Theorem default_order_by_rating tutors q d :
  data (searchTutors regexTest regExpCompiles tutors q) = Some d ->
  q_sortBy q = None ->
  let page := withDefault 1 (q_page q) in
  let limit := withDefault 10 (q_limit q) in
  let filtered := fetch regexTest tutors q in
  exists sorted,
    found d = JsSort.slice sorted ((page - 1) * limit) (page * limit)
    /\ Permutation sorted filtered
    /\ StronglySorted ratingDescending sorted
    /\ forall r, filter (sameRating r) sorted = filter (sameRating r) filtered.
Proof.
  intros Hd Hs. destruct (searchTutors_data _ _ _ _ _ Hd) as [_ ->].
  cbv zeta. exists (sortTutors q (fetch regexTest tutors q)).
  split; [reflexivity|].
  unfold sortTutors. rewrite Hs. simpl.
  split; [apply sort_perm|]. split; [apply sort_ratingDescending|].
  intros r. apply sort_stable.
Qed.

End RatingOrder.

Lemma default_order_by_rating_witness :
  let tutors := [Sample.tutorB; Sample.tutorC; Sample.tutorD] in
  let d := TutorSearch.mkSearchData
             [TutorSearch.mkHit Sample.tutorD None;
              TutorSearch.mkHit Sample.tutorB None;
              TutorSearch.mkHit Sample.tutorC None]
             (TutorSearch.mkPagination 1 1 3 false false) in
  data (Sample.search tutors Sample.anyTutor) = Some d
  /\ exists sorted,
      TutorSearch.found d = JsSort.slice sorted ((1 - 1) * 10) (1 * 10)
      /\ Permutation sorted
           (TutorSearch.fetch Sample.literalRegex tutors
              Sample.anyTutor)
      /\ StronglySorted SearchSpec.ratingDescending sorted
      /\ forall r, filter (SearchSpec.sameRating r) sorted
                   = filter (SearchSpec.sameRating r)
                       (TutorSearch.fetch Sample.literalRegex tutors Sample.anyTutor).
Proof.
  cbv zeta. split; [reflexivity|].
  apply (default_order_by_rating Sample.literalRegex Sample.plainPattern
           [Sample.tutorB; Sample.tutorC; Sample.tutorD] Sample.anyTutor
           (TutorSearch.mkSearchData
              [TutorSearch.mkHit Sample.tutorD None;
               TutorSearch.mkHit Sample.tutorB None;
               TutorSearch.mkHit Sample.tutorC None]
              (TutorSearch.mkPagination 1 1 3 false false)));
    reflexivity.
Defined.

(** C6 (counterexample). Two tutors of rating 4.5 and no coordinates in
    the request: the reply lists them in the order the store yields
    them, whichever that is, so the same two tutors come out in two
    different orders and no rule on their identities decides which. *)
Lemma default_order_follows_store_order :
  ratingAverage Sample.tutorA = ratingAverage Sample.tutorB
  /\ (exists d,
        data (Sample.search [Sample.tutorA; Sample.tutorB] Sample.anyTutor)
        = Some d
        /\ map (fun h => tutor_id (TutorSearch.doc h)) (TutorSearch.found d)
           = ["64b7f0a1c2d3e4f5a6b7c8d9"; "64b7f0a1c2d3e4f5a6b7c8da"])
  /\ (exists d,
        data (Sample.search [Sample.tutorB; Sample.tutorA] Sample.anyTutor)
        = Some d
        /\ map (fun h => tutor_id (TutorSearch.doc h)) (TutorSearch.found d)
           = ["64b7f0a1c2d3e4f5a6b7c8da"; "64b7f0a1c2d3e4f5a6b7c8d9"]).
Proof.
  split; [reflexivity|].
  split; eexists; split; reflexivity.
Qed.

(** ** Searches with coordinates *)


(** * Further properties of the routes *)

(** ** Creating a booking: effect on the store *)

Section CreateEffects.
Import TimeOfDay Bookings BookingSpec.

Variable isISO8601 : string -> bool.
Variable newDate : string -> Z.
Variable isAvailable : Tutor -> Z -> string -> string -> bool.

Lemma createBooking_not_created db user newId body :
  code (fst (createBooking isISO8601 newDate isAvailable db user newId body))
  <> 201 ->
  snd (createBooking isISO8601 newDate isAvailable db user newId body) = db
  /\ data (fst (createBooking isISO8601 newDate isAvailable db user newId
                  body)) = None.
Proof.
  unfold createBooking.
  repeat match goal with
         | |- context [if ?c then _ else _] => destruct c
         | |- context [match ?c with Some _ => _ | None => _ end] =>
             destruct c
         end; simpl; intros C; try (split; reflexivity); congruence.
Qed.

Lemma find_append {A : Type} (p : A -> bool) (l l' : list A) :
  find p (l ++ l')%list
  = match find p l with
    | Some x => Some x
    | None => find p l'
    end.
Proof.
  induction l as [|x l IH]; simpl; [reflexivity|].
  destruct (p x); [reflexivity | exact IH].
Qed.

(** Creating a booking either fails and leaves the whole database as it
    was, or answers 201 and appends exactly one booking, in the status a
    new document gets and not cancelled, under the new identifier;
    students, tutors and the bookings already stored are not touched. *)
Theorem createBooking_appends_or_leaves db user newId body :
  (forall b, In b (bookings db) -> booking_id b <> newId) ->
  let out := createBooking isISO8601 newDate isAvailable db user newId body in
  students (snd out) = students db /\ tutors (snd out) = tutors db
  /\ ((code (fst out) <> 201 /\ data (fst out) = None /\ snd out = db)
      \/ (exists b,
            code (fst out) = 201 /\ data (fst out) = Some b
            /\ bookings (snd out) = (bookings db ++ [b])%list
            /\ booking_id b = newId /\ status b = initialStatus
            /\ cancellation b = None
            /\ findById newId (bookings (snd out)) = Some b)).
Proof.
  intros Hfresh. cbv zeta.
  destruct (Z.eq_dec
              (code (fst (createBooking isISO8601 newDate isAvailable db
                            user newId body))) 201) as [C|C].
  - destruct (createBooking_created _ _ _ _ _ _ _ C)
      as (_ & st & t & s & _ & _ & _ & _ & ->).
    cbv zeta. simpl. split; [reflexivity|]. split; [reflexivity|].
    right. eexists. split; [reflexivity|]. split; [reflexivity|].
    rewrite save_fresh by exact Hfresh.
    split; [reflexivity|]. repeat split.
    unfold findById. rewrite find_append.
    destruct (find _ (bookings db)) as [x|] eqn:E.
    + apply find_some in E. destruct E as [Hin Hid].
      apply String.eqb_eq in Hid. exfalso. exact (Hfresh x Hin Hid).
    + simpl. rewrite String.eqb_refl. reflexivity.
  - destruct (createBooking_not_created _ _ _ _ C) as [-> ->].
    split; [reflexivity|]. split; [reflexivity|].
    left. repeat split. exact C.
Qed.

Lemma lte_refl s : lte s s = true.
Proof.
  unfold lte. destruct (String.leb_total s s); assumption.
Qed.

Lemma save_In b bs : In b (save b bs).
Proof.
  induction bs as [|x bs IH]; simpl; [left; reflexivity|].
  destruct (String.eqb (booking_id x) (booking_id b));
    [left; reflexivity | right; exact IH].
Qed.

(** A request for the tutor, the date and the two times of a stored
    booking that is scheduled, confirmed or in progress is never
    answered 201 and stores nothing, whatever the two time strings are:
    the third clause of the conflict query selects the stored booking. *)
Theorem createBooking_slot_taken db user newId body stored :
  In stored (bookings db) ->
  tutor stored = b_tutorId body ->
  scheduledDate stored = newDate (b_scheduledDate body) ->
  startTime stored = b_startTime body ->
  endTime stored = b_endTime body ->
  isActive (status stored) = true ->
  let out := createBooking isISO8601 newDate isAvailable db user newId body in
  code (fst out) <> 201 /\ data (fst out) = None /\ snd out = db.
Proof.
  intros Hin Ht Hd Hs He Ha. cbv zeta.
  assert (C : code (fst (createBooking isISO8601 newDate isAvailable db user
                           newId body)) <> 201).
  { unfold createBooking.
    destruct (find (conflictQuery _ _ _ _) (bookings db)) as [x|] eqn:F.
    - repeat match goal with
             | |- context [if ?c then _ else _] => destruct c
             | |- context [match ?c with Some _ => _ | None => _ end] =>
                 destruct c
             end; simpl; discriminate.
    - exfalso. pose proof (find_none _ _ F stored Hin) as Hq.
      unfold conflictQuery in Hq.
      rewrite Ht, Hd, Hs, He, Ha in Hq.
      rewrite String.eqb_refl, Z.eqb_refl, !lte_refl in Hq.
      rewrite !andb_true_r, orb_true_r in Hq. discriminate. }
  destruct (createBooking_not_created _ _ _ _ C) as [E1 E2].
  repeat split; assumption.
Qed.

(** Sending the same create request a second time, whatever identifier
    the second document would get, is answered 400 "Time slot is already
    booked" and stores nothing, provided the status a new document gets
    is one the conflict query looks at: the booking made by the first
    request occupies the slot. *)
Theorem createBooking_twice_rejected db user id1 id2 body :
  isActive initialStatus = true ->
  let first := createBooking isISO8601 newDate isAvailable db user id1 body in
  code (fst first) = 201 ->
  createBooking isISO8601 newDate isAvailable (snd first) user id2 body
  = (mkReply 400 false "Time slot is already booked" None, snd first).
Proof.
  intros Hact. cbv zeta. intros C.
  destruct (createBooking_created _ _ _ _ _ _ _ C)
    as (Hv & st & t & s & Hst & Ht & Hs & _ & E).
  rewrite E. cbv zeta. cbn [snd].
  set (b := mkBooking id1 _ _ _ _ _ _ _ _ _ _ _ _ _ _).
  unfold createBooking at 1. rewrite Hv. cbn [negb].
  cbn [students tutors withBookings bookings].
  rewrite Hst, Ht.
  assert (Ha : isAvailableForBooking t = true
               /\ isAvailable t (newDate (b_scheduledDate body))
                    (b_startTime body) (b_endTime body) = true).
  { revert C. unfold createBooking. rewrite Hv, Hst, Ht. cbn [negb].
    destruct (isAvailableForBooking t); [|discriminate].
    rewrite Hs. cbn [negb].
    destruct (isAvailable t _ _ _); [|discriminate].
    split; reflexivity. }
  destruct Ha as [Ha1 Ha2]. rewrite Ha1, Hs, Ha2. cbn [negb].
  destruct (find _ (save b (bookings db))) as [x|] eqn:F; [reflexivity|].
  exfalso. pose proof (find_none _ _ F b (save_In b (bookings db))) as Hq.
  unfold conflictQuery in Hq. subst b.
  cbn [tutor scheduledDate startTime endTime status] in Hq.
  rewrite Hact in Hq.
  rewrite String.eqb_refl, Z.eqb_refl, !lte_refl in Hq.
  rewrite !andb_true_r, orb_true_r in Hq. discriminate.
Qed.

End CreateEffects.

(** ** Cancelling a booking: effect on the store *)

Section CancelEffects.
Import TimeOfDay Bookings BookingSpec BookingViews.

Variable canBeCancelled : Z -> Booking -> bool.
Variable calculateRefundAmount : Booking -> float.

Let cancel := cancelRoute canBeCancelled calculateRefundAmount.

(** The cancel route over the booking model of the design document. *)
Lemma cancelBooking_cancelRoute db now user id why :
  cancelBooking db now user id why
  = cancelRoute Bookings.canBeCancelled Bookings.calculateRefundAmount db now
      user id why.
Proof. reflexivity. Qed.

(** What a reply 200 of the cancel route tells. *)
Lemma cancelRoute_done db now user id why :
  code (fst (cancel db now user id why)) = 200 ->
  exists b,
    findById id (bookings db) = Some b
    /\ canCancel user b = Some true
    /\ snd (cancel db now user id why)
       = withBookings db
           (save (markCancelled b
                    (mkCancellation why (role user) now true
                       (calculateRefundAmount b)))
                 (bookings db)).
Proof.
  unfold cancel, cancelRoute.
  destruct (String.eqb why ""); [discriminate|].
  destruct (findById id (bookings db)) as [b|] eqn:Eb; [|discriminate].
  destruct (canCancel user b) as [[|]|] eqn:Ec; try discriminate.
  destruct (canBeCancelled now b); simpl; [|discriminate].
  intros _. exists b. repeat split; try assumption; reflexivity.
Qed.

Lemma cancelRoute_refused db now user id why :
  code (fst (cancel db now user id why)) <> 200 ->
  snd (cancel db now user id why) = db.
Proof.
  unfold cancel, cancelRoute.
  repeat match goal with
         | |- context [if ?c then _ else _] => destruct c
         | |- context [match ?c with Some _ => _ | None => _ end] =>
             destruct c
         end; simpl; intros C; try reflexivity; congruence.
Qed.

Lemma save_length b bs old :
  findById (booking_id b) bs = Some old ->
  List.length (save b bs) = List.length bs.
Proof.
  unfold findById. induction bs as [|x bs IH]; simpl; [discriminate|].
  destruct (String.eqb (booking_id x) (booking_id b)); simpl;
    [reflexivity | intros H; rewrite IH by exact H; reflexivity].
Qed.

Lemma findById_save_other id b bs :
  id <> booking_id b -> findById id (save b bs) = findById id bs.
Proof.
  intros Hne. unfold findById.
  assert (Hb : String.eqb (booking_id b) id = false).
  { apply String.eqb_neq. congruence. }
  induction bs as [|x bs IH]; simpl.
  - rewrite Hb. reflexivity.
  - destruct (String.eqb (booking_id x) (booking_id b)) eqn:E; simpl.
    + apply String.eqb_eq in E. rewrite E, Hb. reflexivity.
    + rewrite IH. reflexivity.
Qed.

(** A cancel request changes at most the one booking it names: students
    and tutors stay, no booking is added or removed, every other booking
    is read back as before, and a request that is not answered 200
    changes nothing at all. *)
Theorem cancelRoute_touches_one db now user id why :
  let out := cancel db now user id why in
  students (snd out) = students db /\ tutors (snd out) = tutors db
  /\ List.length (bookings (snd out)) = List.length (bookings db)
  /\ (forall id', id' <> id ->
        findById id' (bookings (snd out)) = findById id' (bookings db))
  /\ (code (fst out) <> 200 -> snd out = db).
Proof.
  cbv zeta.
  destruct (Z.eq_dec (code (fst (cancel db now user id why))) 200)
    as [C|C].
  - destruct (cancelRoute_done _ _ _ _ _ C) as (b & Hb & _ & ->).
    pose proof (findById_id _ _ _ Hb) as Hid. subst id.
    cbn [withBookings students tutors bookings].
    split; [reflexivity|]. split; [reflexivity|]. split; [|split].
    + exact (save_length (markCancelled b _) _ b Hb).
    + intros id' Hne. apply findById_save_other. exact Hne.
    + intros H. contradiction.
  - rewrite (cancelRoute_refused _ _ _ _ _ C).
    repeat split; reflexivity.
Qed.

(** A cancellation is carried out only for the student of the booking,
    the tutor of the booking, an admin or an employee. *)
Theorem cancelRoute_only_parties db now user id why :
  code (fst (cancel db now user id why)) = 200 ->
  exists b,
    findById id (bookings db) = Some b
    /\ ((role user = "student" /\ studentUserOf db b = Some (user_id user))
        \/ (role user = "tutor" /\ tutorUserOf db b = Some (user_id user))
        \/ role user = "admin" \/ role user = "employee").
Proof.
  intros C. destruct (cancelRoute_done _ _ _ _ _ C) as (b & Hb & Hc & _).
  exists b. split; [exact Hb|].
  unfold canCancel, userOfUnpopulated in Hc.
  destruct (String.eqb (role user) "student"); [discriminate|].
  destruct (String.eqb (role user) "tutor"); [discriminate|].
  right. right. injection Hc as Hc. unfold includes in Hc. simpl in Hc.
  apply orb_true_iff in Hc. destruct Hc as [Hc|Hc].
  - left. apply String.eqb_eq in Hc. congruence.
  - apply orb_true_iff in Hc. destruct Hc as [Hc|Hc]; [|discriminate].
    right. apply String.eqb_eq in Hc. congruence.
Qed.

Variable isISO8601 : string -> bool.
Variable newDate : string -> Z.
Variable isAvailable : Tutor -> Z -> string -> string -> bool.

Lemma save_append_fresh b b' bs :
  (forall x, In x bs -> booking_id x <> booking_id b) ->
  booking_id b' = booking_id b ->
  save b' (bs ++ [b])%list = (bs ++ [b'])%list.
Proof.
  intros Hf Hid. induction bs as [|x bs IH]; simpl.
  - rewrite Hid, String.eqb_refl. reflexivity.
  - destruct (String.eqb (booking_id x) (booking_id b')) eqn:E.
    + apply String.eqb_eq in E. exfalso.
      apply (Hf x); [left; reflexivity | congruence].
    + rewrite IH; [reflexivity|]. intros y Hy. apply Hf. right. exact Hy.
Qed.

(** Once a booking has been cancelled its slot is free again: the very
    request that created it, sent again, is answered 201. *)
Theorem createBooking_after_cancel db user id1 id2 body now who why :
  (forall b, In b (bookings db) -> booking_id b <> id1) ->
  let first := createBooking isISO8601 newDate isAvailable db user id1 body in
  code (fst first) = 201 ->
  let second := cancel (snd first) now who id1
      why in
  code (fst second) = 200 ->
  code (fst (createBooking isISO8601 newDate isAvailable (snd second) user
               id2 body)) = 201.
Proof.
  intros Hfresh. cbv zeta. intros C1.
  destruct (createBooking_created _ _ _ _ _ _ _ C1)
    as (Hv & st & t & s & Hst & Ht & Hs & Hfree & E).
  assert (Ha : isAvailableForBooking t = true
               /\ isAvailable t (newDate (b_scheduledDate body))
                    (b_startTime body) (b_endTime body) = true).
  { revert C1. unfold createBooking. rewrite Hv, Hst, Ht. cbn [negb].
    destruct (isAvailableForBooking t); [|discriminate].
    rewrite Hs. cbn [negb].
    destruct (isAvailable t _ _ _); [|discriminate].
    split; reflexivity. }
  destruct Ha as [Ha1 Ha2].
  rewrite E. cbv zeta. cbn [snd].
  set (b := mkBooking id1 _ _ _ _ _ _ _ _ _ _ _ _ _ _).
  rewrite save_fresh by exact Hfresh.
  intros C2.
  destruct (cancelRoute_done _ _ _ _ _ C2) as (bk & Hbk & _ & ->).
  cbn [withBookings bookings students tutors] in *.
  assert (bk = b).
  { unfold findById in Hbk. rewrite find_append in Hbk.
    destruct (find (fun x => String.eqb (booking_id x) id1) (bookings db))
      as [x|] eqn:F.
    - apply find_some in F. destruct F as [Hin Hid].
      apply String.eqb_eq in Hid. exfalso. exact (Hfresh x Hin Hid).
    - simpl in Hbk. rewrite String.eqb_refl in Hbk. congruence. }
  subst bk.
  rewrite (save_append_fresh b) by (exact Hfresh || reflexivity).
  unfold createBooking. rewrite Hv. cbn [negb].
  cbn [withBookings bookings students tutors].
  rewrite Hst, Ht, Ha1, Hs, Ha2. cbn [negb].
  rewrite find_append, Hfree. cbn [find].
  unfold conflictQuery at 1. cbn [status markCancelled isActive].
  rewrite andb_false_r. reflexivity.
Qed.

End CancelEffects.

(** ** Listing, reading and updating bookings *)

Section ViewFacts.
Import Bookings BookingViews.

Lemma firstn_incl {A : Type} n (l : list A) x : In x (firstn n l) -> In x l.
Proof.
  intros H. rewrite <- (firstn_skipn n l). apply in_or_app. left. exact H.
Qed.

Lemma skipn_incl {A : Type} n (l : list A) x : In x (skipn n l) -> In x l.
Proof.
  intros H. rewrite <- (firstn_skipn n l). apply in_or_app. right. exact H.
Qed.

Lemma listPage_In owner db q pg b :
  data (listPage owner db q) = Some pg ->
  In b (page_bookings pg) ->
  In b (bookings db) /\ listFilter owner q b = true.
Proof.
  unfold listPage. cbv zeta. simpl. intros [= <-]. simpl. intros H.
  apply firstn_incl, skipn_incl in H.
  apply (Permutation_in _ (sort_perm byDateTimeDesc _)) in H.
  apply filter_In in H. exact H.
Qed.

(** The list route shows a student the bookings of the student's own
    profile only and a tutor the bookings of the tutor's own profile
    only; every booking shown is a stored one and has the status asked
    for, if one was asked for. *)
Theorem listBookings_own db user q pg b :
  data (listBookings db user q) = Some pg ->
  In b (page_bookings pg) ->
  In b (bookings db)
  /\ (role user = "student" ->
      exists st, In st (students db) /\ student_user st = user_id user
                 /\ student b = student_id st)
  /\ (role user = "tutor" ->
      exists t, In t (tutors db) /\ tutor_user t = user_id user
                /\ tutor b = tutor_id t)
  /\ (forall s, l_status q = Some s -> s <> "" -> statusName (status b) = s).
Proof.
  unfold listBookings. intros Hd Hin.
  destruct (validateList q); [|discriminate]. cbn [negb] in Hd.
  assert (Hstatus : forall owner, listFilter owner q b = true ->
            forall s, l_status q = Some s -> s <> "" ->
                      statusName (status b) = s).
  { intros owner Hf s Hs Hne. unfold listFilter in Hf.
    apply andb_true_iff in Hf. destruct Hf as [_ Hf].
    rewrite Hs in Hf. simpl in Hf.
    destruct (String.eqb s "") eqn:E;
      [apply String.eqb_eq in E; contradiction|].
    apply String.eqb_eq in Hf. exact Hf. }
  destruct (String.eqb (role user) "student") eqn:Es.
  - apply String.eqb_eq in Es.
    destruct (find _ (students db)) as [st|] eqn:F; [|discriminate].
    destruct (listPage_In _ _ _ _ _ Hd Hin) as [Hb Hf].
    split; [exact Hb|]. split; [|split].
    + intros _. exists st. apply find_some in F. destruct F as [F1 F2].
      apply String.eqb_eq in F2. split; [exact F1|]. split; [exact F2|].
      unfold listFilter in Hf. apply andb_true_iff in Hf.
      apply String.eqb_eq. exact (proj1 Hf).
    + intros Ht. rewrite Es in Ht. discriminate.
    + exact (Hstatus _ Hf).
  - destruct (String.eqb (role user) "tutor") eqn:Et.
    + apply String.eqb_eq in Et.
      destruct (find _ (tutors db)) as [t|] eqn:F; [|discriminate].
      destruct (listPage_In _ _ _ _ _ Hd Hin) as [Hb Hf].
      split; [exact Hb|]. split; [|split].
      * intros Hr. rewrite Hr in Es. discriminate.
      * intros _. exists t. apply find_some in F. destruct F as [F1 F2].
        apply String.eqb_eq in F2. split; [exact F1|]. split; [exact F2|].
        unfold listFilter in Hf. apply andb_true_iff in Hf.
        apply String.eqb_eq. exact (proj1 Hf).
      * exact (Hstatus _ Hf).
    + destruct (listPage_In _ _ _ _ _ Hd Hin) as [Hb Hf].
      split; [exact Hb|]. split; [|split].
      * intros Hr. rewrite Hr in Es. discriminate.
      * intros Hr. rewrite Hr in Et. discriminate.
      * exact (Hstatus _ Hf).
Qed.

Lemma byDateTimeDesc_Gt a b :
  byDateTimeDesc a b = Gt -> scheduledDate a <= scheduledDate b.
Proof.
  unfold byDateTimeDesc.
  destruct (Z.compare_spec (scheduledDate b) (scheduledDate a));
    intros; try discriminate; lia.
Qed.

Lemma byDateTimeDesc_not_Gt a b :
  byDateTimeDesc a b <> Gt -> scheduledDate b <= scheduledDate a.
Proof.
  unfold byDateTimeDesc.
  destruct (Z.compare_spec (scheduledDate b) (scheduledDate a));
    intros; try congruence; lia.
Qed.

Lemma insert_latestFirst x l :
  StronglySorted latestFirst l ->
  StronglySorted latestFirst (JsSort.insert byDateTimeDesc x l).
Proof.
  induction 1 as [|y l Hs IH Hy]; simpl.
  - repeat constructor.
  - destruct (byDateTimeDesc x y) eqn:E.
    + assert (Hxy : latestFirst x y)
        by (apply byDateTimeDesc_not_Gt; congruence).
      constructor; [constructor; assumption|].
      constructor; [assumption|].
      eapply Forall_impl; [|exact Hy].
      unfold latestFirst in *. intros; lia.
    + assert (Hxy : latestFirst x y)
        by (apply byDateTimeDesc_not_Gt; congruence).
      constructor; [constructor; assumption|].
      constructor; [assumption|].
      eapply Forall_impl; [|exact Hy].
      unfold latestFirst in *. intros; lia.
    + constructor; [exact IH|].
      apply byDateTimeDesc_Gt in E.
      eapply Permutation_Forall; [symmetry; apply insert_perm|].
      constructor; [exact E | exact Hy].
Qed.

Lemma sort_latestFirst l :
  StronglySorted latestFirst (JsSort.sort byDateTimeDesc l).
Proof.
  induction l as [|x l IH]; simpl; [constructor|].
  apply insert_latestFirst, IH.
Qed.

Lemma StronglySorted_skipn {A : Type} (R : A -> A -> Prop) n l :
  StronglySorted R l -> StronglySorted R (skipn n l).
Proof.
  revert l. induction n as [|n IH]; intros l H; [exact H|].
  destruct l as [|x l]; [constructor|].
  simpl. apply IH. inversion H; assumption.
Qed.

Lemma StronglySorted_firstn {A : Type} (R : A -> A -> Prop) n l :
  StronglySorted R l -> StronglySorted R (firstn n l).
Proof.
  revert l. induction n as [|n IH]; intros l H; [constructor|].
  destruct l as [|x l]; [constructor|].
  simpl. inversion H as [|? ? Hs Hf]; subst. constructor.
  - apply IH. exact Hs.
  - rewrite Forall_forall in *. intros y Hy. apply Hf.
    exact (firstn_incl _ _ _ Hy).
Qed.

(** A page of the list route holds at most [limit] bookings, never more
    than 50, with the latest scheduled date first, and the reply counts
    all the bookings that match, on whatever page they are. *)
Theorem listBookings_page db user q pg :
  data (listBookings db user q) = Some pg ->
  let limit := TutorSearch.withDefault 10 (l_limit q) in
  (Z.of_nat (List.length (page_bookings pg)) <= limit <= 50)
  /\ StronglySorted latestFirst (page_bookings pg)
  /\ Z.of_nat (List.length (page_bookings pg))
     <= bp_totalBookings (page_pagination pg).
Proof.
  unfold listBookings. intros Hd.
  destruct (validateList q) eqn:V; [|discriminate]. cbn [negb] in Hd.
  assert (Hl : 1 <= TutorSearch.withDefault 10 (l_limit q) <= 50).
  { unfold validateList in V. apply andb_true_iff in V.
    destruct V as [_ V]. destruct (l_limit q) as [l|]; simpl in *; [|lia].
    apply andb_true_iff in V. destruct V as [V1 V2].
    apply Z.leb_le in V1. apply Z.leb_le in V2. lia. }
  assert (Hpage : forall owner, data (listPage owner db q) = Some pg ->
    (Z.of_nat (List.length (page_bookings pg))
     <= TutorSearch.withDefault 10 (l_limit q) <= 50)
    /\ StronglySorted latestFirst (page_bookings pg)
    /\ Z.of_nat (List.length (page_bookings pg))
       <= bp_totalBookings (page_pagination pg)).
  { intros owner. unfold listPage. cbv zeta. simpl. intros [= <-]. simpl.
    split; [|split].
    - rewrite length_firstn. lia.
    - apply StronglySorted_firstn, StronglySorted_skipn, sort_latestFirst.
    - rewrite length_firstn, length_skipn, sort_length. lia. }
  cbv zeta.
  destruct (String.eqb (role user) "student").
  - destruct (find _ (students db)); [|discriminate]. eapply Hpage, Hd.
  - destruct (String.eqb (role user) "tutor").
    + destruct (find _ (tutors db)); [|discriminate]. eapply Hpage, Hd.
    + eapply Hpage, Hd.
Qed.

(** A booking is read out by its identifier only to the student of the
    booking, to the tutor of the booking, to an admin or to an
    employee. *)
Theorem getBooking_only_parties db user id b :
  data (getBooking db user id) = Some b ->
  findById id (bookings db) = Some b
  /\ ((role user = "student" /\ studentUserOf db b = Some (user_id user))
      \/ (role user = "tutor" /\ tutorUserOf db b = Some (user_id user))
      \/ role user = "admin" \/ role user = "employee").
Proof.
  unfold getBooking.
  destruct (findById id (bookings db)) as [bk|]; [|discriminate].
  destruct (hasAccess db user bk) as [[|]|] eqn:Ha; try discriminate.
  simpl. intros [= <-]. split; [reflexivity|].
  unfold hasAccess in Ha.
  destruct (String.eqb (role user) "student") eqn:Es.
  - left. apply String.eqb_eq in Es. split; [exact Es|].
    destruct (studentUserOf db bk) as [u|]; [|discriminate].
    simpl in Ha. injection Ha as Ha. apply String.eqb_eq in Ha. congruence.
  - destruct (String.eqb (role user) "tutor") eqn:Et.
    + right. left. apply String.eqb_eq in Et. split; [exact Et|].
      destruct (tutorUserOf db bk) as [u|]; [|discriminate].
      simpl in Ha. injection Ha as Ha. apply String.eqb_eq in Ha. congruence.
    + right. right. injection Ha as Ha. unfold includes in Ha. simpl in Ha.
      apply orb_true_iff in Ha. destruct Ha as [Ha|Ha].
      * left. apply String.eqb_eq in Ha. congruence.
      * apply orb_true_iff in Ha. destruct Ha as [Ha|Ha]; [|discriminate].
        right. apply String.eqb_eq in Ha. congruence.
Qed.

Variable updateStatus : Db -> Booking -> string -> option string
                        -> Booking * Db.

(** The status route lets only the tutor of the booking, an admin or an
    employee through, and only towards one of the five statuses it
    lists; for everyone else, a student included, and for every other
    status the store stays as it was. *)
Theorem updateBookingStatus_guard db user id status_ reason_ :
  let out := updateBookingStatus updateStatus db user id status_ reason_ in
  (code (fst out) = 200 ->
   exists b,
     findById id (bookings db) = Some b
     /\ In status_ ["confirmed"; "in_progress"; "completed"; "cancelled";
                    "no_show"]
     /\ ((role user = "tutor" /\ tutorUserOf db b = Some (user_id user))
         \/ role user = "admin" \/ role user = "employee"))
  /\ (code (fst out) <> 200 -> snd out = db).
Proof.
  cbv zeta. unfold updateBookingStatus.
  destruct (includes _ status_) eqn:Ei; cbn [negb];
    [|split; [discriminate | reflexivity]].
  destruct (findById id (bookings db)) as [b|];
    [|split; [discriminate | reflexivity]].
  destruct (canUpdate user b) as [[|]|] eqn:Ec;
    try (split; [discriminate | reflexivity]).
  split; [|simpl; congruence].
  intros _. exists b. split; [reflexivity|]. split.
  - unfold includes in Ei. apply existsb_exists in Ei.
    destruct Ei as (x & Hx & Hex). apply String.eqb_eq in Hex. subst x.
    exact Hx.
  - unfold canUpdate, userOfUnpopulated in Ec.
    assert (Hstaff : includes ["admin"; "employee"] (role user) = true ->
                     role user = "admin" \/ role user = "employee").
    { unfold includes. simpl. intros H.
      apply orb_true_iff in H. destruct H as [H|H].
      - left. apply String.eqb_eq in H. congruence.
      - apply orb_true_iff in H. destruct H as [H|H]; [|discriminate].
        right. apply String.eqb_eq in H. congruence. }
    destruct (String.eqb (role user) "tutor"); [discriminate|].
    right. apply Hstaff. injection Ec as Ec. exact Ec.
Qed.

End ViewFacts.

(** ** Payments *)

Section PaymentFacts.
Import Payments.

Variable hmacSha256Hex : string -> string -> string.
Variable keySecret : string.
Variable fetchPayment : string -> option GatewayPayment.
Variable razorpayRefund
  : string -> float -> string -> Id -> option GatewayRefund.
Variable stripeRefund
  : string -> float -> string -> Id -> option GatewayRefund.

Lemma findPaid_id id bs b :
  findPaid id bs = Some b -> booking_id (paid_booking b) = id.
Proof.
  unfold findPaid. intros H. apply find_some in H.
  apply String.eqb_eq. exact (proj2 H).
Qed.

Lemma findPaid_savePaid b bs old :
  findPaid (booking_id (paid_booking b)) bs = Some old ->
  findPaid (booking_id (paid_booking b)) (savePaid b bs) = Some b.
Proof.
  unfold findPaid. induction bs as [|x bs IH]; simpl; [discriminate|].
  destruct (String.eqb (booking_id (paid_booking x))
                       (booking_id (paid_booking b))) eqn:E; simpl.
  - intros _. rewrite String.eqb_refl. reflexivity.
  - rewrite E. exact IH.
Qed.

Lemma staff_roles r :
  includes ["admin"; "employee"] r = true -> r = "admin" \/ r = "employee".
Proof.
  unfold includes. simpl. intros H.
  apply orb_true_iff in H. destruct H as [H|H].
  - left. apply String.eqb_eq in H. congruence.
  - apply orb_true_iff in H. destruct H as [H|H]; [|discriminate].
    right. apply String.eqb_eq in H. congruence.
Qed.

(** What a reply 200 of the refund route tells. *)
Lemma refund_done bs now user id amount why :
  code (fst (refund razorpayRefund stripeRefund bs now user id amount why))
  = 200 ->
  exists b r,
    includes ["admin"; "employee"] (role user) = true
    /\ findPaid id bs = Some b
    /\ pay_status (paid_payment b) = "paid"
    /\ (if String.eqb (pay_method (paid_payment b)) "razorpay" then
          razorpayRefund (pay_transactionId (paid_payment b))
            (amountOr amount (totalAmount (pricing (paid_booking b)))) why
            (user_id user)
        else if String.eqb (pay_method (paid_payment b)) "stripe" then
          stripeRefund (pay_transactionId (paid_payment b))
            (amountOr amount (totalAmount (pricing (paid_booking b)))) why
            (user_id user)
        else None) = Some r
    /\ refund razorpayRefund stripeRefund bs now user id amount why
       = (let total := totalAmount (pricing (paid_booking b)) in
          let refundAmount := amountOr amount total in
          (mkReply 200 true "Refund processed successfully"
             (Some (mkRefunded (gr_id r) refundAmount (gr_status r))),
           savePaid
             (mkPaidBooking (paid_booking b)
                (mkPaymentInfo
                   (if PrimFloat.leb total refundAmount then "refunded"
                    else "partial_refund")
                   (pay_method (paid_payment b))
                   (pay_transactionId (paid_payment b))
                   (pay_paymentId (paid_payment b))
                   (pay_paidAt (paid_payment b))
                   (Some (gr_id r)) (Some refundAmount) (Some now)))
             bs)).
Proof.
  unfold refund.
  destruct (isMongoId id && _ && _); cbn [negb]; [|discriminate].
  destruct (includes _ (role user)) eqn:Er; cbn [negb]; [|discriminate].
  destruct (findPaid id bs) as [b|] eqn:Eb; [|discriminate].
  destruct (String.eqb (pay_status (paid_payment b)) "paid") eqn:Ep;
    cbn [negb]; [|discriminate].
  cbv zeta.
  match goal with
  | |- context [match ?g with Some _ => _ | None => _ end] =>
      destruct g as [r|] eqn:Eg
  end; [|discriminate].
  intros _. exists b, r. apply String.eqb_eq in Ep.
  repeat split; try assumption; reflexivity.
Qed.

Lemma refund_refused bs now user id amount why :
  code (fst (refund razorpayRefund stripeRefund bs now user id amount why))
  <> 200 ->
  snd (refund razorpayRefund stripeRefund bs now user id amount why) = bs.
Proof.
  unfold refund.
  repeat match goal with
         | |- context [if negb ?c then _ else _] => destruct c; cbn [negb]
         | |- context [match ?c with Some _ => _ | None => _ end] =>
             destruct c; cbv zeta
         end; simpl; intros C; try reflexivity; congruence.
Qed.

(** A refund is carried out only on the request of an admin or an
    employee and only for a booking whose payment is in status paid;
    every request that is not answered 200 leaves the bookings as they
    were. *)
Theorem refund_guard bs now user id amount why :
  let out := refund razorpayRefund stripeRefund bs now user id amount why in
  (code (fst out) = 200 ->
   (role user = "admin" \/ role user = "employee")
   /\ exists b, findPaid id bs = Some b
                /\ pay_status (paid_payment b) = "paid")
  /\ (code (fst out) <> 200 -> snd out = bs).
Proof.
  cbv zeta. split.
  - intros C. destruct (refund_done _ _ _ _ _ _ C)
      as (b & r & Hr & Hb & Hp & _).
    split; [apply staff_roles; exact Hr|]. exists b. split; assumption.
  - apply refund_refused.
Qed.

(** A booking is refunded at most once: after a refund answered 200,
    every further refund request for the same booking, by whomever and
    for whatever amount, is refused and changes nothing. *)
Theorem refund_once bs now user id amount why now' user' amount' why' :
  let first := refund razorpayRefund stripeRefund bs now user id amount why in
  code (fst first) = 200 ->
  let again :=
    refund razorpayRefund stripeRefund (snd first) now' user' id amount'
           why' in
  code (fst again) <> 200 /\ snd again = snd first.
Proof.
  cbv zeta. intros C.
  destruct (refund_done _ _ _ _ _ _ C) as (b & r & _ & Hb & _ & _ & E).
  assert (N : code (fst (refund razorpayRefund stripeRefund
                           (snd (refund razorpayRefund stripeRefund bs now
                                   user id amount why))
                           now' user' id amount' why')) <> 200).
  { intros C'. destruct (refund_done _ _ _ _ _ _ C')
      as (b' & r' & _ & Hb' & Hp' & _).
    rewrite E in Hb'. cbv zeta in Hb'. cbn [snd] in Hb'.
    pose proof (findPaid_id _ _ _ Hb) as Hid. subst id.
    rewrite (findPaid_savePaid (mkPaidBooking (paid_booking b) _) bs b Hb)
      in Hb'.
    injection Hb' as <-. cbn in Hp'.
    destruct (PrimFloat.leb _ _); discriminate. }
  split; [exact N | apply refund_refused; exact N].
Qed.

(** A number equal to itself is at most itself. *)
Lemma float_leb_refl x : PrimFloat.is_nan x = false -> PrimFloat.leb x x = true.
Proof.
  unfold PrimFloat.is_nan. intros H. apply negb_false_iff in H.
  rewrite FloatAxioms.eqb_spec in H. rewrite FloatAxioms.leb_spec.
  unfold SpecFloat.SFeqb in H. unfold SpecFloat.SFleb.
  destruct (SpecFloat.SFcompare (Prim2SF x) (Prim2SF x)) as [[| |]|];
    try discriminate; reflexivity.
Qed.

(** A refund asked for without an amount is a refund of the whole total:
    the gateway reply permitting, the booking's payment becomes
    refunded, with the total as refund amount, and the reply names the
    total. *)
Theorem refund_defaults_to_total bs now user id why b :
  let out := refund razorpayRefund stripeRefund bs now user id None why in
  findPaid id bs = Some b ->
  PrimFloat.is_nan (totalAmount (pricing (paid_booking b))) = false ->
  code (fst out) = 200 ->
  exists b' r,
    findPaid id (snd out) = Some b'
    /\ pay_status (paid_payment b') = "refunded"
    /\ pay_refundAmount (paid_payment b')
       = Some (totalAmount (pricing (paid_booking b)))
    /\ paid_booking b' = paid_booking b
    /\ data (fst out)
       = Some (mkRefunded (gr_id r)
                 (totalAmount (pricing (paid_booking b)))
                 (gr_status r)).
Proof.
  cbv zeta. intros Hb Hn C.
  destruct (refund_done _ _ _ _ _ _ C) as (b0 & r & _ & Hb0 & _ & _ & E).
  rewrite Hb in Hb0. injection Hb0 as <-.
  eexists. exists r.
  rewrite E. cbv zeta. cbn [snd fst data amountOr].
  pose proof (findPaid_id _ _ _ Hb) as Hid. subst id.
  rewrite (findPaid_savePaid (mkPaidBooking (paid_booking b) _) bs b Hb).
  rewrite (float_leb_refl _ Hn).
  repeat split; reflexivity.
Qed.

End PaymentFacts.

Section VerifyFacts.
Import Payments.

Variable hmacSha256Hex : string -> string -> string.
Variable keySecret : string.
Variable fetchPayment : string -> option GatewayPayment.

(** A payment is verified only when the signature sent is the HMAC of
    "order|payment" under the key secret; a request that is not answered
    200, one with a wrong signature among them, changes no booking. *)
Theorem verifyRazorpay_checks_signature bs now order payment signature
    bookingId :
  let out := verifyRazorpay hmacSha256Hex keySecret fetchPayment bs now
               order payment signature bookingId in
  (code (fst out) = 200 ->
   hmacSha256Hex keySecret (order ++ "|" ++ payment) = signature)
  /\ (code (fst out) <> 200 -> snd out = bs).
Proof.
  cbv zeta. unfold verifyRazorpay.
  destruct (negb (String.eqb order "") && _ && _ && _); cbn [negb];
    [|split; [discriminate | reflexivity]].
  cbv zeta.
  destruct (String.eqb (hmacSha256Hex keySecret (order ++ "|" ++ payment))
                       signature) eqn:E; cbn [negb];
    [|split; [discriminate | reflexivity]].
  apply String.eqb_eq in E.
  destruct (fetchPayment payment);
    [|split; [discriminate | reflexivity]].
  split; [intros _; exact E | simpl; congruence].
Qed.

Lemma isMongoId_nonempty s : isMongoId s = true -> s <> "".
Proof.
  intros H ->. discriminate.
Qed.

(** A verified payment for a stored booking marks the booking paid
    through razorpay, with the payment as transaction and the order as
    payment identifier, and sets its status to confirmed, whatever the
    status was before; nothing else of the booking changes. *)
Theorem verifyRazorpay_confirms bs now order payment signature id b :
  let out := verifyRazorpay hmacSha256Hex keySecret fetchPayment bs now
               order payment signature (Some id) in
  code (fst out) = 200 ->
  findPaid id bs = Some b ->
  findPaid id (snd out)
  = Some (mkPaidBooking (withStatus (paid_booking b) confirmed)
            (mkPaymentInfo "paid" "razorpay" payment order (Some now)
                           None None None)).
Proof.
  cbv zeta. unfold verifyRazorpay.
  destruct (negb (String.eqb order "") && _ && _ && _) eqn:V; cbn [negb];
    [|discriminate].
  cbv zeta.
  destruct (String.eqb (hmacSha256Hex keySecret (order ++ "|" ++ payment))
                       signature); cbn [negb]; [|discriminate].
  destruct (fetchPayment payment); [|discriminate].
  intros _ Hb. cbn [snd].
  apply andb_true_iff in V. destruct V as [_ V].
  unfold validBookingId in V. simpl in V.
  destruct (String.eqb id "") eqn:E;
    [apply String.eqb_eq in E; exfalso;
     exact (isMongoId_nonempty _ V E)|].
  rewrite Hb.
  pose proof (findPaid_id _ _ _ Hb) as Hid. subst id.
  exact (findPaid_savePaid
           (mkPaidBooking (withStatus (paid_booking b) confirmed) _) bs b Hb).
Qed.

End VerifyFacts.

(** ** Uploads, identity documents and approval *)

Section TutorAdminFacts.
Import TutorAdmin.

Lemma prefix_head a s b t :
  String.prefix (String a s) (String b t) = true -> a = b.
Proof.
  simpl. destruct (ascii_dec a b); [intros _; assumption | discriminate].
Qed.

(** The upload filter lets a file through for four field names only, and
    no type of file is let through both as an intro video and as a
    document (certificate, Aadhaar document or PAN document). *)
Theorem fileFilter_fields fieldname mimetype :
  fileFilter fieldname mimetype = Accept ->
  In fieldname ["certificate"; "aadhaarDocument"; "panDocument";
                "introVideo"]
  /\ (fieldname = "introVideo" ->
      forall other, other <> "introVideo" ->
                    fileFilter other mimetype <> Accept)
  /\ (fieldname <> "introVideo" ->
      fileFilter "introVideo" mimetype <> Accept).
Proof.
  unfold fileFilter at 1.
  destruct (String.eqb fieldname "certificate") eqn:E1.
  { apply String.eqb_eq in E1. subst. cbn [orb].
    destruct (startsWith mimetype "image/" || _) eqn:Em; [|discriminate].
    intros _. split; [simpl; tauto|]. split; [discriminate|].
    intros _. unfold fileFilter. simpl.
    destruct (startsWith mimetype "video/") eqn:Ev; [|discriminate].
    exfalso. unfold startsWith in *.
    destruct mimetype as [|c m]; [discriminate|].
    apply prefix_head in Ev. subst c.
    apply orb_true_iff in Em. destruct Em as [Em|Em]; discriminate. }
  destruct (String.eqb fieldname "aadhaarDocument") eqn:E2.
  { apply String.eqb_eq in E2. subst. cbn [orb].
    destruct (startsWith mimetype "image/" || _) eqn:Em; [|discriminate].
    intros _. split; [simpl; tauto|]. split; [discriminate|].
    intros _. unfold fileFilter. simpl.
    destruct (startsWith mimetype "video/") eqn:Ev; [|discriminate].
    exfalso. unfold startsWith in *.
    destruct mimetype as [|c m]; [discriminate|].
    apply prefix_head in Ev. subst c.
    apply orb_true_iff in Em. destruct Em as [Em|Em]; discriminate. }
  destruct (String.eqb fieldname "panDocument") eqn:E3.
  { apply String.eqb_eq in E3. subst. cbn [orb].
    destruct (startsWith mimetype "image/" || _) eqn:Em; [|discriminate].
    intros _. split; [simpl; tauto|]. split; [discriminate|].
    intros _. unfold fileFilter. simpl.
    destruct (startsWith mimetype "video/") eqn:Ev; [|discriminate].
    exfalso. unfold startsWith in *.
    destruct mimetype as [|c m]; [discriminate|].
    apply prefix_head in Ev. subst c.
    apply orb_true_iff in Em. destruct Em as [Em|Em]; discriminate. }
  cbn [orb].
  destruct (String.eqb fieldname "introVideo") eqn:E4; [|discriminate].
  apply String.eqb_eq in E4. subst.
  destruct (startsWith mimetype "video/") eqn:Ev; [|discriminate].
  intros _. split; [simpl; tauto|]. split; [|congruence].
  intros _ other Hne. unfold fileFilter.
  assert (Hd : startsWith mimetype "image/"
               || String.eqb mimetype "application/pdf" = false).
  { unfold startsWith in *. destruct mimetype as [|c m]; [discriminate|].
    apply prefix_head in Ev. subst c. reflexivity. }
  rewrite Hd.
  destruct (String.eqb other "certificate" || _ || _); [discriminate|].
  apply String.eqb_neq in Hne. rewrite Hne. discriminate.
Qed.

Lemma maskDigits_length s :
  String.length (maskDigits s) = String.length s.
Proof.
  induction s as [|c s IH]; simpl; [reflexivity | rewrite IH; reflexivity].
Qed.

(** Of a twelve-digit Aadhaar number the KYC reply shows eight stars and
    the last four digits. *)
Theorem maskDigits_aadhaar s :
  matchesAadhaar s = true ->
  maskDigits s = "********" ++ substring 8 4 s.
Proof.
  unfold matchesAadhaar. intros H. apply andb_true_iff in H.
  destruct H as [Hl Hd]. apply Nat.eqb_eq in Hl.
  do 12 (destruct s as [|? s]; [discriminate|]).
  destruct s; [|discriminate].
  simpl in Hd.
  repeat (apply andb_true_iff in Hd;
          let H := fresh "D" in destruct Hd as [H Hd]).
  cbn [maskDigits fourDigitsAhead].
  repeat match goal with
         | H : isDigit ?c = true |- _ => rewrite H; clear H
         end.
  reflexivity.
Qed.

End TutorAdminFacts.

(** ** Verification status and the search *)

Section Visibility.
Import TutorAdmin TutorSearch.

Variable regexTest : string -> string -> bool.
Variable regExpCompiles : string -> bool.

Lemma saveTutor_In t ts x :
  NoDup (map tutor_id ts) ->
  In x (saveTutor t ts) ->
  x = t \/ (In x ts /\ tutor_id x <> tutor_id t).
Proof.
  induction ts as [|y ts IH]; simpl; intros Hnd Hin.
  - destruct Hin as [<-|[]]. left. reflexivity.
  - inversion Hnd as [|? ? Hy Hnd']; subst.
    destruct (String.eqb (tutor_id y) (tutor_id t)) eqn:E.
    + apply String.eqb_eq in E. destruct Hin as [<-|Hin];
        [left; reflexivity|].
      right. split; [right; exact Hin|].
      intros Hx. apply Hy. rewrite E, <- Hx. apply in_map. exact Hin.
    + apply String.eqb_neq in E. destruct Hin as [<-|Hin].
      * right. split; [left; reflexivity | exact E].
      * destruct (IH Hnd' Hin) as [->|[H1 H2]];
          [left; reflexivity | right; split; [right; exact H1 | exact H2]].
Qed.

Lemma saveTutor_present t ts old :
  find (fun x => String.eqb (tutor_id x) (tutor_id t)) ts = Some old ->
  In t (saveTutor t ts).
Proof.
  induction ts as [|y ts IH]; simpl; [discriminate|].
  destruct (String.eqb (tutor_id y) (tutor_id t));
    [intros _; left; reflexivity | intros H; right; exact (IH H)].
Qed.

Lemma matchesQuery_verified q t :
  matchesQuery regexTest q t = true ->
  isAvailableForBooking t = true /\ verificationStatus t = "verified".
Proof.
  unfold matchesQuery. intros H.
  do 7 (apply andb_true_iff in H; destruct H as [H _]).
  apply andb_true_iff in H. destruct H as [H1 H2].
  apply String.eqb_eq in H2. split; assumption.
Qed.

(** The search never returns a tutor who is not verified or who is not
    available for booking, whatever the request. *)
Theorem searchTutors_only_verified tutors q d h :
  data (searchTutors regexTest regExpCompiles tutors q) = Some d ->
  In h (found d) ->
  In (doc h) tutors
  /\ verificationStatus (doc h) = "verified"
  /\ isAvailableForBooking (doc h) = true.
Proof.
  intros Hd Hin.
  destruct (fetch_In _ _ _ _ (found_In_fetch _ _ _ _ _ _ Hd Hin))
    as (Ht & Hm & _).
  destruct (matchesQuery_verified _ _ Hm) as [Ha Hv].
  repeat split; assumption.
Qed.

(** A tutor with a status other than verified is in no result. *)
Lemma unverified_hidden ts t v q d h :
  NoDup (map tutor_id ts) ->
  v <> "verified" ->
  data (searchTutors regexTest regExpCompiles (saveTutor (withVerification t v) ts) q)
  = Some d ->
  In h (found d) ->
  tutor_id (doc h) <> tutor_id t.
Proof.
  intros Hnd Hv Hd Hin.
  destruct (fetch_In _ _ _ _ (found_In_fetch _ _ _ _ _ _ Hd Hin))
    as (Ht & Hm & _).
  destruct (matchesQuery_verified _ _ Hm) as [_ Hs].
  destruct (saveTutor_In _ _ _ Hnd Ht) as [E|[_ Hne]].
  - rewrite E in Hs. simpl in Hs. contradiction.
  - exact Hne.
Qed.

(** After a KYC upload the tutor is pending again and is in no search
    result, whatever the request, until approved. *)
Theorem uploadKyc_hides_from_search tutors user aadhaar pan files :
  NoDup (map tutor_id tutors) ->
  let out := uploadKyc tutors user aadhaar pan files in
  code (fst out) = 200 ->
  exists t,
    find (fun x => String.eqb (tutor_user x) (user_id user)) tutors = Some t
    /\ In (withVerification t "pending") (snd out)
    /\ forall q d h,
        data (searchTutors regexTest regExpCompiles (snd out) q) = Some d ->
        In h (found d) -> tutor_id (doc h) <> tutor_id t.
Proof.
  intros Hnd. cbv zeta. unfold uploadKyc.
  destruct (matchesAadhaar aadhaar && _); cbn [negb]; [|discriminate].
  destruct (aadhaarDocument files); [|discriminate].
  destruct (find _ tutors) as [t|] eqn:F; [|discriminate].
  intros _. exists t. split; [reflexivity|]. cbn [snd]. split.
  - apply find_some in F. destruct F as [Hin _].
    clear - Hin. induction tutors as [|y ts IH]; [contradiction|].
    simpl. destruct Hin as [->|Hin].
    + rewrite String.eqb_refl. left. reflexivity.
    + destruct (String.eqb (tutor_id y) (tutor_id t));
        [left; reflexivity | right; exact (IH Hin)].
  - intros q d h. apply unverified_hidden; [exact Hnd | discriminate].
Qed.

(** A rejected tutor is in no search result, whatever the request. *)
Theorem approveTutor_reject_hides tutors accounts id :
  NoDup (map tutor_id tutors) ->
  let out := approveTutor tutors accounts id "reject" in
  code (fst out) = 200 ->
  forall q d h,
    data (searchTutors regexTest regExpCompiles (fst (snd out)) q) = Some d ->
    In h (found d) -> tutor_id (doc h) <> id.
Proof.
  intros Hnd. cbv zeta. unfold approveTutor. cbn [includes existsb].
  simpl (negb _).
  destruct (find _ tutors) as [t|] eqn:F; [|discriminate].
  destruct (find _ accounts) as [a|]; [|discriminate].
  intros _ q d h. cbn [snd fst].
  apply find_some in F. destruct F as [_ Hid]. apply String.eqb_eq in Hid.
  rewrite <- Hid. apply unverified_hidden; [exact Hnd | discriminate].
Qed.

(** An approved tutor who is available for booking is among the tutors a
    search without filters and without coordinates draws its pages
    from, and the tutor's account is active. *)
Theorem approveTutor_approve_lists tutors accounts id t :
  let out := approveTutor tutors accounts id "approve" in
  code (fst out) = 200 ->
  find (fun x => String.eqb (tutor_id x) id) tutors = Some t ->
  isAvailableForBooking t = true ->
  In (mkHit (withVerification t "verified") None)
     (fetch regexTest (fst (snd out))
        (mkQuery None None None None None None None None None None None
                 None None))
  /\ In (mkAccount (tutor_user t) "active") (snd (snd out)).
Proof.
  cbv zeta. unfold approveTutor. cbn [includes existsb]. simpl (negb _).
  intros C F Ha. rewrite F in *.
  destruct (find _ accounts) as [a|] eqn:Fa; [|discriminate].
  cbn [snd fst]. split.
  - unfold fetch.
    apply in_map_iff. exists (withVerification t "verified").
    split; [reflexivity|]. apply filter_In. split.
    + apply (saveTutor_present (withVerification t "verified") tutors t).
      pose proof (find_some _ _ F) as [_ Hid]. apply String.eqb_eq in Hid.
      cbn [withVerification tutor_id]. rewrite Hid. exact F.
    + unfold matchesQuery. simpl. rewrite Ha. reflexivity.
  - apply find_some in Fa. destruct Fa as [Hin Hid].
    apply String.eqb_eq in Hid. rewrite <- Hid.
    clear - Hin. induction accounts as [|y l IH]; [contradiction|].
    simpl. destruct Hin as [->|Hin].
    + rewrite String.eqb_refl. left. reflexivity.
    + destruct (String.eqb (account_id y) (account_id a));
        [left; reflexivity | right; exact (IH Hin)].
Qed.

End Visibility.

(** ** Filters and pages of the search *)

Section SearchMore.
Import TutorSearch SearchOrder.

Variable regexTest : string -> string -> bool.
Variable regExpCompiles : string -> bool.

Lemma given_dropped o o' p :
  dropped o o' -> given o p = true -> given o' p = true.
Proof.
  intros [->| ->] H; [exact H | reflexivity].
Qed.

Lemma optional_dropped {A : Type} (o o' : option A) p :
  dropped o o' -> optional p o = true -> optional p o' = true.
Proof.
  intros [->| ->] H; [exact H | reflexivity].
Qed.

Lemma matchesQuery_relaxes q q' t :
  relaxes q q' ->
  matchesQuery regexTest q t = true -> matchesQuery regexTest q' t = true.
Proof.
  intros (R1 & R2 & R3 & R4 & R5 & R6 & R7 & _). unfold matchesQuery.
  rewrite !andb_true_iff.
  intros ((((((((Ha & Hv) & H1) & H2) & H3) & H4) & H5) & H6) & H7).
  repeat split; try assumption.
  - exact (given_dropped _ _ _ R1 H1).
  - exact (given_dropped _ _ _ R2 H2).
  - exact (given_dropped _ _ _ R3 H3).
  - exact (given_dropped _ _ _ R4 H4).
  - exact (given_dropped _ _ _ R5 H5).
  - exact (optional_dropped _ _ _ R6 H6).
  - exact (optional_dropped _ _ _ R7 H7).
Qed.

Lemma filter_length_le {A : Type} (p p' : A -> bool) l :
  (forall x, p x = true -> p' x = true) ->
  (List.length (filter p l) <= List.length (filter p' l))%nat.
Proof.
  intros Hpp. induction l as [|x l IH]; simpl; [lia|].
  destruct (p x) eqn:E.
  - rewrite (Hpp x E). simpl. lia.
  - destruct (p' x); simpl; lia.
Qed.

Lemma fetch_relaxes tutors q q' h :
  relaxes q q' ->
  In h (fetch regexTest tutors q) ->
  In h (fetch regexTest tutors q').
Proof.
  intros R. unfold fetch.
  rewrite !in_map_iff. intros (t & <- & Ht). exists t.
  split; [reflexivity|]. apply filter_In in Ht. apply filter_In.
  destruct Ht as [Hin Hm]. split; [exact Hin|].
  exact (matchesQuery_relaxes _ _ _ R Hm).
Qed.

Lemma fetch_length_relaxes tutors q q' :
  relaxes q q' ->
  (List.length (fetch regexTest tutors q)
   <= List.length (fetch regexTest tutors q'))%nat.
Proof.
  intros R. unfold fetch.
  rewrite !length_map. apply filter_length_le. intros t Hm.
  exact (matchesQuery_relaxes _ _ _ R Hm).
Qed.

(** Leaving filters out of a request never loses a tutor: every tutor
    returned for the request with the filters is among the tutors the
    request without them draws its pages from, and the total the reply
    counts does not go down. *)
Theorem searchTutors_fewer_filters tutors q q' d d' :
  relaxes q q' ->
  data (searchTutors regexTest regExpCompiles tutors q) = Some d ->
  data (searchTutors regexTest regExpCompiles tutors q') = Some d' ->
  totalTutors (pagination d) <= totalTutors (pagination d')
  /\ forall h, In h (found d) ->
               In h (sortTutors q' (fetch regexTest tutors q')).
Proof.
  intros R Hd Hd'.
  destruct (searchTutors_data _ _ _ _ _ Hd) as [_ E].
  destruct (searchTutors_data _ _ _ _ _ Hd') as [_ E'].
  split.
  - rewrite E, E'. unfold paginate. simpl.
    rewrite !sortTutors_length.
    pose proof (fetch_length_relaxes tutors q q' R). lia.
  - intros h Hin.
    eapply Permutation_in; [symmetry; apply sortTutors_perm|].
    apply (fetch_relaxes tutors q q' h R).
    exact (found_In_fetch _ _ _ _ _ _ Hd Hin).
Qed.

(** A page of the search holds at most [limit] tutors, never more than
    50, and a page that starts at or after the end of the results is
    empty and has no next page. *)
Theorem searchTutors_page_bounds tutors q d :
  data (searchTutors regexTest regExpCompiles tutors q) = Some d ->
  let page := withDefault 1 (q_page q) in
  let limit := withDefault 10 (q_limit q) in
  (Z.of_nat (List.length (found d)) <= limit <= 50)
  /\ Z.of_nat (List.length (found d)) <= totalTutors (pagination d)
  /\ (totalTutors (pagination d) <= (page - 1) * limit ->
      found d = [] /\ hasNext (pagination d) = false).
Proof.
  intros Hd. destruct (searchTutors_data _ _ _ _ _ Hd) as [Hv ->].
  destruct (validateSearch_page q Hv) as [Hp [Hl Hu]].
  cbv zeta. unfold paginate. simpl.
  set (all := sortTutors q (fetch regexTest tutors q)).
  replace (withDefault 1 (q_page q) * withDefault 10 (q_limit q))
    with ((withDefault 1 (q_page q) - 1) * withDefault 10 (q_limit q)
          + withDefault 10 (q_limit q)) by ring.
  rewrite slice_window by nia.
  split; [|split].
  - rewrite length_firstn. lia.
  - rewrite length_firstn, length_skipn. lia.
  - intros Hout. split.
    + rewrite skipn_all2 by lia. apply firstn_nil.
    + apply Z.ltb_ge. lia.
Qed.

(** Every tutor returned meets the rating, teaching-mode, class and board
    conditions of the request: a rating average of at least the minimum
    asked for, the teaching mode among the tutor's modes, and some
    subject entry for the class and some subject entry for the board. *)
Theorem searchTutors_meets_filters tutors q d h :
  data (searchTutors regexTest regExpCompiles tutors q) = Some d ->
  In h (found d) ->
  (forall r, q_minRating q = Some r -> (r <= ratingAverage (doc h))%Q)
  /\ (forall m, q_teachingMode q = Some m -> m <> "" ->
                In m (teachingModes (doc h)))
  /\ (forall c, q_class q = Some c -> c <> "" ->
                exists s, In s (subjects (doc h)) /\ In c (classes s))
  /\ (forall b, q_board q = Some b -> b <> "" ->
                exists s, In s (subjects (doc h)) /\ In b (boards s)).
Proof.
  intros Hd Hin.
  destruct (fetch_In _ _ _ _ (found_In_fetch _ _ _ _ _ _ Hd Hin))
    as (_ & Hm & _).
  unfold matchesQuery in Hm. rewrite !andb_true_iff in Hm.
  destruct Hm as ((((((((_ & _) & _) & _) & H3) & H4) & H5) & H6) & _).
  assert (Hinc : forall xs x, includes xs x = true -> In x xs).
  { intros xs x H. unfold includes in H. apply existsb_exists in H.
    destruct H as (y & Hy & E). apply String.eqb_eq in E. subst y.
    exact Hy. }
  assert (Hgiven : forall o p v, given o p = true -> o = Some v ->
                                 v <> "" -> p v = true).
  { intros o p v H -> Hne. simpl in H.
    destruct (String.eqb v "") eqn:E;
      [apply String.eqb_eq in E; contradiction | exact H]. }
  split; [|split; [|split]].
  - intros r Hr. rewrite Hr in H6. simpl in H6.
    apply Qle_bool_iff. exact H6.
  - intros m Hq Hne. apply Hinc. exact (Hgiven _ _ _ H5 Hq Hne).
  - intros c Hq Hne. pose proof (Hgiven _ _ _ H3 Hq Hne) as H.
    apply existsb_exists in H. destruct H as (s & Hs & Hc).
    exists s. split; [exact Hs | apply Hinc; exact Hc].
  - intros b Hq Hne. pose proof (Hgiven _ _ _ H4 Hq Hne) as H.
    apply existsb_exists in H. destruct H as (s & Hs & Hc).
    exists s. split; [exact Hs | apply Hinc; exact Hc].
Qed.

End SearchMore.

(** ** Formatting a geocoded address *)

Section PlacesFacts.
Import Places.

Lemma visit_part k acc c :
  part k (visit acc c) = if isKind k c then nameAs k c else part k acc.
Proof.
  destruct acc as [[city state] country].
  unfold visit, isKind, kindOf.
  destruct (includes (types c) "locality");
    [destruct k; reflexivity|].
  destruct (includes (types c) "administrative_area_level_1");
    [destruct k; reflexivity|].
  destruct (includes (types c) "country"); destruct k; reflexivity.
Qed.

Lemma fold_visit_part k cs :
  forall acc,
    part k (fold_left visit cs acc)
    = match find (isKind k) (rev cs) with
      | Some c => nameAs k c
      | None => part k acc
      end.
Proof.
  induction cs as [|c cs IH]; intros acc; [reflexivity|].
  cbn [fold_left rev]. rewrite IH, find_append, visit_part.
  destruct (find (isKind k) (rev cs)); [reflexivity|].
  cbn [find]. destruct (isKind k c); reflexivity.
Qed.

(** The formatted location is made of the long name of the last
    component taken for a locality, the short name of the last one taken
    for a first-level administrative area and the short name of the last
    one taken for a country, a component being taken for the first of
    the three that its types name; earlier components of a kind and
    components of no kind do not count. *)
Theorem formatLocationForDisplay_last_of_each cs :
  formatLocationForDisplay cs
  = render (lastNamed Locality cs, lastNamed Region cs,
            lastNamed Country cs).
Proof.
  unfold formatLocationForDisplay. f_equal.
  pose proof (fold_visit_part Locality cs ("", "", "")) as H1.
  pose proof (fold_visit_part Region cs ("", "", "")) as H2.
  pose proof (fold_visit_part Country cs ("", "", "")) as H3.
  destruct (fold_left visit cs ("", "", "")) as [[city state] country].
  simpl in H1, H2, H3. unfold lastNamed. rewrite H1, H2, H3.
  destruct (find (isKind Locality) (rev cs));
    destruct (find (isKind Region) (rev cs));
    destruct (find (isKind Country) (rev cs)); reflexivity.
Qed.

End PlacesFacts.

(** ** The haversine distance *)

Section HaversineFacts.
Import GeoSpec.
Open Scope R_scope.

Lemma haversine_unfold lat1 lon1 lat2 lon2 :
  Geo.calculateHaversineDistance lat1 lon1 lat2 lon2
  = Geo.round
      (6371 * (2 * Geo.atan2 (sqrt (haversineTerm lat1 lon1 lat2 lon2))
                     (sqrt (1 - haversineTerm lat1 lon1 lat2 lon2)))
       * 100) / 100.
Proof. reflexivity. Qed.

Lemma haversineTerm_sym lat1 lon1 lat2 lon2 :
  haversineTerm lat1 lon1 lat2 lon2 = haversineTerm lat2 lon2 lat1 lon1.
Proof.
  unfold haversineTerm, Geo.toRadians. cbv zeta.
  replace ((lat1 - lat2) * (PI / 180) / 2)
    with (- ((lat2 - lat1) * (PI / 180) / 2)) by lra.
  replace ((lon1 - lon2) * (PI / 180) / 2)
    with (- ((lon2 - lon1) * (PI / 180) / 2)) by lra.
  rewrite !sin_neg. ring.
Qed.

(** The distance from a first point to a second is the distance from
    the second to the first. *)
Theorem haversine_symmetric lat1 lon1 lat2 lon2 :
  Geo.calculateHaversineDistance lat1 lon1 lat2 lon2
  = Geo.calculateHaversineDistance lat2 lon2 lat1 lon1.
Proof.
  rewrite !haversine_unfold, (haversineTerm_sym lat1 lon1 lat2 lon2).
  reflexivity.
Qed.

Lemma round_small x : - / 2 <= x < / 2 -> Geo.round x = 0.
Proof.
  intros H. unfold Geo.round.
  rewrite <- (Int_part_spec (x + / 2) 0); [reflexivity|]. lra.
Qed.

(** The distance from a point to itself is zero. *)
Theorem haversine_same_point lat lon :
  Geo.calculateHaversineDistance lat lon lat lon = 0.
Proof.
  rewrite haversine_unfold.
  assert (E : haversineTerm lat lon lat lon = 0).
  { unfold haversineTerm, Geo.toRadians. cbv zeta.
    replace ((lat - lat) * (PI / 180) / 2) with 0 by lra.
    replace ((lon - lon) * (PI / 180) / 2) with 0 by lra.
    rewrite sin_0. ring. }
  rewrite E, Rminus_0_r, sqrt_0, sqrt_1.
  unfold Geo.atan2. destruct (Rlt_dec 0 1); [|lra].
  replace (0 / 1) with 0 by lra. rewrite atan_0.
  rewrite round_small by lra. lra.
Qed.

End HaversineFacts.

(** ** The further properties on the small marketplace *)

Lemma createBooking_appends_or_leaves_witness :
  let out := Sample.create SampleMore.dbA "64b7f0a1c2d3e4f5a6b7c8e4"
               (Sample.request "12:00" "13:00" 60) in
  code (fst out) = 201
  /\ Bookings.students (snd out) = Bookings.students SampleMore.dbA
  /\ Bookings.tutors (snd out) = Bookings.tutors SampleMore.dbA
  /\ ((code (fst out) <> 201 /\ data (fst out) = None
       /\ snd out = SampleMore.dbA)
      \/ (exists b,
            code (fst out) = 201 /\ data (fst out) = Some b
            /\ Bookings.bookings (snd out)
               = (Bookings.bookings SampleMore.dbA ++ [b])%list
            /\ booking_id b = "64b7f0a1c2d3e4f5a6b7c8e4"
            /\ status b = initialStatus /\ cancellation b = None
            /\ Bookings.findById "64b7f0a1c2d3e4f5a6b7c8e4"
                 (Bookings.bookings (snd out)) = Some b)).
Proof.
  cbv zeta. split; [reflexivity|].
  apply (createBooking_appends_or_leaves Sample.isISO8601 Sample.newDate
           Sample.alwaysOpen SampleMore.dbA Sample.userA
           "64b7f0a1c2d3e4f5a6b7c8e4" (Sample.request "12:00" "13:00" 60)).
  intros b [<-|[<-|[<-|[]]]]; discriminate.
Defined.

Lemma createBooking_slot_taken_witness :
  let out := Sample.create SampleMore.dbA "64b7f0a1c2d3e4f5a6b7c8e4"
               (Sample.request "10:00" "11:00" 60) in
  In SampleMore.first (Bookings.bookings SampleMore.dbA)
  /\ Bookings.isActive (status SampleMore.first) = true
  /\ code (fst out) <> 201 /\ data (fst out) = None
  /\ snd out = SampleMore.dbA.
Proof.
  cbv zeta. split; [left; reflexivity|]. split; [reflexivity|].
  apply (createBooking_slot_taken Sample.isISO8601 Sample.newDate
           Sample.alwaysOpen SampleMore.dbA Sample.userA
           "64b7f0a1c2d3e4f5a6b7c8e4" (Sample.request "10:00" "11:00" 60)
           SampleMore.first).
  - left; reflexivity.
  - reflexivity.
  - reflexivity.
  - reflexivity.
  - reflexivity.
  - reflexivity.
Defined.

Lemma createBooking_twice_rejected_witness :
  Bookings.isActive initialStatus = true
  /\ code (fst (Sample.create Sample.db0 "b1"
                  (Sample.request "10:00" "11:00" 60))) = 201
  /\ Sample.create
       (snd (Sample.create Sample.db0 "b1"
               (Sample.request "10:00" "11:00" 60)))
       "b2" (Sample.request "10:00" "11:00" 60)
     = (mkReply 400 false "Time slot is already booked" None,
        snd (Sample.create Sample.db0 "b1"
               (Sample.request "10:00" "11:00" 60))).
Proof.
  split; [reflexivity|]. split; [reflexivity|].
  apply (createBooking_twice_rejected Sample.isISO8601 Sample.newDate
           Sample.alwaysOpen Sample.db0 Sample.userA "b1" "b2"
           (Sample.request "10:00" "11:00" 60)).
  - reflexivity.
  - reflexivity.
Defined.

Lemma createBooking_after_cancel_witness :
  code (fst (Sample.create
               (snd (BookingViews.cancelRoute SampleMore.anyTime
                       SampleMore.wholeTotal
                       (snd (Sample.create Sample.db0
                               "64b7f0a1c2d3e4f5a6b7c8e1"
                               (Sample.request "10:00" "11:00" 60)))
                       Sample.jan15 SampleMore.adminUser
                       "64b7f0a1c2d3e4f5a6b7c8e1" "exam moved"))
               "64b7f0a1c2d3e4f5a6b7c8e2"
               (Sample.request "10:00" "11:00" 60))) = 201.
Proof.
  apply (createBooking_after_cancel SampleMore.anyTime SampleMore.wholeTotal
           Sample.isISO8601 Sample.newDate Sample.alwaysOpen Sample.db0
           Sample.userA "64b7f0a1c2d3e4f5a6b7c8e1"
           "64b7f0a1c2d3e4f5a6b7c8e2" (Sample.request "10:00" "11:00" 60)
           Sample.jan15 SampleMore.adminUser "exam moved").
  - intros b [].
  - reflexivity.
  - reflexivity.
Defined.

Lemma cancelRoute_only_parties_witness :
  code (fst (BookingViews.cancelRoute SampleMore.anyTime
               SampleMore.wholeTotal SampleMore.dbA Sample.jan15
               SampleMore.adminUser "64b7f0a1c2d3e4f5a6b7c8e2" "ill")) = 200
  /\ exists b,
      Bookings.findById "64b7f0a1c2d3e4f5a6b7c8e2"
        (Bookings.bookings SampleMore.dbA) = Some b
      /\ ((role SampleMore.adminUser = "student"
           /\ Bookings.studentUserOf SampleMore.dbA b
              = Some (user_id SampleMore.adminUser))
          \/ (role SampleMore.adminUser = "tutor"
              /\ Bookings.tutorUserOf SampleMore.dbA b
                 = Some (user_id SampleMore.adminUser))
          \/ role SampleMore.adminUser = "admin"
          \/ role SampleMore.adminUser = "employee").
Proof.
  split; [reflexivity|].
  apply (cancelRoute_only_parties SampleMore.anyTime SampleMore.wholeTotal
           SampleMore.dbA Sample.jan15 SampleMore.adminUser
           "64b7f0a1c2d3e4f5a6b7c8e2" "ill").
  reflexivity.
Defined.

Lemma listBookings_own_witness :
  data (BookingViews.listBookings SampleMore.dbA Sample.userA
          (BookingViews.mkListQuery None None None))
  = Some (BookingViews.mkBookingPage [SampleMore.third; SampleMore.first]
            (BookingViews.mkBookingPagination 1 1 2 false false))
  /\ In SampleMore.first (Bookings.bookings SampleMore.dbA)
  /\ (role Sample.userA = "student" ->
      exists st, In st (Bookings.students SampleMore.dbA)
                 /\ student_user st = user_id Sample.userA
                 /\ student SampleMore.first = student_id st)
  /\ (role Sample.userA = "tutor" ->
      exists t, In t (Bookings.tutors SampleMore.dbA)
                /\ tutor_user t = user_id Sample.userA
                /\ tutor SampleMore.first = tutor_id t)
  /\ (forall s, None = Some s -> s <> "" ->
                BookingViews.statusName (status SampleMore.first) = s).
Proof.
  split; [reflexivity|].
  apply (listBookings_own SampleMore.dbA Sample.userA
           (BookingViews.mkListQuery None None None)
           (BookingViews.mkBookingPage [SampleMore.third; SampleMore.first]
              (BookingViews.mkBookingPagination 1 1 2 false false))
           SampleMore.first).
  - reflexivity.
  - right. left. reflexivity.
Defined.

Lemma listBookings_page_witness :
  let pg := BookingViews.mkBookingPage [SampleMore.third]
              (BookingViews.mkBookingPagination 1 3 3 true false) in
  data (BookingViews.listBookings SampleMore.dbA SampleMore.adminUser
          (BookingViews.mkListQuery None (Some 1) (Some 1))) = Some pg
  /\ (Z.of_nat (List.length (BookingViews.page_bookings pg)) <= 1 <= 50)
  /\ StronglySorted BookingViews.latestFirst (BookingViews.page_bookings pg)
  /\ Z.of_nat (List.length (BookingViews.page_bookings pg))
     <= BookingViews.bp_totalBookings (BookingViews.page_pagination pg).
Proof.
  cbv zeta. split; [reflexivity|].
  apply (listBookings_page SampleMore.dbA SampleMore.adminUser
           (BookingViews.mkListQuery None (Some 1) (Some 1))
           (BookingViews.mkBookingPage [SampleMore.third]
              (BookingViews.mkBookingPagination 1 3 3 true false))).
  reflexivity.
Defined.

Lemma getBooking_only_parties_witness :
  data (BookingViews.getBooking SampleMore.dbA SampleMore.otherStudent
          "64b7f0a1c2d3e4f5a6b7c8e2") = Some SampleMore.second
  /\ data (BookingViews.getBooking SampleMore.dbA SampleMore.otherStudent
             "64b7f0a1c2d3e4f5a6b7c8e1") = None
  /\ Bookings.findById "64b7f0a1c2d3e4f5a6b7c8e2"
       (Bookings.bookings SampleMore.dbA) = Some SampleMore.second
  /\ ((role SampleMore.otherStudent = "student"
       /\ Bookings.studentUserOf SampleMore.dbA SampleMore.second
          = Some (user_id SampleMore.otherStudent))
      \/ (role SampleMore.otherStudent = "tutor"
          /\ Bookings.tutorUserOf SampleMore.dbA SampleMore.second
             = Some (user_id SampleMore.otherStudent))
      \/ role SampleMore.otherStudent = "admin"
      \/ role SampleMore.otherStudent = "employee").
Proof.
  split; [reflexivity|]. split; [reflexivity|].
  apply (getBooking_only_parties SampleMore.dbA SampleMore.otherStudent
           "64b7f0a1c2d3e4f5a6b7c8e2" SampleMore.second).
  reflexivity.
Defined.

Lemma refund_once_witness :
  let first :=
    Payments.refund SampleMore.refunds SampleMore.refunds SampleMore.ledger
      SampleMore.jan16 SampleMore.adminUser "64b7f0a1c2d3e4f5a6b7c8e1"
      (Some 100%float) "lesson cut short" in
  code (fst first) = 200
  /\ code (fst (Payments.refund SampleMore.refunds SampleMore.refunds
                  (snd first) SampleMore.jan16 SampleMore.adminUser
                  "64b7f0a1c2d3e4f5a6b7c8e1" None "the rest")) <> 200
  /\ snd (Payments.refund SampleMore.refunds SampleMore.refunds
            (snd first) SampleMore.jan16 SampleMore.adminUser
            "64b7f0a1c2d3e4f5a6b7c8e1" None "the rest") = snd first.
Proof.
  cbv zeta. split; [reflexivity|].
  apply (refund_once SampleMore.refunds SampleMore.refunds SampleMore.ledger
           SampleMore.jan16 SampleMore.adminUser "64b7f0a1c2d3e4f5a6b7c8e1"
           (Some 100%float) "lesson cut short" SampleMore.jan16
           SampleMore.adminUser None "the rest").
  reflexivity.
Defined.

Lemma refund_defaults_to_total_witness :
  let out :=
    Payments.refund SampleMore.refunds SampleMore.refunds SampleMore.ledger
      SampleMore.jan16 SampleMore.adminUser "64b7f0a1c2d3e4f5a6b7c8e1" None
      "tutor absent" in
  code (fst out) = 200
  /\ exists b' r,
      Payments.findPaid "64b7f0a1c2d3e4f5a6b7c8e1" (snd out) = Some b'
      /\ Payments.pay_status (Payments.paid_payment b') = "refunded"
      /\ Payments.pay_refundAmount (Payments.paid_payment b')
         = Some (totalAmount (pricing (Payments.paid_booking
                                         SampleMore.paidFirst)))
      /\ Payments.paid_booking b' = Payments.paid_booking SampleMore.paidFirst
      /\ data (fst out)
         = Some (Payments.mkRefunded (Payments.gr_id r)
                   (totalAmount (pricing (Payments.paid_booking
                                            SampleMore.paidFirst)))
                   (Payments.gr_status r)).
Proof.
  cbv zeta. split; [reflexivity|].
  apply (refund_defaults_to_total SampleMore.refunds SampleMore.refunds
           SampleMore.ledger SampleMore.jan16 SampleMore.adminUser
           "64b7f0a1c2d3e4f5a6b7c8e1" "tutor absent" SampleMore.paidFirst);
    reflexivity.
Defined.

Lemma verifyRazorpay_confirms_witness :
  let out :=
    Payments.verifyRazorpay SampleMore.mac SampleMore.secret
      SampleMore.captured SampleMore.ledger SampleMore.jan16 "order_2"
      "pay_2" "mac(key-secret,order_2|pay_2)"
      (Some "64b7f0a1c2d3e4f5a6b7c8e2") in
  code (fst out) = 200
  /\ Payments.findPaid "64b7f0a1c2d3e4f5a6b7c8e2" (snd out)
     = Some (Payments.mkPaidBooking
               (Payments.withStatus SampleMore.second confirmed)
               (Payments.mkPaymentInfo "paid" "razorpay" "pay_2" "order_2"
                  (Some SampleMore.jan16) None None None)).
Proof.
  cbv zeta. split; [reflexivity|].
  apply (verifyRazorpay_confirms SampleMore.mac SampleMore.secret
           SampleMore.captured SampleMore.ledger SampleMore.jan16 "order_2"
           "pay_2" "mac(key-secret,order_2|pay_2)"
           "64b7f0a1c2d3e4f5a6b7c8e2" SampleMore.unpaidSecond);
    reflexivity.
Defined.

Lemma fileFilter_fields_witness :
  TutorAdmin.fileFilter "aadhaarDocument" "application/pdf" = TutorAdmin.Accept
  /\ In "aadhaarDocument"
        ["certificate"; "aadhaarDocument"; "panDocument"; "introVideo"]
  /\ ("aadhaarDocument" = "introVideo" ->
      forall other, other <> "introVideo" ->
        TutorAdmin.fileFilter other "application/pdf" <> TutorAdmin.Accept)
  /\ ("aadhaarDocument" <> "introVideo" ->
      TutorAdmin.fileFilter "introVideo" "application/pdf"
      <> TutorAdmin.Accept).
Proof.
  split; [reflexivity|].
  apply (fileFilter_fields "aadhaarDocument" "application/pdf").
  reflexivity.
Defined.

Lemma maskDigits_aadhaar_witness :
  TutorAdmin.matchesAadhaar "123456789012" = true
  /\ TutorAdmin.maskDigits "123456789012" = "********9012"
  /\ TutorAdmin.maskDigits "123456789012"
     = "********" ++ substring 8 4 "123456789012".
Proof.
  split; [reflexivity|]. split; [reflexivity|].
  apply (maskDigits_aadhaar "123456789012"). reflexivity.
Defined.

Lemma tutorsBCD_distinct : NoDup (map tutor_id SampleMore.tutorsBCD).
Proof.
  repeat constructor; simpl; intuition discriminate.
Qed.

Lemma searchTutors_only_verified_witness :
  let d := TutorSearch.paginate Sample.anyTutor
             [TutorSearch.mkHit Sample.tutorD None;
              TutorSearch.mkHit Sample.tutorB None] in
  data (Sample.search
          [Sample.tutorB;
           TutorAdmin.withVerification Sample.tutorC "pending";
           Sample.tutorD] Sample.anyTutor) = Some d
  /\ In Sample.tutorB
        [Sample.tutorB; TutorAdmin.withVerification Sample.tutorC "pending";
         Sample.tutorD]
  /\ verificationStatus Sample.tutorB = "verified"
  /\ isAvailableForBooking Sample.tutorB = true.
Proof.
  cbv zeta. split; [reflexivity|].
  apply (searchTutors_only_verified Sample.literalRegex Sample.plainPattern
           [Sample.tutorB; TutorAdmin.withVerification Sample.tutorC "pending";
            Sample.tutorD] Sample.anyTutor
           (TutorSearch.paginate Sample.anyTutor
              [TutorSearch.mkHit Sample.tutorD None;
               TutorSearch.mkHit Sample.tutorB None])
           (TutorSearch.mkHit Sample.tutorB None)).
  - reflexivity.
  - right. left. reflexivity.
Defined.

Lemma uploadKyc_hides_from_search_witness :
  let out :=
    TutorAdmin.uploadKyc SampleMore.tutorsBCD (mkUser "user-tutor-c" "tutor")
      "123456789012" (Some "ABCDE1234F")
      (TutorAdmin.mkKycFiles (Some "uploads/tutors/aadhaar.pdf") None) in
  code (fst out) = 200
  /\ data (fst out)
     = Some (TutorAdmin.mkKycReply "pending" "********9012"
               (Some "ABCDE1234F"))
  /\ exists t,
      find (fun x => String.eqb (tutor_user x) "user-tutor-c")
           SampleMore.tutorsBCD = Some t
      /\ In (TutorAdmin.withVerification t "pending") (snd out)
      /\ forall q d h,
          data (TutorSearch.searchTutors Sample.literalRegex
                  Sample.plainPattern (snd out) q) = Some d ->
          In h (TutorSearch.found d) ->
          tutor_id (TutorSearch.doc h) <> tutor_id t.
Proof.
  cbv zeta. split; [reflexivity|]. split; [reflexivity|].
  apply (uploadKyc_hides_from_search Sample.literalRegex Sample.plainPattern
           SampleMore.tutorsBCD (mkUser "user-tutor-c" "tutor")
           "123456789012" (Some "ABCDE1234F")
           (TutorAdmin.mkKycFiles (Some "uploads/tutors/aadhaar.pdf") None)).
  - exact tutorsBCD_distinct.
  - reflexivity.
Defined.

Lemma approveTutor_reject_hides_witness :
  let out :=
    TutorAdmin.approveTutor SampleMore.tutorsBCD SampleMore.accounts
      "64b7f0a1c2d3e4f5a6b7c8dc" "reject" in
  let d := TutorSearch.paginate Sample.anyTutor
             [TutorSearch.mkHit Sample.tutorB None;
              TutorSearch.mkHit Sample.tutorC None] in
  code (fst out) = 200
  /\ data (Sample.search (fst (snd out)) Sample.anyTutor) = Some d
  /\ tutor_id Sample.tutorB <> "64b7f0a1c2d3e4f5a6b7c8dc".
Proof.
  cbv zeta. split; [reflexivity|]. split; [reflexivity|].
  apply (approveTutor_reject_hides Sample.literalRegex Sample.plainPattern
           SampleMore.tutorsBCD SampleMore.accounts
           "64b7f0a1c2d3e4f5a6b7c8dc" tutorsBCD_distinct eq_refl
           Sample.anyTutor
           (TutorSearch.paginate Sample.anyTutor
              [TutorSearch.mkHit Sample.tutorB None;
               TutorSearch.mkHit Sample.tutorC None])
           (TutorSearch.mkHit Sample.tutorB None)).
  - reflexivity.
  - left. reflexivity.
Defined.

Lemma approveTutor_approve_lists_witness :
  let pending := TutorAdmin.withVerification Sample.tutorD "pending" in
  let out :=
    TutorAdmin.approveTutor [Sample.tutorB; pending] SampleMore.accounts
      "64b7f0a1c2d3e4f5a6b7c8dc" "approve" in
  code (fst out) = 200
  /\ In (TutorSearch.mkHit (TutorAdmin.withVerification pending "verified")
                           None)
        (TutorSearch.fetch Sample.literalRegex (fst (snd out)) Sample.anyTutor)
  /\ In (TutorAdmin.mkAccount (tutor_user pending) "active") (snd (snd out)).
Proof.
  cbv zeta. split; [reflexivity|].
  apply (approveTutor_approve_lists Sample.literalRegex
           [Sample.tutorB; TutorAdmin.withVerification Sample.tutorD "pending"]
           SampleMore.accounts "64b7f0a1c2d3e4f5a6b7c8dc"
           (TutorAdmin.withVerification Sample.tutorD "pending"));
    reflexivity.
Defined.

Lemma searchTutors_fewer_filters_witness :
  let q := TutorSearch.mkQuery None None (Some "12") None None (Some 5%Q)
             None None None None None None None in
  let d := TutorSearch.paginate q [TutorSearch.mkHit Sample.tutorD None] in
  let d' := TutorSearch.paginate Sample.anyTutor
              [TutorSearch.mkHit Sample.tutorD None;
               TutorSearch.mkHit Sample.tutorB None;
               TutorSearch.mkHit Sample.tutorC None] in
  data (Sample.search SampleMore.tutorsBCD q) = Some d
  /\ data (Sample.search SampleMore.tutorsBCD Sample.anyTutor) = Some d'
  /\ TutorSearch.totalTutors (TutorSearch.pagination d)
     <= TutorSearch.totalTutors (TutorSearch.pagination d')
  /\ forall h, In h (TutorSearch.found d) ->
               In h (TutorSearch.sortTutors Sample.anyTutor
                       (TutorSearch.fetch Sample.literalRegex SampleMore.tutorsBCD
                          Sample.anyTutor)).
Proof.
  cbv zeta. split; [reflexivity|]. split; [reflexivity|].
  apply (searchTutors_fewer_filters Sample.literalRegex Sample.plainPattern
           SampleMore.tutorsBCD
           (TutorSearch.mkQuery None None (Some "12") None None (Some 5%Q)
              None None None None None None None)
           Sample.anyTutor).
  - unfold SearchOrder.relaxes, SearchOrder.dropped. simpl.
    repeat split; (left; reflexivity) || (right; reflexivity) || reflexivity.
  - reflexivity.
  - reflexivity.
Defined.

Lemma searchTutors_page_bounds_witness :
  let q := TutorSearch.mkQuery None None None None None None None None None
             None (Some 3) (Some 2) None in
  let d := TutorSearch.mkSearchData []
             (TutorSearch.mkPagination 3 2 3 false true) in
  data (Sample.search SampleMore.tutorsBCD q) = Some d
  /\ (Z.of_nat (List.length (TutorSearch.found d)) <= 2 <= 50)
  /\ Z.of_nat (List.length (TutorSearch.found d))
     <= TutorSearch.totalTutors (TutorSearch.pagination d)
  /\ (TutorSearch.totalTutors (TutorSearch.pagination d) <= (3 - 1) * 2 ->
      TutorSearch.found d = []
      /\ TutorSearch.hasNext (TutorSearch.pagination d) = false).
Proof.
  cbv zeta. split; [reflexivity|].
  apply (searchTutors_page_bounds Sample.literalRegex Sample.plainPattern
           SampleMore.tutorsBCD
           (TutorSearch.mkQuery None None None None None None None None None
              None (Some 3) (Some 2) None)
           (TutorSearch.mkSearchData []
              (TutorSearch.mkPagination 3 2 3 false true))).
  reflexivity.
Defined.

Lemma searchTutors_meets_filters_witness :
  let q := TutorSearch.mkQuery None None (Some "12") (Some "CBSE")
             (Some "online") (Some (9 # 2)%Q) None None None None None None
             None in
  let h := TutorSearch.mkHit Sample.tutorB None in
  data (Sample.search SampleMore.tutorsBCD q)
  = Some (TutorSearch.paginate q [h])
  /\ (forall r, Some (9 # 2)%Q = Some r ->
                (r <= ratingAverage (TutorSearch.doc h))%Q)
  /\ (forall m, Some "online" = Some m -> m <> "" ->
                In m (teachingModes (TutorSearch.doc h)))
  /\ (forall c, Some "12" = Some c -> c <> "" ->
                exists s, In s (subjects (TutorSearch.doc h))
                          /\ In c (classes s))
  /\ (forall b, Some "CBSE" = Some b -> b <> "" ->
                exists s, In s (subjects (TutorSearch.doc h))
                          /\ In b (boards s)).
Proof.
  cbv zeta. split; [reflexivity|].
  apply (searchTutors_meets_filters Sample.literalRegex Sample.plainPattern
           SampleMore.tutorsBCD
           (TutorSearch.mkQuery None None (Some "12") (Some "CBSE")
              (Some "online") (Some (9 # 2)%Q) None None None None None None
              None)
           (TutorSearch.paginate
              (TutorSearch.mkQuery None None (Some "12") (Some "CBSE")
                 (Some "online") (Some (9 # 2)%Q) None None None None None
                 None None)
              [TutorSearch.mkHit Sample.tutorB None])
           (TutorSearch.mkHit Sample.tutorB None)).
  - reflexivity.
  - left. reflexivity.
Defined.

